(** * Multi-Agent Disaster Response System: a shallow embedding of [main.py]

    The development follows the Python source class by class.  Python
    dictionaries are insertion-ordered association lists, Python [int] is
    [Z], Python [float] is IEEE-754 binary64 as specified by the Standard
    Library's [SpecFloat], and a raised exception is [None]. *)

From Stdlib Require Import ZArith List String Ascii Bool Lia Permutation Sorted.
From Stdlib Require Import SpecFloat.
From Stdlib Require Import DecimalString.
Import ListNotations.
Open Scope string_scope.
Open Scope list_scope.
Open Scope Z_scope.

(** ** Python dictionaries with string keys *)

Module Dict.

Definition dict (V : Type) := list (string * V).

Definition keys {V} (d : dict V) : list string := map fst d.

Fixpoint get {V} (d : dict V) (k : string) : option V :=
  match d with
  | [] => None
  | (k', v) :: d' => if String.eqb k k' then Some v else get d' k
  end.

(** [d[k] = v]: an existing key keeps its position, a new key is appended. *)
Fixpoint set {V} (d : dict V) (k : string) (v : V) : dict V :=
  match d with
  | [] => [(k, v)]
  | (k', v') :: d' =>
      if String.eqb k k' then (k', v) :: d' else (k', v') :: set d' k v
  end.

Definition mem {V} (d : dict V) (k : string) : bool :=
  match get d k with Some _ => true | None => false end.

(** [d.update(other)] *)
Definition update {V} (d other : dict V) : dict V :=
  fold_left (fun acc kv => set acc (fst kv) (snd kv)) other d.

(** A well-formed dictionary holds each key once. *)
Definition wf {V} (d : dict V) : Prop := NoDup (keys d).

End Dict.

Abbreviation dict := Dict.dict.

(** ** Python numbers *)

Module PyNum.

Definition prec : Z := 53.
Definition emax : Z := 1024.

Definition float := spec_float.

(** [float(n)] for an [int] n: correctly rounded, [OverflowError] when the
    result is not finite. *)
Definition float_of_int (n : Z) : option float :=
  match binary_normalize prec emax n 0 false with
  | S754_infinity _ | S754_nan => None
  | f => Some f
  end.

(** [a / b] on two [int]s (true division): the correctly rounded quotient,
    [ZeroDivisionError] for [b = 0], [OverflowError] when not finite. *)
Definition int_truediv (a b : Z) : option float :=
  match a, b with
  | _, Z0 => None
  | Z0, _ => Some (S754_zero (b <? 0))
  | Zpos p, Zpos q =>
      match SFdiv prec emax (S754_finite false p 0) (S754_finite false q 0) with
      | S754_infinity _ | S754_nan => None | f => Some f end
  | Zpos p, Zneg q =>
      match SFdiv prec emax (S754_finite false p 0) (S754_finite true q 0) with
      | S754_infinity _ | S754_nan => None | f => Some f end
  | Zneg p, Zpos q =>
      match SFdiv prec emax (S754_finite true p 0) (S754_finite false q 0) with
      | S754_infinity _ | S754_nan => None | f => Some f end
  | Zneg p, Zneg q =>
      match SFdiv prec emax (S754_finite true p 0) (S754_finite true q 0) with
      | S754_infinity _ | S754_nan => None | f => Some f end
  end.

(** [n * f] for an [int] n and a [float] f. *)
Definition int_mul_float (n : Z) (f : float) : option float :=
  match float_of_int n with
  | Some x => Some (SFmul prec emax x f)
  | None => None
  end.

(** [int(f)]: truncation toward zero; infinities and NaN raise. *)
Definition int_of_float (f : float) : option Z :=
  match f with
  | S754_zero _ => Some 0
  | S754_finite s m e =>
      let a := match e with
               | Zneg p => Z.shiftr (Zpos m) (Zpos p)
               | _ => Z.shiftl (Zpos m) e
               end in
      Some (if s then - a else a)
  | S754_infinity _ | S754_nan => None
  end.

(** [math.floor(f)]: the greatest integer not above [f]. *)
Definition floor_of_float (f : float) : option Z :=
  match f with
  | S754_zero _ => Some 0
  | S754_finite s m e =>
      let v := if s then Zneg m else Zpos m in
      Some match e with
           | Zneg p => Z.shiftr v (Zpos p)
           | _ => Z.shiftl v e
           end
  | S754_infinity _ | S754_nan => None
  end.

End PyNum.

(** ** Exceptions: a raised exception is [None] *)

Definition bind {A B} (x : option A) (f : A -> option B) : option B :=
  match x with Some a => f a | None => None end.

Notation "x <- c1 ;; c2" := (bind c1 (fun x => c2))
  (at level 61, c1 at next level, right associativity).
Notation "' pat <- c1 ;; c2" := (bind c1 (fun x => match x with pat => c2 end))
  (at level 61, pat pattern, c1 at next level, right associativity).

(** ** Area demands and the coordinator's allocation (class ReliefCoordinatorAgent) *)

Record AreaDemand := mkArea {
  name : string;
  severity : Z;
  population : Z;
  needs : list string
}.

(** The sort key [x["severity"] * x["population"]]. *)
Definition priority (a : AreaDemand) : Z := severity a * population a.

(** [sorted(l, key=key, reverse=True)]: Python's sort is stable, also under
    [reverse=True]; the result is the one a stable insertion sort in
    descending key order gives. *)
Section Sorted.
Context {A : Type} (key : A -> Z).

Fixpoint insert_desc (x : A) (l : list A) : list A :=
  match l with
  | [] => [x]
  | y :: l' =>
      if key x <? key y then y :: insert_desc x l' else x :: y :: l'
  end.

Fixpoint sorted_desc (l : list A) : list A :=
  match l with
  | [] => []
  | x :: l' => insert_desc x (sorted_desc l')
  end.

(** Descending order of keys. *)
Definition desc (x y : A) : Prop := key y <= key x.

End Sorted.

Definition update_priority_areas (area_data : list AreaDemand) : list AreaDemand :=
  sorted_desc priority area_data.

(** [sum(a["severity"] * a["population"] for a in self.priority_areas)] *)
Definition total_priority_weight (areas : list AreaDemand) : Z :=
  fold_left Z.add (map priority areas) 0.

(** [area_weight] is a [float] when the total is positive and the [int] 0
    otherwise. *)
Inductive weight :=
  | W_zero
  | W_float (f : PyNum.float).

Definition area_weight (a : AreaDemand) (total : Z) : option weight :=
  if 0 <? total
  then f <- PyNum.int_truediv (priority a) total ;; Some (W_float f)
  else Some W_zero.

(** [int(total_quantity * area_weight)] *)
Definition allocated_quantity (total_quantity : Z) (w : weight) : option Z :=
  match w with
  | W_zero => Some 0
  | W_float f => p <- PyNum.int_mul_float total_quantity f ;; PyNum.int_of_float p
  end.

Definition plan := dict (dict Z).

(** One iteration of the inner loop, for the resource [resource_type];
    the state is the area's row of the plan and [remaining_resources]. *)
Definition allocate_resource (w : weight) (st : dict Z * dict Z)
    (resource_type : string) : option (dict Z * dict Z) :=
  let '(row, remaining) := st in
  total_quantity <- Dict.get remaining resource_type ;;
  n <- allocated_quantity total_quantity w ;;
  if 0 <? n
  then Some (Dict.set row resource_type n,
             Dict.set remaining resource_type (total_quantity - n))
  else Some (row, remaining).

Fixpoint for_each {S A} (body : S -> A -> option S) (l : list A) (s : S) : option S :=
  match l with
  | [] => Some s
  | x :: l' => s' <- body s x ;; for_each body l' s'
  end.

(** One iteration of the outer loop, for [area]. *)
Definition allocate_area (priority_areas : list AreaDemand)
    (st : plan * dict Z) (area : AreaDemand) : option (plan * dict Z) :=
  let '(allocation_plan, remaining) := st in
  let allocation_plan := Dict.set allocation_plan (name area) [] in
  let total := total_priority_weight priority_areas in
  w <- area_weight area total ;;
  '(row, remaining') <-
     for_each (allocate_resource w) (Dict.keys remaining) ([], remaining) ;;
  Some (Dict.set allocation_plan (name area) row, remaining').

(** The plan built by [optimize_resource_allocation] from the held
    [priority_areas] and a copy of [disaster_context.resources], together
    with the final [remaining_resources]. *)
Definition allocation_loop (priority_areas : list AreaDemand)
    (resources : dict Z) : option (plan * dict Z) :=
  for_each (allocate_area priority_areas) priority_areas ([], resources).

Definition allocation_plan_of (priority_areas : list AreaDemand)
    (resources : dict Z) : option plan :=
  '(p, _) <- allocation_loop priority_areas resources ;; Some p.

(** ** Text formatting *)

(** [str(n)] for an [int]. *)
Definition str_of_int (n : Z) : string := NilZero.string_of_int (Z.to_int n).

(** ** The environment: wall clock and random source

    [datetime.now()], [time.time()] and [random.randint] are the only
    inputs that do not come through a message.  The [k]-th read of either
    is a function of [k]; the world counts the reads. *)

Record Env := mkEnv {
  now_us : nat -> Z;          (* clock reading in microseconds *)
  rand : nat -> Z             (* raw random draw *)
}.

(** [int(time.time())] at read [k]: [int] truncates toward zero, so a
    reading before the epoch rounds up to the next whole second. *)
Definition time_s (env : Env) (k : nat) : Z := Z.quot (now_us env k) 1000000.

(** [random.randint(lo, hi)] at read [k]. *)
Definition randint (env : Env) (k : nat) (lo hi : Z) : Z :=
  lo + rand env k mod (hi - lo + 1).

(** ** Messages *)

Record Volunteer := mkVolunteer {
  vol_id : string;
  vol_name : string;
  skills : list string;
  vol_location : string;
  available : bool
}.

Record Task := mkTask {
  task_id : string;
  task_type : string;
  description : string;
  location : string;
  resources : dict Z;
  required_skills : list string;
  task_priority : Z
}.

Record Prediction := mkPrediction {
  pred_id : string;
  pred_type : string;
  risk_level : Z;
  areas_affected : list string;
  recommended_actions : list string
}.

(** The [content] dictionary by its ["type"] tag; [Other] is a content whose
    tag no agent looks for, or that has no tag. *)
Inductive Content :=
  | NeedAssessment (area_data : list AreaDemand)
  | NewAllocationPlan (p : plan)
  | Alert (alert_type message : string) (areas actions : list string)
  | EmergencyAlert (alert_type message : string) (areas actions : list string)
  | NewData (source : string) (data : dict Z)
  | RequestAreaAssessment (disaster_type loc : string)
  | VolunteerStatus (total_volunteers : Z)
  | CommunicationSystemStatus (status : string) (teams_connected : Z)
  | Other (tag : option string).

Record Message := mkMessage {
  msg_from : string;
  msg_to : string;
  timestamp : Z;
  content : Content
}.

(** ** Agent states *)

Record DisasterContext := mkContext {
  disaster_type : string;
  ctx_location : string;
  ctx_severity : Z;
  affected_areas : list string;
  victims : dict string;
  ctx_resources : dict Z;
  ctx_volunteers : dict string;
  rescue_teams : dict string;
  current_tasks : dict string;
  ctx_data_sources : dict string
}.

Record ReliefCoordinatorAgent := mkRelief {
  relief_id : string;
  relief_messages : list Message;
  resource_allocation_plan : plan;
  priority_areas : list AreaDemand
}.

Record VolunteerCoordinationAgent := mkVolunteerAgent {
  volunteer_agent_id : string;
  volunteer_messages : list Message;
  available_volunteers : dict Volunteer;
  skills_registry : dict (list string);
  task_assignments : dict string;
  pending_tasks : list Task
}.

Record CommunicationAgent := mkComm {
  comm_id : string;
  comm_messages : list Message;
  victim_requests : dict string;
  rescue_team_locations : dict (PyNum.float * PyNum.float);
  message_log : list string;
  priority_messages : list string
}.

Record Sample := mkSample {
  sample_timestamp : Z;
  sample_data : dict Z
}.

Record AnalyticsPredictionAgent := mkAnalytics {
  analytics_id : string;
  analytics_messages : list Message;
  data_sources : dict (list Sample);
  predictions : dict Prediction
}.

(** The four agent objects of [main]; a subscriber is the bound
    [receive_message] of one of them. *)
Inductive AgentRef := Relief | VolunteerCoordinator | Communication | Analytics.

(** What the broker reports for one [publish_message] call. *)
Inductive BusEvent :=
  | Delivered (m : Message)
  | NoSubscriber (m : Message).

Record World := mkWorld {
  subscribers : dict AgentRef;
  context : DisasterContext;
  relief : ReliefCoordinatorAgent;
  volunteer : VolunteerCoordinationAgent;
  communication : CommunicationAgent;
  analytics : AnalyticsPredictionAgent;
  reads : nat;                 (* clock and random reads so far *)
  bus_log : list BusEvent      (* the broker's log, oldest first *)
}.

(** ** Outcomes of a call: a result, an exception, or an exhausted call depth *)

Inductive Outcome (A : Type) :=
  | Done (a : A)
  | Raised
  | OutOfFuel.
Arguments Done {A} a.
Arguments Raised {A}.
Arguments OutOfFuel {A}.

Definition obind {A B} (x : Outcome A) (f : A -> Outcome B) : Outcome B :=
  match x with Done a => f a | Raised => Raised | OutOfFuel => OutOfFuel end.

Notation "x <~ c1 ;; c2" := (obind c1 (fun x => c2))
  (at level 61, c1 at next level, right associativity).
Notation "' pat <~ c1 ;; c2" := (obind c1 (fun x => match x with pat => c2 end))
  (at level 61, pat pattern, c1 at next level, right associativity).

Definition lift {A} (x : option A) : Outcome A :=
  match x with Some a => Done a | None => Raised end.

Fixpoint for_each_o {S A} (body : S -> A -> Outcome S) (l : list A) (s : S) : Outcome S :=
  match l with
  | [] => Done s
  | x :: l' => s' <~ body s x ;; for_each_o body l' s'
  end.

(** ** Field updates *)

Definition set_relief (w : World) (r : ReliefCoordinatorAgent) : World :=
  mkWorld (subscribers w) (context w) r (volunteer w) (communication w)
          (analytics w) (reads w) (bus_log w).
Definition set_volunteer (w : World) (v : VolunteerCoordinationAgent) : World :=
  mkWorld (subscribers w) (context w) (relief w) v (communication w)
          (analytics w) (reads w) (bus_log w).
Definition set_communication (w : World) (c : CommunicationAgent) : World :=
  mkWorld (subscribers w) (context w) (relief w) (volunteer w) c
          (analytics w) (reads w) (bus_log w).
Definition set_analytics (w : World) (a : AnalyticsPredictionAgent) : World :=
  mkWorld (subscribers w) (context w) (relief w) (volunteer w) (communication w)
          a (reads w) (bus_log w).
Definition set_context (w : World) (c : DisasterContext) : World :=
  mkWorld (subscribers w) c (relief w) (volunteer w) (communication w)
          (analytics w) (reads w) (bus_log w).
Definition set_subscribers (w : World) (s : dict AgentRef) : World :=
  mkWorld s (context w) (relief w) (volunteer w) (communication w)
          (analytics w) (reads w) (bus_log w).
Definition tick (w : World) : World :=
  mkWorld (subscribers w) (context w) (relief w) (volunteer w) (communication w)
          (analytics w) (S (reads w)) (bus_log w).
Definition log_event (w : World) (e : BusEvent) : World :=
  mkWorld (subscribers w) (context w) (relief w) (volunteer w) (communication w)
          (analytics w) (reads w) (bus_log w ++ [e]).

Definition agent_id (w : World) (a : AgentRef) : string :=
  match a with
  | Relief => relief_id (relief w)
  | VolunteerCoordinator => volunteer_agent_id (volunteer w)
  | Communication => comm_id (communication w)
  | Analytics => analytics_id (analytics w)
  end.

(** [self.messages.append(message)] *)
Definition record_message (a : AgentRef) (m : Message) (w : World) : World :=
  match a with
  | Relief =>
      let r := relief w in
      set_relief w (mkRelief (relief_id r) (relief_messages r ++ [m])
                             (resource_allocation_plan r) (priority_areas r))
  | VolunteerCoordinator =>
      let v := volunteer w in
      set_volunteer w (mkVolunteerAgent (volunteer_agent_id v)
                         (volunteer_messages v ++ [m]) (available_volunteers v)
                         (skills_registry v) (task_assignments v) (pending_tasks v))
  | Communication =>
      let c := communication w in
      set_communication w (mkComm (comm_id c) (comm_messages c ++ [m])
                             (victim_requests c) (rescue_team_locations c)
                             (message_log c) (priority_messages c))
  | Analytics =>
      let a := analytics w in
      set_analytics w (mkAnalytics (analytics_id a) (analytics_messages a ++ [m])
                         (data_sources a) (predictions a))
  end.

(** ** class MessageBroker *)

(** [subscribe(agent_id, callback)] *)
Definition subscribe (w : World) (agent : string) (callback : AgentRef) : World :=
  set_subscribers w (Dict.set (subscribers w) agent callback).

Section Agents.
Variable env : Env.

(** The broker's [publish_message], as the agents call it. *)
Variable publish : World -> Message -> Outcome World.

(** [Agent.send_message] *)
Definition send_message (self : AgentRef) (to : string) (c : Content)
    (w : World) : Outcome World :=
  let m := mkMessage (agent_id w self) to (now_us env (reads w)) c in
  let w := tick w in
  let w := record_message self m w in
  publish w m.

(** *** ReliefCoordinatorAgent *)

Definition optimize_resource_allocation (w : World) : Outcome World :=
  let r := relief w in
  p <~ lift (allocation_plan_of (priority_areas r) (ctx_resources (context w))) ;;
  let w := set_relief w (mkRelief (relief_id r) (relief_messages r) p
                                  (priority_areas r)) in
  send_message Relief "volunteer_coordinator" (NewAllocationPlan p) w.

Definition relief_process_message (m : Message) (w : World) : Outcome World :=
  match content m with
  | NeedAssessment area_data =>
      let r := relief w in
      let w := set_relief w (mkRelief (relief_id r) (relief_messages r)
                               (resource_allocation_plan r)
                               (update_priority_areas area_data)) in
      optimize_resource_allocation w
  | _ => Done w
  end.

(** [update_resources]: [self.disaster_context.resources.update(resources)] *)
Definition update_resources (rs : dict Z) (w : World) : World :=
  let c := context w in
  set_context w (mkContext (disaster_type c) (ctx_location c) (ctx_severity c)
                   (affected_areas c) (victims c)
                   (Dict.update (ctx_resources c) rs) (ctx_volunteers c)
                   (rescue_teams c) (current_tasks c) (ctx_data_sources c)).

(** *** VolunteerCoordinationAgent *)

(** [register_volunteer]: the roster entry is stored under the id, and
    the id is appended to the list of every declared skill. *)
Definition register_skill (volunteer_id : string)
    (registry : dict (list string)) (skill : string) : dict (list string) :=
  let registry :=
    if Dict.mem registry skill then registry else Dict.set registry skill [] in
  match Dict.get registry skill with
  | Some ids => Dict.set registry skill (ids ++ [volunteer_id])
  | None => registry
  end.

Definition register_volunteer_agent (vol : Volunteer)
    (v : VolunteerCoordinationAgent) : VolunteerCoordinationAgent :=
  mkVolunteerAgent (volunteer_agent_id v) (volunteer_messages v)
    (Dict.set (available_volunteers v) (vol_id vol) vol)
    (fold_left (register_skill (vol_id vol)) (skills vol) (skills_registry v))
    (task_assignments v) (pending_tasks v).

Definition register_volunteer (vol : Volunteer) (w : World) : World :=
  set_volunteer w (register_volunteer_agent vol (volunteer w)).

(** The task of one [(area, resource_type, quantity)] triple, created
    when [int(time.time())] reads [t]. *)
Definition distribution_task (area resource_type : string) (quantity t : Z) : Task :=
  mkTask ("dist_" ++ area ++ "_" ++ resource_type ++ "_" ++ str_of_int t)%string
         "resource_distribution"
         ("Distribute " ++ str_of_int quantity ++ " " ++ resource_type
            ++ " to " ++ area)%string
         area
         [(resource_type, quantity)]
         ["logistics"]
         3.

(** The [(area, resource_type, quantity)] triples in the order the two
    nested loops of [generate_distribution_tasks] visit them. *)
Definition plan_triples (p : plan) : list (string * string * Z) :=
  flat_map (fun ar => map (fun rq => (fst ar, fst rq, snd rq)) (snd ar)) p.

(** The loop body: one clock read and one append per triple. *)
Definition append_task (st : nat * list Task) (tr : string * string * Z)
    : nat * list Task :=
  let '(k, tasks) := st in
  let '(area, resource_type, quantity) := tr in
  (S k, (tasks ++ [distribution_task area resource_type quantity (time_s env k)])).

Definition generate_distribution_tasks (p : plan) (w : World) : World :=
  let v := volunteer w in
  let '(k, tasks) := fold_left append_task (plan_triples p) (reads w, pending_tasks v) in
  let w := set_volunteer w (mkVolunteerAgent (volunteer_agent_id v)
               (volunteer_messages v) (available_volunteers v)
               (skills_registry v) (task_assignments v) tasks) in
  mkWorld (subscribers w) (context w) (relief w) (volunteer w) (communication w)
          (analytics w) k (bus_log w).

Definition volunteer_process_message (m : Message) (w : World) : Outcome World :=
  match content m with
  | NewAllocationPlan p => Done (generate_distribution_tasks p w)
  | _ => Done w
  end.

(** *** CommunicationAgent *)

Definition update_team_location (team_id : string)
    (loc : PyNum.float * PyNum.float) (w : World) : World :=
  let c := communication w in
  set_communication w (mkComm (comm_id c) (comm_messages c) (victim_requests c)
                         (Dict.set (rescue_team_locations c) team_id loc)
                         (message_log c) (priority_messages c)).

Definition broadcast_alert (alert_type message : string)
    (areas actions : list string) (w : World) : Outcome World :=
  let alert_message := EmergencyAlert alert_type message areas actions in
  w <~ for_each_o
         (fun w team_id =>
            send_message Communication ("rescue_team_" ++ team_id)%string alert_message w)
         (Dict.keys (rescue_team_locations (communication w))) w ;;
  send_message Communication "volunteer_coordinator" alert_message w.

Definition communication_process_message (m : Message) (w : World) : Outcome World :=
  match content m with
  | Alert alert_type message areas actions =>
      broadcast_alert alert_type message areas actions w
  | _ => Done w
  end.

(** *** AnalyticsPredictionAgent *)

(** [data.get(field, 0)] *)
Definition field (data : dict Z) (f : string) : Z :=
  match Dict.get data f with Some v => v | None => 0 end.

Definition detect_significant_change (source : string) (data : dict Z) : bool :=
  String.eqb source "weather" && (50 <? field data "wind_speed").

(** [get_recent_data(source, count)] *)
Definition get_recent_data (a : AnalyticsPredictionAgent) (source : string)
    (count : nat) : list Sample :=
  match Dict.get (data_sources a) source with
  | None => []
  | Some [] => []
  | Some samples =>
      let all_source_data := sorted_desc sample_timestamp samples in
      firstn (Nat.min count (List.length all_source_data)) all_source_data
  end.

(** [sum(d["data"].get(f, 0) for d in recent_data) / max(len(recent_data), 1)] *)
Definition average (f : string) (recent_data : list Sample) : option PyNum.float :=
  PyNum.int_truediv
    (fold_left Z.add (map (fun d => field (sample_data d) f) recent_data) 0)
    (Z.max (Z.of_nat (List.length recent_data)) 1).

(** [min(10, int(avg_wind_speed / 10))] *)
Definition scaled_risk (avg_wind_speed : PyNum.float) : option Z :=
  ten <- PyNum.float_of_int 10 ;;
  r <- PyNum.int_of_float (SFdiv PyNum.prec PyNum.emax avg_wind_speed ten) ;;
  Some (Z.min 10 r).

Definition generate_prediction (source : string) (w : World)
    : Outcome (Prediction * World) :=
  let a := analytics w in
  prediction <~
    (if String.eqb source "weather" then
       let recent_data := get_recent_data a "weather" 5 in
       avg_wind_speed <~ lift (average "wind_speed" recent_data) ;;
       avg_rainfall <~ lift (average "rainfall" recent_data) ;;
       risk <~ lift (scaled_risk avg_wind_speed) ;;
       Done (mkPrediction ("pred_" ++ str_of_int (time_s env (reads w)))%string
               "weather_impact" risk ["Area A"; "Area B"]
               ["Evacuate high-risk areas"; "Deploy additional rescue teams"])
     else
       Done (mkPrediction ("pred_" ++ str_of_int (time_s env (reads w)))%string
               "general" (ctx_severity (context w)) [] [])) ;;
  let w := tick w in
  let w := set_analytics w (mkAnalytics (analytics_id a) (analytics_messages a)
               (data_sources a)
               (Dict.set (predictions a) (pred_id prediction) prediction)) in
  Done (prediction, w).

Definition send_alert (p : Prediction) (w : World) : Outcome World :=
  send_message Analytics "communication"
    (Alert (pred_type p)
           ("High risk detected: " ++ str_of_int (risk_level p) ++ "/10")%string
           (areas_affected p) (recommended_actions p)) w.

Definition process_new_data (source : string) (data : dict Z) (w : World)
    : Outcome World :=
  let a := analytics w in
  let sources :=
    if Dict.mem (data_sources a) source then data_sources a
    else Dict.set (data_sources a) source [] in
  let samples := match Dict.get sources source with Some l => l | None => [] end in
  let sources :=
    Dict.set sources source (samples ++ [mkSample (now_us env (reads w)) data]) in
  let w := tick w in
  let w := set_analytics w (mkAnalytics (analytics_id a) (analytics_messages a)
                              sources (predictions a)) in
  if detect_significant_change source data then
    '(prediction, w) <~ generate_prediction source w ;;
    if 7 <=? risk_level prediction then send_alert prediction w else Done w
  else Done w.

(** [assess_affected_areas]: three areas, two random draws each. *)
Definition assessed_area (loc : string) (k : nat) (i : Z) : AreaDemand :=
  mkArea (loc ++ "_Area_" ++ str_of_int i)%string
         (randint env k 1 10) (randint env (S k) 100 10000)
         ["food"; "water"; "medical_supplies"].

Definition assess_affected_areas (loc : string) (w : World)
    : list AreaDemand * World :=
  let k := reads w in
  ([assessed_area loc k 1; assessed_area loc (2 + k) 2; assessed_area loc (4 + k) 3],
   tick (tick (tick (tick (tick (tick w)))))).

Definition analytics_process_message (m : Message) (w : World) : Outcome World :=
  match content m with
  | RequestAreaAssessment _ loc =>
      let '(area_assessment, w) := assess_affected_areas loc w in
      send_message Analytics (msg_from m) (NeedAssessment area_assessment) w
  | NewData source data => process_new_data source data w
  | _ => Done w
  end.

(** *** Agent.receive_message *)

Definition process_message (a : AgentRef) (m : Message) (w : World) : Outcome World :=
  match a with
  | Relief => relief_process_message m w
  | VolunteerCoordinator => volunteer_process_message m w
  | Communication => communication_process_message m w
  | Analytics => analytics_process_message m w
  end.

Definition receive_message (a : AgentRef) (m : Message) (w : World) : Outcome World :=
  process_message a m (record_message a m w).

End Agents.

(** [MessageBroker.publish_message]: a delivery runs the recipient's
    [receive_message], whose own sends come back here one level deeper;
    [fuel] bounds that nesting. *)
Fixpoint publish_message (env : Env) (fuel : nat) (w : World) (m : Message)
    : Outcome World :=
  match fuel with
  | O => OutOfFuel
  | S fuel' =>
      match Dict.get (subscribers w) (msg_to m) with
      | Some callback =>
          w' <~ receive_message env (publish_message env fuel') callback m w ;;
          Done (log_event w' (Delivered m))
      | None => Done (log_event w (NoSubscriber m))
      end
  end.

(** ** Messages as the bus hands them over: dictionaries

    A handler receives a Python dictionary.  The envelope fields may be
    absent; the content is any value, and when it is a dictionary its
    entries are dynamically typed.  [receive_raw] performs the accesses of
    [receive_message] and [process_message] in the order of the source:
    an index [d[k]] on an absent key is the [KeyError] Python raises
    there, and [content.get] on a content that is not a dictionary is an
    [AttributeError].  What a handler does with the entries it has found
    is described by the typed handlers above, for the entries that have
    the shape those hold them in; for entries of another shape
    [receive_raw] gives no outcome. *)

#[local] Unset Elimination Schemes.
Inductive PyVal :=
  | PInt (z : Z)
  | PStr (s : string)
  | PList (l : list PyVal)
  | PDict (d : list (string * PyVal)).
#[local] Set Elimination Schemes.

Record RawMessage := mkRaw {
  raw_from : option string;
  raw_to : option string;
  raw_timestamp : option Z;
  raw_content : option PyVal
}.

Definition as_int (v : PyVal) : option Z :=
  match v with PInt z => Some z | _ => None end.
Definition as_str (v : PyVal) : option string :=
  match v with PStr s => Some s | _ => None end.
Definition as_list (v : PyVal) : option (list PyVal) :=
  match v with PList l => Some l | _ => None end.
Definition as_dict (v : PyVal) : option (dict PyVal) :=
  match v with PDict d => Some d | _ => None end.

Fixpoint traverse {A B} (f : A -> option B) (l : list A) : option (list B) :=
  match l with
  | [] => Some []
  | x :: l' => y <- f x ;; ys <- traverse f l' ;; Some (y :: ys)
  end.

Definition traverse_dict {A B} (f : A -> option B) (d : dict A) : option (dict B) :=
  traverse (fun kv => y <- f (snd kv) ;; Some (fst kv, y)) d.

(** *** The typed view of an entry

    These say when a value has the shape the typed handlers hold it in;
    [None] is any other shape, which the code may well accept. *)

(** An entry of a dictionary, at the given type. *)
Definition item {B} (d : dict PyVal) (k : string) (f : PyVal -> option B) : option B :=
  v <- Dict.get d k ;; f v.

Definition strings_of (v : PyVal) : option (list string) :=
  l <- as_list v ;; traverse as_str l.

(** [d.get(k, [])] as a list of strings. *)
Definition item_strings (d : dict PyVal) (k : string) : option (list string) :=
  match Dict.get d k with
  | None => Some []
  | Some v => strings_of v
  end.

Definition area_of (v : PyVal) : option AreaDemand :=
  d <- as_dict v ;;
  s <- item d "severity" as_int ;;
  p <- item d "population" as_int ;;
  n <- item d "name" as_str ;;
  ns <- item d "needs" strings_of ;;
  Some (mkArea n s p ns).

Definition plan_of (v : PyVal) : option plan :=
  d <- as_dict v ;;
  traverse_dict (fun row => r <- as_dict row ;; traverse_dict as_int r) d.

(** *** What a handler finds in the content *)

Inductive Reading (A : Type) :=
  | Read (a : A)       (* the entries are there, in the typed shape *)
  | Missing            (* an indexed entry is absent: [KeyError] *)
  | Unmodelled.        (* the entries are there, in another shape *)
Arguments Read {A} a.
Arguments Missing {A}.
Arguments Unmodelled {A}.

Definition rbind {A B} (x : Reading A) (f : A -> Reading B) : Reading B :=
  match x with Read a => f a | Missing => Missing | Unmodelled => Unmodelled end.

Notation "x <! c1 ;; c2" := (rbind c1 (fun x => c2))
  (at level 61, c1 at next level, right associativity).

(** [c[k]] *)
Definition index (c : dict PyVal) (k : string) : Reading PyVal :=
  match Dict.get c k with Some v => Read v | None => Missing end.

Definition typed {A} (x : option A) : Reading A :=
  match x with Some a => Read a | None => Unmodelled end.

(** [content.get("type")] *)
Definition tag_of (c : dict PyVal) : option string :=
  match Dict.get c "type" with Some (PStr s) => Some s | _ => None end.

(** The content as the agent [a] reads it: only the entries of a tag that
    [a]'s [process_message] tests for are accessed, and every index of
    the branch is evaluated before the method it is passed to runs. *)
Definition content_for (a : AgentRef) (c : dict PyVal) : Reading Content :=
  let other := Read (Other (tag_of c)) in
  match a, tag_of c with
  | Relief, Some tag =>
      if String.eqb tag "need_assessment"
      then area_data <! index c "area_data" ;;
           areas <! typed (l <- as_list area_data ;; traverse area_of l) ;;
           Read (NeedAssessment areas)
      else other
  | VolunteerCoordinator, Some tag =>
      if String.eqb tag "new_allocation_plan"
      then p <! index c "plan" ;;
           p <! typed (plan_of p) ;;
           Read (NewAllocationPlan p)
      else other
  | Communication, Some tag =>
      if String.eqb tag "alert"
      then alert_type <! index c "alert_type" ;;
           message <! index c "message" ;;
           t <! typed (as_str alert_type) ;;
           m <! typed (as_str message) ;;
           areas <! typed (item_strings c "areas_affected") ;;
           actions <! typed (item_strings c "recommended_actions") ;;
           Read (Alert t m areas actions)
      else other
  | Analytics, Some tag =>
      if String.eqb tag "request_area_assessment"
      then disaster_type <! index c "disaster_type" ;;
           loc <! index c "location" ;;
           t <! typed (as_str disaster_type) ;;
           l <! typed (as_str loc) ;;
           Read (RequestAreaAssessment t l)
      else if String.eqb tag "new_data"
      then source <! index c "source" ;;
           data <! index c "data" ;;
           s <! typed (as_str source) ;;
           data <! typed (d <- as_dict data ;; traverse_dict as_int d) ;;
           Read (NewData s data)
      else other
  | _, None => other
  end.

Definition default {A} (x : option A) (d : A) : A :=
  match x with Some a => a | None => d end.

(** [Agent.receive_message] on a dictionary: [message['from']] and
    [message['content']] are read for the log line, then
    [process_message] calls [content.get("type")] and runs the branch of
    the tag.  The result is [None] where the branch meets entries of a
    shape the typed handlers do not describe. *)
Definition receive_raw (env : Env) (fuel : nat) (a : AgentRef) (raw : RawMessage)
    (w : World) : option (Outcome World) :=
  match raw_from raw, raw_content raw with
  | None, _ => Some Raised
  | Some _, None => Some Raised
  | Some from, Some (PDict d) =>
      match content_for a d with
      | Read c =>
          Some (receive_message env (publish_message env fuel) a
                  (mkMessage from (default (raw_to raw) "")
                             (default (raw_timestamp raw) 0) c) w)
      | Missing => Some Raised
      | Unmodelled => None
      end
  | Some _, Some _ => Some Raised
  end.

(** The depth of the reaction chain a content can start: a request for an
    assessment is answered by a need assessment, which is answered by a
    plan; new data may raise an alert, which is fanned out. *)
Definition depth (c : Content) : nat :=
  match c with
  | RequestAreaAssessment _ _ | NewData _ _ => 2
  | NeedAssessment _ | Alert _ _ _ _ => 1
  | _ => 0
  end.

(** ** The system [main] builds *)

Definition initial_context : DisasterContext :=
  mkContext "earthquake" "Los Angeles" 8 [] [] [] [] [] [] [].

(** The four agents, subscribed under their ids in the order of [main]. *)
Definition initial_world : World :=
  let w :=
    mkWorld [] initial_context
      (mkRelief "relief_coordinator" [] [] [])
      (mkVolunteerAgent "volunteer_coordinator" [] [] [] [] [])
      (mkComm "communication" [] [] [] [] [])
      (mkAnalytics "analytics" [] [] [])
      0 [] in
  let w := subscribe w "relief_coordinator" Relief in
  let w := subscribe w "volunteer_coordinator" VolunteerCoordinator in
  let w := subscribe w "communication" Communication in
  subscribe w "analytics" Analytics.

(** [initial_resources] of [ReliefCoordinatorAgent.run]. *)
Definition initial_resources : dict Z :=
  [("food", 1000); ("water", 5000); ("medical_supplies", 500);
   ("shelter_kits", 200); ("blankets", 1000)].

(** A clock that advances one microsecond per read from a given start, and
    a fixed sequence of draws. *)
Definition sample_env (start : Z) : Env :=
  mkEnv (fun k => start + Z.of_nat k) (fun k => 7 * Z.of_nat k + 3).

(** The end-to-end scenario: two areas and an inventory of food and water. *)
Definition area_A : AreaDemand := mkArea "A" 8 5000 ["food"; "water"].
Definition area_B : AreaDemand := mkArea "B" 2 1000 ["food"; "water"].

Definition scenario_world : World :=
  update_resources [("food", 1000); ("water", 5000)] initial_world.

Definition need_assessment (areas : list AreaDemand) : Message :=
  mkMessage "analytics" "relief_coordinator" 0 (NeedAssessment areas).

(** The world a call leaves, when it returns. *)
Definition result_of (o : Outcome World) (otherwise : World) : World :=
  match o with Done w => w | _ => otherwise end.

(** The ids listed under a skill: [skills_registry.get(skill, [])]. *)
Definition ids_with_skill (registry : dict (list string)) (skill : string)
    : list string :=
  default (Dict.get registry skill) [].

Definition empty_volunteer_agent : VolunteerCoordinationAgent :=
  mkVolunteerAgent "volunteer_coordinator" [] [] [] [] [].

(** The tasks appended for a list of triples when the clock has been read
    [k] times: one read per task. *)
Fixpoint tasks_from (env : Env) (k : nat) (l : list (string * string * Z)) : list Task :=
  match l with
  | [] => []
  | (area, resource_type, quantity) :: l' =>
      distribution_task area resource_type quantity (time_s env k)
        :: tasks_from env (S k) l'
  end.

(** A task with its id blanked. *)
Definition without_id (t : Task) : Task :=
  mkTask "" (task_type t) (description t) (location t) (resources t)
         (required_skills t) (task_priority t).

(** Messages published one after the other, in arrival order. *)
Fixpoint deliver_all (env : Env) (fuel : nat) (ms : list Message) (w : World)
    : Outcome World :=
  match ms with
  | [] => Done w
  | m :: ms' => w' <~ publish_message env fuel w m ;; deliver_all env fuel ms' w'
  end.

(** The tags an agent's [process_message] tests for. *)
Definition reacts_to (a : AgentRef) (tag : option string) : bool :=
  match a, tag with
  | Relief, Some t => String.eqb t "need_assessment"
  | VolunteerCoordinator, Some t => String.eqb t "new_allocation_plan"
  | Communication, Some t => String.eqb t "alert"
  | Analytics, Some t =>
      String.eqb t "request_area_assessment" || String.eqb t "new_data"
  | _, None => false
  end.

(** The entries the branch of a tag indexes with [content[...]]. *)
Definition indexed_entries (a : AgentRef) (tag : string) : list string :=
  match a with
  | Relief =>
      if String.eqb tag "need_assessment" then ["area_data"] else []
  | VolunteerCoordinator =>
      if String.eqb tag "new_allocation_plan" then ["plan"] else []
  | Communication =>
      if String.eqb tag "alert" then ["alert_type"; "message"] else []
  | Analytics =>
      if String.eqb tag "request_area_assessment"
      then ["disaster_type"; "location"]
      else if String.eqb tag "new_data" then ["source"; "data"] else []
  end%string.

(** ** Alerts on the bus *)

Definition event_message (e : BusEvent) : Message :=
  match e with Delivered m | NoSubscriber m => m end.

Definition is_alert_to_communication (m : Message) : bool :=
  match content m with
  | Alert _ _ _ _ => String.eqb (msg_to m) "communication"
  | _ => false
  end.

(** The number of alert messages for the communication agent that were
    handed to the bus so far. *)
Definition alerts_published (w : World) : nat :=
  List.length (filter (fun e => is_alert_to_communication (event_message e)) (bus_log w)).

(** The analytics agent once the new sample is appended to its source's
    log, as [process_new_data] does first. *)
Definition with_sample (env : Env) (source : string) (data : dict Z) (w : World)
    : AnalyticsPredictionAgent :=
  let a := analytics w in
  let sources :=
    if Dict.mem (data_sources a) source then data_sources a
    else Dict.set (data_sources a) source [] in
  let samples := default (Dict.get sources source) [] in
  mkAnalytics (analytics_id a) (analytics_messages a)
    (Dict.set sources source (samples ++ [mkSample (now_us env (reads w)) data]))
    (predictions a).

(** ** The alert threshold in the words of the specification *)

Module Threshold.


(** The total of a reading over a window; a sample that lacks the reading
    counts as 0. *)
Definition total (reading : string) (window : list Sample) : Z :=
  fold_right (fun d s => field (sample_data d) reading + s) 0 window.

(** The average of a reading over a window, as a binary64 number: the
    total divided by the number of samples.  There is none for an empty
    window, or when the quotient is outside the range of binary64. *)
Definition average (reading : string) (window : list Sample) : option PyNum.float :=
  PyNum.int_truediv (total reading window) (Z.of_nat (List.length window)).

(** The risk level of a window: min(10, floor(average wind speed / 10)). *)
Definition risk (window : list Sample) : option Z :=
  avg <- average "wind_speed" window ;;
  ten <- PyNum.float_of_int 10 ;;
  r <- PyNum.floor_of_float (SFdiv PyNum.prec PyNum.emax avg ten) ;;
  Some (Z.min 10 r).

End Threshold.

(** The risk level [generate_prediction] computes for the weather source. *)
Definition prediction_risk (a : AnalyticsPredictionAgent) : option Z :=
  let recent_data := get_recent_data a "weather" 5 in
  avg_wind_speed <- average "wind_speed" recent_data ;;
  avg_rainfall <- average "rainfall" recent_data ;;
  scaled_risk avg_wind_speed.

(** ** Dyadic comparisons

    [m * 2^e <= q] and [m * 2^e < q] for integers [m], [q] and an exponent
    [e] of either sign, stated without leaving the integers. *)

Definition dle (m e q : Z) : Prop :=
  exists a b, 0 <= a /\ 0 <= b /\ e = a - b /\ m * 2 ^ a <= q * 2 ^ b.

Definition dlt (m e q : Z) : Prop :=
  exists a b, 0 <= a /\ 0 <= b /\ e = a - b /\ m * 2 ^ a < q * 2 ^ b.

(** A float that is not negative and whose value is at most [q]. *)
Definition at_most (f : PyNum.float) (q : Z) : Prop :=
  match f with
  | S754_zero false => True
  | S754_finite false m e => dle (Zpos m) e q
  | _ => False
  end.

(** ** The allocation scheme in the words of the specification

    1. the total weight is the sum of severity * population over the areas
       held; 2. for each area in priority order the area weight is
       (severity * population) / total weight, 0 if the total is 0; 3. for
       each resource kind of the running remaining inventory the area gets
       floor(remaining * area weight), zero allocations are left out of
       the plan, and the remaining inventory is decremented.  The
       arithmetic of [floor (quantity * (priority / total))] is a
       parameter. *)

Module Scheme.

Section Arithmetic.
Variable share : Z -> Z -> Z -> option Z.

Definition total_weight (areas : list AreaDemand) : Z :=
  fold_right (fun a s => priority a + s) 0 areas.

Definition area_share (total : Z) (a : AreaDemand) (quantity : Z) : option Z :=
  if total =? 0 then Some 0 else share quantity (priority a) total.

(** Step 3 for one area: its row of the plan and the inventory it leaves. *)
Fixpoint share_out (total : Z) (a : AreaDemand) (remaining : dict Z)
    : option (dict Z * dict Z) :=
  match remaining with
  | [] => Some ([], [])
  | (kind, quantity) :: rest =>
      n <- area_share total a quantity ;;
      '(row, rest') <- share_out total a rest ;;
      Some (if n =? 0 then row else (kind, n) :: row, (kind, quantity - n) :: rest')
  end.

(** Steps 2 and 3 over the areas in the order given. *)
Fixpoint single_pass (total : Z) (areas : list AreaDemand) (remaining : dict Z)
    : option (list (string * dict Z) * dict Z) :=
  match areas with
  | [] => Some ([], remaining)
  | a :: areas' =>
      '(row, remaining') <- share_out total a remaining ;;
      '(rows, final) <- single_pass total areas' remaining' ;;
      Some ((name a, row) :: rows, final)
  end.

(** The plan: area name to row, for the areas in descending priority
    order, ties in their original order. *)
Definition allocation (area_data : list AreaDemand) (inventory : dict Z)
    : option plan :=
  let areas := sorted_desc priority area_data in
  '(rows, _) <- single_pass (total_weight areas) areas inventory ;;
  Some (fold_left (fun p r => Dict.set p (fst r) (snd r)) rows []).

End Arithmetic.

(** Exact arithmetic: the floor of the rational [quantity * a / total]. *)
Definition exact_share (quantity a total : Z) : option Z :=
  Some (quantity * a / total).

(** Binary64 arithmetic: the quotient and the product are each rounded to
    nearest, then the floor is taken. *)
Definition binary64_share (quantity a total : Z) : option Z :=
  w <- PyNum.int_truediv a total ;;
  p <- PyNum.int_mul_float quantity w ;;
  PyNum.floor_of_float p.

End Scheme.

(** An inventory whose keys are distinct and whose quantities the floats
    hold exactly. *)
Definition stock_ok (inventory : dict Z) : Prop :=
  Dict.wf inventory /\ Forall (fun kq => 0 <= snd kq < 2 ^ 53) inventory.

Definition positive_area (a : AreaDemand) : Prop :=
  0 < severity a /\ 0 < population a.

(** Two more pairs of areas: one where the exact quotient is a whole
    number, one where the first area outweighs the second beyond what a
    float resolves. *)
Definition area_C : AreaDemand := mkArea "C" 9 200 ["food"].
Definition area_D : AreaDemand := mkArea "D" 5 300 ["food"].
Definition area_H : AreaDemand := mkArea "H" 1 (2 ^ 60) ["food"].
Definition area_S : AreaDemand := mkArea "S" 1 1 ["food"].

(** The plan in which every area has an empty row. *)
Definition empty_rows (areas : list AreaDemand) : plan :=
  fold_left (fun p a => Dict.set p (name a) []) areas [].

(** ** Totals of a plan *)

(** [d.get(kind, 0)] *)
Definition stock (d : dict Z) (kind : string) : Z := default (Dict.get d kind) 0.

(** The quantity of one kind summed over the rows of a plan. *)
Definition rows_total (rows : list (string * dict Z)) (kind : string) : Z :=
  fold_right (fun r s => stock (snd r) kind + s) 0 rows.

(** Every quantity written in a plan is positive. *)
Definition positive_rows (rows : list (string * dict Z)) : Prop :=
  Forall (fun r => Forall (fun kn => 0 < snd kn) (snd r)) rows.

(** ** The volunteer roster and its skill index *)

(** Every id listed under a skill has a roster entry. *)
Definition registry_within_roster (v : VolunteerCoordinationAgent) : Prop :=
  forall skill id,
    In id (ids_with_skill (skills_registry v) skill) ->
    Dict.mem (available_volunteers v) id = true.

(** Volunteers registered one after the other. *)
Definition register_all (vols : list Volunteer) (v : VolunteerCoordinationAgent)
    : VolunteerCoordinationAgent :=
  fold_left (fun v vol => register_volunteer_agent vol v) vols v.

(** The samples a source holds: [data_sources.get(source, [])]. *)
Definition samples_of (a : AnalyticsPredictionAgent) (source : string) : list Sample :=
  default (Dict.get (data_sources a) source) [].

(** The quantity of one kind that a list of tasks distributes. *)
Definition tasks_total (tasks : list Task) (kind : string) : Z :=
  fold_right (fun t s => stock (resources t) kind + s) 0 tasks.

(** Every row of a plan holds each kind once. *)
Definition wf_rows (rows : list (string * dict Z)) : Prop :=
  Forall (fun r => Dict.wf (snd r)) rows.

(** The number of (area, kind) entries of a plan. *)
Definition plan_entries (p : plan) : nat :=
  fold_right (fun r n => (List.length (snd r) + n)%nat) 0%nat p.

(** What a distribution task says beside its id and its description. *)
Definition is_distribution_task (t : Task) : Prop :=
  task_type t = "resource_distribution"
  /\ required_skills t = ["logistics"]
  /\ task_priority t = 3.

(** ** What the agents hold beside their logs *)

(** The world with the message logs of the agents, the log of the bus and
    the count of clock reads blanked. *)
Definition without_logs (w : World) : World :=
  let r := relief w in
  let v := volunteer w in
  let c := communication w in
  let a := analytics w in
  mkWorld (subscribers w) (context w)
    (mkRelief (relief_id r) [] (resource_allocation_plan r) (priority_areas r))
    (mkVolunteerAgent (volunteer_agent_id v) [] (available_volunteers v)
       (skills_registry v) (task_assignments v) (pending_tasks v))
    (mkComm (comm_id c) [] (victim_requests c) (rescue_team_locations c)
       (message_log c) (priority_messages c))
    (mkAnalytics (analytics_id a) [] (data_sources a) (predictions a))
    0 [].

(** The addressees of the messages handed to the bus, oldest first. *)
Definition recipients (events : list BusEvent) : list string :=
  map (fun e => msg_to (event_message e)) events.

(** A content that no [process_message] reacts to. *)
Definition inert (c : Content) : Prop :=
  match c with
  | EmergencyAlert _ _ _ _ | VolunteerStatus _ | CommunicationSystemStatus _ _
  | Other _ => True
  | _ => False
  end.

(** An area as [assess_affected_areas] may report it. *)
Definition assessed_in_range (a : AreaDemand) : Prop :=
  1 <= severity a <= 10
  /\ 100 <= population a <= 10000
  /\ needs a = ["food"; "water"; "medical_supplies"].

(** ** The [run] methods and [main]

    [random.random()] is a multiple of 2^-53 below 1; a decimal literal is
    the correctly rounded quotient of its digits by the power of ten; and
    [random.sample] draws without replacement from a copy of the
    population, moving the last candidate into the place of the one
    drawn. *)

Definition with_reads (w : World) (k : nat) : World :=
  mkWorld (subscribers w) (context w) (relief w) (volunteer w) (communication w)
          (analytics w) k (bus_log w).

(** [range(lo, hi)] *)
Definition py_range (lo hi : Z) : list Z :=
  map (fun i => lo + Z.of_nat i) (seq 0 (Z.to_nat (hi - lo))).

(** The float a decimal literal denotes, given as a fraction. *)
Definition float_literal (num den : Z) : PyNum.float :=
  default (PyNum.int_truediv num den) S754_nan.

(** [l[j] = v] *)
Fixpoint list_set (l : list string) (j : nat) (v : string) : list string :=
  match l, j with
  | [], _ => []
  | _ :: l', O => v :: l'
  | x :: l', S j' => x :: list_set l' j' v
  end.

(** [pool[j] = pool[n - i - 1]], after which the draws are from
    [pool[0 : n - i - 1]]. *)
Definition refill (pool : list string) (j : nat) : list string :=
  removelast (list_set pool j (last pool "")).

Section Runs.
Variable env : Env.
Variable fuel : nat.

(** [random.random()] at read [k]. *)
Definition random_random (k : nat) : PyNum.float :=
  binary_normalize PyNum.prec PyNum.emax (rand env k mod 2 ^ 53) (-53) false.

(** The draws of [random.sample(pool, count)], from read [k] on. *)
Fixpoint draws (k : nat) (pool : list string) (count : nat) : list string :=
  match count with
  | O => []
  | S count' =>
      let j := Z.to_nat (rand env k mod Z.of_nat (List.length pool)) in
      nth j pool "" :: draws (S k) (refill pool j) count'
  end.

(** [random.sample(population, count)]: [ValueError] when the sample is
    larger than the population. *)
Definition sample (k : nat) (population : list string) (count : nat)
    : option (list string) :=
  if (List.length population <? count)%nat then None
  else Some (draws k population count).

(** *** ReliefCoordinatorAgent.run *)

Definition relief_run (w : World) : Outcome World :=
  let w := update_resources initial_resources w in
  send_message env (publish_message env fuel) Relief "analytics"
    (RequestAreaAssessment (disaster_type (context w)) (ctx_location (context w))) w.

(** *** VolunteerCoordinationAgent.run *)

Definition skill_pool : list string :=
  ["medical"; "logistics"; "rescue"; "communication"; "engineering"].

(** One entry of [demo_volunteers]: one draw for the number of skills,
    then the draws of the sample. *)
Definition demo_volunteer (k : nat) (i : Z) : option (Volunteer * nat) :=
  let count := Z.to_nat (randint env k 1 3) in
  skills <- sample (S k) skill_pool count ;;
  Some (mkVolunteer ("vol_" ++ str_of_int i)%string
                    ("Volunteer " ++ str_of_int i)%string
                    skills "Base Camp" true,
        (S k + count)%nat).

Fixpoint demo_volunteers (indices : list Z) (k : nat)
    : option (list Volunteer * nat) :=
  match indices with
  | [] => Some ([], k)
  | i :: indices' =>
      '(vol, k1) <- demo_volunteer k i ;;
      '(vols, k2) <- demo_volunteers indices' k1 ;;
      Some (vol :: vols, k2)
  end.

Definition volunteer_run (w : World) : Outcome World :=
  '(demo, k) <~ lift (demo_volunteers (py_range 1 21) (reads w)) ;;
  let w := with_reads w k in
  let w := fold_left (fun w vol => register_volunteer vol w) demo w in
  send_message env (publish_message env fuel) VolunteerCoordinator "communication"
    (VolunteerStatus (Z.of_nat (List.length (available_volunteers (volunteer w))))) w.

(** *** CommunicationAgent.run *)

(** [base + (random.random() - 0.5) * 0.1] *)
Definition jitter (base : PyNum.float) (k : nat) : PyNum.float :=
  SFadd PyNum.prec PyNum.emax base
    (SFmul PyNum.prec PyNum.emax
       (SFsub PyNum.prec PyNum.emax (random_random k) (float_literal 5 10))
       (float_literal 1 10)).

(** The dictionary [demo_teams]: two draws per team, latitude first. *)
Fixpoint demo_teams (indices : list Z) (k : nat)
    (teams : dict (PyNum.float * PyNum.float))
    : dict (PyNum.float * PyNum.float) * nat :=
  match indices with
  | [] => (teams, k)
  | i :: indices' =>
      let lat := jitter (float_literal 340522 10000) k in
      let lon := jitter (SFopp (float_literal 1182437 10000)) (S k) in
      demo_teams indices' (S (S k))
        (Dict.set teams ("team_" ++ str_of_int i)%string (lat, lon))
  end.

Definition communication_run (w : World) : Outcome World :=
  let '(teams, k) := demo_teams (py_range 1 6) (reads w) [] in
  let w := with_reads w k in
  let w := fold_left (fun w tl => update_team_location (fst tl) (snd tl) w) teams w in
  send_message env (publish_message env fuel) Communication "analytics"
    (CommunicationSystemStatus "operational"
       (Z.of_nat (List.length (rescue_team_locations (communication w))))) w.

(** *** AnalyticsPredictionAgent.run *)

Definition analytics_run (w : World) : Outcome World := Done w.

(** *** main *)

Definition main : Outcome World :=
  w <~ relief_run initial_world ;;
  w <~ volunteer_run w ;;
  w <~ communication_run w ;;
  w <~ analytics_run w ;;
  send_message env (publish_message env fuel) Communication "analytics"
    (NewData "weather" [("wind_speed", 60); ("rainfall", 5)]) w.

End Runs.

(** An event of the bus that is a delivery. *)
Definition is_delivery (e : BusEvent) : Prop :=
  match e with Delivered _ => True | NoSubscriber _ => False end.

(** An event that is a delivery exactly when its addressee is subscribed. *)
Definition routed (w : World) (e : BusEvent) : Prop :=
  is_delivery e <-> Dict.mem (subscribers w) (msg_to (event_message e)) = true.

(** The agents of [main], subscribed under their ids. *)
Definition wired (w : World) : Prop :=
  subscribers w = subscribers initial_world
  /\ relief_id (relief w) = "relief_coordinator"
  /\ volunteer_agent_id (volunteer w) = "volunteer_coordinator"
  /\ comm_id (communication w) = "communication"
  /\ analytics_id (analytics w) = "analytics".

(** A volunteer as [VolunteerCoordinationAgent.run] makes them up. *)
Definition demo_volunteer_ok (v : Volunteer) : Prop :=
  (1 <= List.length (skills v) <= 3)%nat
  /\ NoDup (skills v)
  /\ incl (skills v) skill_pool
  /\ vol_location v = "Base Camp"
  /\ available v = true.

(** No string occurs twice. *)
Fixpoint distinct (l : list string) : bool :=
  match l with
  | [] => true
  | x :: l' => negb (existsb (String.eqb x) l') && distinct l'
  end.

(** The world in which the relief coordinator holds the areas and the
    plan, and the volunteer coordinator has the tasks queued behind the
    pending ones. *)
Definition with_plan (w : World) (areas : list AreaDemand) (p : plan)
    (tasks : list Task) : World :=
  let r := relief w in
  let v := volunteer w in
  set_volunteer
    (set_relief w (mkRelief (relief_id r) (relief_messages r) p areas))
    (mkVolunteerAgent (volunteer_agent_id v) (volunteer_messages v)
       (available_volunteers v) (skills_registry v) (task_assignments v)
       (pending_tasks v ++ tasks)).

(** The areas that [assess_affected_areas] reports when the random source
    has been read [k] times. *)
Definition assessed_areas (env : Env) (loc : string) (k : nat) : list AreaDemand :=
  [assessed_area env loc k 1; assessed_area env loc (2 + k) 2;
   assessed_area env loc (4 + k) 3].

(** The ["type"] entry of a content. *)
Definition content_type (c : Content) : option string :=
  match c with
  | NeedAssessment _ => Some "need_assessment"
  | NewAllocationPlan _ => Some "new_allocation_plan"
  | Alert _ _ _ _ => Some "alert"
  | EmergencyAlert _ _ _ _ => Some "emergency_alert"
  | NewData _ _ => Some "new_data"
  | RequestAreaAssessment _ _ => Some "request_area_assessment"
  | VolunteerStatus _ => Some "volunteer_status"
  | CommunicationSystemStatus _ _ => Some "communication_system_status"
  | Other tag => tag
  end.

(** The world in which the volunteers are registered, one after the
    other. *)
Definition with_volunteers (w : World) (vols : list Volunteer) : World :=
  set_volunteer w (register_all vols (volunteer w)).

(** The world in which the locations of the teams are reported. *)
Definition with_teams (w : World) (teams : dict (PyNum.float * PyNum.float)) : World :=
  let c := communication w in
  set_communication w
    (mkComm (comm_id c) (comm_messages c) (victim_requests c)
       (Dict.update (rescue_team_locations c) teams)
       (message_log c) (priority_messages c)).

(** The world in which the analytics agent holds the given samples and
    predictions. *)
Definition with_analysis (w : World) (sources : dict (list Sample))
    (preds : dict Prediction) : World :=
  let a := analytics w in
  set_analytics w (mkAnalytics (analytics_id a) (analytics_messages a) sources preds).

(** The reading that [main] sends last. *)
Definition last_reading : dict Z := [("wind_speed", 60); ("rainfall", 5)].

(** The ["type"] entries and the addressees of the messages on the bus. *)
Definition content_types (events : list BusEvent) : list (option string) :=
  map (fun e => content_type (content (event_message e))) events.

(** The state [main] ends in, beside the logs: the initial levels set,
    the areas ranked and planned for, the tasks of the plan queued, the
    volunteers registered, the teams located, one weather sample and one
    prediction held. *)
Definition main_state (env : Env) (areas : list AreaDemand) (p : plan)
    (demo : list Volunteer) (teams : dict (PyNum.float * PyNum.float))
    (ts : Z) (pr : Prediction) : World :=
  with_analysis
    (with_teams
       (with_volunteers
          (with_plan (update_resources initial_resources initial_world)
             (update_priority_areas areas) p
             (tasks_from env 9 (plan_triples p)))
          demo)
       teams)
    [("weather", [mkSample ts last_reading])]
    [(pred_id pr, pr)].

(** What no message changes: the registry of the bus, the shared context,
    the ids of the agents, the roster, the skill index and the
    assignments of the volunteer coordinator, and the requests, team
    locations and message lists of the communication agent.  The rest is
    blanked. *)
Definition standing (w : World) : World :=
  let v := volunteer w in
  let c := communication w in
  mkWorld (subscribers w) (context w)
    (mkRelief (relief_id (relief w)) [] [] [])
    (mkVolunteerAgent (volunteer_agent_id v) [] (available_volunteers v)
       (skills_registry v) (task_assignments v) [])
    (mkComm (comm_id c) [] (victim_requests c) (rescue_team_locations c)
       (message_log c) (priority_messages c))
    (mkAnalytics (analytics_id (analytics w)) [] [] [])
    0 [].

(** ** More dyadic comparisons

    [q <= m * 2^e], and bounds on a float scaled by a power of two. *)

Definition dge (m e q : Z) : Prop :=
  exists a b, 0 <= a /\ 0 <= b /\ e = a - b /\ q * 2 ^ b <= m * 2 ^ a.

(** A float that is not negative and at most [q / 2^j]. *)
Definition at_most_scaled (j : Z) (f : PyNum.float) (q : Z) : Prop :=
  match f with
  | S754_zero false => True
  | S754_finite false m e => dle (Zpos m) (e + j) q
  | _ => False
  end.

(** A float that is at least the positive integer [q]. *)
Definition at_least (f : PyNum.float) (q : Z) : Prop :=
  match f with
  | S754_finite false m e => dge (Zpos m) e q
  | S754_infinity false => True
  | _ => False
  end.

(** The wind speeds and the size of the window that a weather prediction
    averages over. *)
Definition wind_total (a : AnalyticsPredictionAgent) : Z :=
  fold_left Z.add
    (map (fun d => field (sample_data d) "wind_speed") (get_recent_data a "weather" 5)) 0.

Definition rain_total (a : AnalyticsPredictionAgent) : Z :=
  fold_left Z.add
    (map (fun d => field (sample_data d) "rainfall") (get_recent_data a "weather" 5)) 0.

Definition window_size (a : AnalyticsPredictionAgent) : Z :=
  Z.max (Z.of_nat (List.length (get_recent_data a "weather" 5))) 1.

(** The volunteers of a list that declare a skill. *)
Definition with_skill (skill : string) (vols : list Volunteer) : list Volunteer :=
  filter (fun vol => existsb (String.eqb skill) (skills vol)) vols.

(** ** Two runs side by side

    Two runs of the same deliveries are compared up to what a clock
    leaves behind: the timestamps of messages and samples, the ids of
    predictions, and the logs. *)

(** The timestamps of the samples a world holds. *)
Definition stored_stamps (w : World) : list Z :=
  flat_map (fun kv => map sample_timestamp (snd kv)) (data_sources (analytics w)).

(** Instants that correspond in two runs started from [w]: a timestamp
    that [w] holds already, or what the two clocks show at the same
    read. *)
Definition corresponding (env1 env2 : Env) (w : World) (t1 t2 : Z) : Prop :=
  (t1 = t2 /\ In t1 (stored_stamps w))
  \/ exists k, t1 = now_us env1 k /\ t2 = now_us env2 k.

(** The two clocks put corresponding instants in the same order. *)
Definition same_order (env1 env2 : Env) (w : World) : Prop :=
  forall a1 a2 b1 b2,
    corresponding env1 env2 w a1 a2 -> corresponding env1 env2 w b1 b2 ->
    (a1 <? b1) = (a2 <? b2).

Definition same_sample (stamps : Z -> Z -> Prop) (s1 s2 : Sample) : Prop :=
  stamps (sample_timestamp s1) (sample_timestamp s2)
  /\ sample_data s1 = sample_data s2.

Definition same_source (stamps : Z -> Z -> Prop)
    (kv1 kv2 : string * list Sample) : Prop :=
  fst kv1 = fst kv2 /\ Forall2 (same_sample stamps) (snd kv1) (snd kv2).

Definition same_message (m1 m2 : Message) : Prop :=
  msg_from m1 = msg_from m2 /\ msg_to m1 = msg_to m2 /\ content m1 = content m2.

Definition same_prediction (p1 p2 : Prediction) : Prop :=
  pred_type p1 = pred_type p2 /\ risk_level p1 = risk_level p2
  /\ areas_affected p1 = areas_affected p2
  /\ recommended_actions p1 = recommended_actions p2.

(** Two worlds that agree on what the handlers read; the tasks are
    compared through [view]. *)
Record same_run (stamps : Z -> Z -> Prop) (view : Task -> Task)
    (w1 w2 : World) : Prop := mk_same_run {
  sr_subscribers : subscribers w1 = subscribers w2;
  sr_context : context w1 = context w2;
  sr_reads : reads w1 = reads w2;
  sr_relief_id : relief_id (relief w1) = relief_id (relief w2);
  sr_volunteer_id :
    volunteer_agent_id (volunteer w1) = volunteer_agent_id (volunteer w2);
  sr_comm_id : comm_id (communication w1) = comm_id (communication w2);
  sr_analytics_id : analytics_id (analytics w1) = analytics_id (analytics w2);
  sr_plan :
    resource_allocation_plan (relief w1) = resource_allocation_plan (relief w2);
  sr_areas : priority_areas (relief w1) = priority_areas (relief w2);
  sr_tasks :
    map view (pending_tasks (volunteer w1)) = map view (pending_tasks (volunteer w2));
  sr_teams :
    Dict.keys (rescue_team_locations (communication w1))
    = Dict.keys (rescue_team_locations (communication w2));
  sr_sources :
    Forall2 (same_source stamps) (data_sources (analytics w1))
            (data_sources (analytics w2))
}.

(** Two calls that both return, in related states, or both raise. *)
Definition same_outcome {A} (R : A -> A -> Prop) (o1 o2 : Outcome A) : Prop :=
  match o1, o2 with
  | Done a1, Done a2 => R a1 a2
  | Raised, Raised => True
  | OutOfFuel, OutOfFuel => True
  | _, _ => False
  end.

(** A world that holds five weather samples, the oldest of them with a
    rainfall reading of 2^1030. *)
Definition stormy_world : World :=
  set_analytics scenario_world
    (mkAnalytics "analytics" []
       [("weather",
         [mkSample 10 [("wind_speed", 0); ("rainfall", 2 ^ 1030)];
          mkSample 11 [("wind_speed", 0)];
          mkSample 12 [("wind_speed", 0)];
          mkSample 13 [("wind_speed", 0)];
          mkSample 14 [("wind_speed", 0)]])]
       []).


(** * Properties *)

(** ** The stable descending sort *)

Section SortedFacts.
Context {A : Type} (key : A -> Z).

Lemma insert_desc_perm (x : A) (l : list A) :
  Permutation (insert_desc key x l) (x :: l).
Proof.
  induction l as [|y l IH]; simpl.
  - apply Permutation_refl.
  - destruct (key x <? key y).
    + apply perm_trans with (y :: x :: l).
      * apply perm_skip, IH.
      * apply perm_swap.
    + apply Permutation_refl.
Qed.

Lemma sorted_desc_perm (l : list A) : Permutation (sorted_desc key l) l.
Proof.
  induction l as [|x l IH]; simpl.
  - apply perm_nil.
  - apply perm_trans with (x :: sorted_desc key l).
    + apply insert_desc_perm.
    + apply perm_skip, IH.
Qed.

Lemma insert_desc_sorted (x : A) (l : list A) :
  StronglySorted (desc key) l -> StronglySorted (desc key) (insert_desc key x l).
Proof.
  induction 1 as [|y l Hs IH Hall]; simpl.
  - constructor; [constructor | constructor].
  - destruct (key x <? key y) eqn:E.
    + apply Z.ltb_lt in E. constructor; [exact IH|].
      apply Forall_forall. intros z Hz.
      apply (Permutation_in _ (insert_desc_perm x l)) in Hz.
      destruct Hz as [<-|Hz]; [unfold desc; lia|].
      rewrite Forall_forall in Hall. now apply Hall.
    + apply Z.ltb_ge in E. constructor; [constructor; assumption|].
      constructor; [exact E|].
      eapply Forall_impl; [|exact Hall].
      unfold desc. intros z Hz. lia.
Qed.

Lemma sorted_desc_sorted (l : list A) : StronglySorted (desc key) (sorted_desc key l).
Proof.
  induction l as [|x l IH]; simpl.
  - constructor.
  - now apply insert_desc_sorted.
Qed.



Lemma sorted_desc_length (l : list A) :
  List.length (sorted_desc key l) = List.length l.
Proof. apply Permutation_length, sorted_desc_perm. Qed.

End SortedFacts.


(** ** What a delivery leaves alone: the registry and the shared context *)

Definition frame (w w' : World) : Prop :=
  subscribers w' = subscribers w /\ context w' = context w.

Lemma frame_refl (w : World) : frame w w.
Proof. split; reflexivity. Qed.

Lemma frame_trans (w1 w2 w3 : World) : frame w1 w2 -> frame w2 w3 -> frame w1 w3.
Proof. intros [A B] [C D]. split; congruence. Qed.

Lemma frame_record (a : AgentRef) (m : Message) (w : World) :
  frame w (record_message a m w).
Proof. destruct a; split; reflexivity. Qed.

Create HintDb frame.
#[local] Hint Resolve frame_refl frame_record : frame.

Ltac obind_inv H :=
  match type of H with
  | obind ?c _ = Done _ =>
      let E := fresh "E" in
      destruct c eqn:E; cbn [obind] in H; [|discriminate H|discriminate H]
  end.

Section FrameAgents.
Variable env : Env.
Variable publish : World -> Message -> Outcome World.
Hypothesis publish_frame : forall w m w', publish w m = Done w' -> frame w w'.

Lemma send_message_frame self to c w w' :
  send_message env publish self to c w = Done w' -> frame w w'.
Proof.
  unfold send_message. intros H. apply publish_frame in H.
  eapply frame_trans; [|exact H].
  eapply frame_trans; [|apply frame_record]. split; reflexivity.
Qed.

Lemma optimize_resource_allocation_frame w w' :
  optimize_resource_allocation env publish w = Done w' -> frame w w'.
Proof.
  unfold optimize_resource_allocation. intros H. obind_inv H.
  apply send_message_frame in H. eapply frame_trans; [|exact H].
  split; reflexivity.
Qed.

Lemma relief_process_message_frame m w w' :
  relief_process_message env publish m w = Done w' -> frame w w'.
Proof.
  unfold relief_process_message. intros H.
  destruct (content m); try (injection H as <-; apply frame_refl).
  apply optimize_resource_allocation_frame in H.
  eapply frame_trans; [|exact H]. split; reflexivity.
Qed.

Lemma generate_distribution_tasks_frame p w :
  frame w (generate_distribution_tasks env p w).
Proof.
  unfold generate_distribution_tasks.
  destruct (fold_left _ _ _) as [k tasks]. split; reflexivity.
Qed.

Lemma volunteer_process_message_frame m w w' :
  volunteer_process_message env m w = Done w' -> frame w w'.
Proof.
  unfold volunteer_process_message. intros H.
  destruct (content m); injection H as <-;
    auto using frame_refl, generate_distribution_tasks_frame.
Qed.

Lemma for_each_send_frame (f : string -> string) c l w w' :
  for_each_o (fun w t => send_message env publish Communication (f t) c w) l w
    = Done w' -> frame w w'.
Proof.
  revert w. induction l as [|t l IH]; intros w H; cbn [for_each_o] in H.
  - injection H as <-. apply frame_refl.
  - obind_inv H. apply send_message_frame in E. apply IH in H.
    eapply frame_trans; eassumption.
Qed.

Lemma broadcast_alert_frame t msg areas actions w w' :
  broadcast_alert env publish t msg areas actions w = Done w' -> frame w w'.
Proof.
  unfold broadcast_alert. intros H. obind_inv H.
  apply (for_each_send_frame (fun team_id => ("rescue_team_" ++ team_id)%string)) in E.
  apply send_message_frame in H. eapply frame_trans; eassumption.
Qed.

Lemma communication_process_message_frame m w w' :
  communication_process_message env publish m w = Done w' -> frame w w'.
Proof.
  unfold communication_process_message. intros H.
  destruct (content m); try (injection H as <-; apply frame_refl).
  now apply broadcast_alert_frame in H.
Qed.

Lemma generate_prediction_frame source w p w' :
  generate_prediction env source w = Done (p, w') -> frame w w'.
Proof.
  unfold generate_prediction. intros H. obind_inv H.
  injection H as _ <-. split; reflexivity.
Qed.

Lemma process_new_data_frame source data w w' :
  process_new_data env publish source data w = Done w' -> frame w w'.
Proof.
  unfold process_new_data. intros H.
  destruct (detect_significant_change source data).
  - obind_inv H. destruct a as [p w1].
    apply generate_prediction_frame in E.
    assert (F : frame w w1) by (eapply frame_trans; [|exact E]; split; reflexivity).
    destruct (7 <=? risk_level p).
    + apply send_message_frame in H. eapply frame_trans; eassumption.
    + injection H as <-. exact F.
  - injection H as <-. split; reflexivity.
Qed.

Lemma analytics_process_message_frame m w w' :
  analytics_process_message env publish m w = Done w' -> frame w w'.
Proof.
  unfold analytics_process_message. intros H.
  destruct (content m); try (injection H as <-; apply frame_refl).
  - now apply process_new_data_frame in H.
  - cbn in H. apply send_message_frame in H.
    eapply frame_trans; [|exact H]. split; reflexivity.
Qed.

Lemma receive_message_frame a m w w' :
  receive_message env publish a m w = Done w' -> frame w w'.
Proof.
  unfold receive_message, process_message. intros H.
  eapply frame_trans; [apply (frame_record a m)|].
  destruct a.
  - now apply relief_process_message_frame in H.
  - now apply volunteer_process_message_frame in H.
  - now apply communication_process_message_frame in H.
  - now apply analytics_process_message_frame in H.
Qed.
End FrameAgents.

Lemma publish_message_frame env fuel : forall w m w',
  publish_message env fuel w m = Done w' -> frame w w'.
Proof.
  induction fuel as [|fuel IH]; intros w m w' H; cbn [publish_message] in H.
  - discriminate.
  - destruct (Dict.get (subscribers w) (msg_to m)) as [cb|].
    + obind_inv H. injection H as <-.
      apply (receive_message_frame env _ IH) in E.
      eapply frame_trans; [exact E|]. split; reflexivity.
    + injection H as <-. split; reflexivity.
Qed.

(** ** Cascades end: a reaction chain is at most three deliveries deep *)

Section DepthAgents.
Variable env : Env.
Variable publish : World -> Message -> Outcome World.
Variable fuel : nat.
Hypothesis publish_total :
  forall w m, (depth (content m) < fuel)%nat -> publish w m <> OutOfFuel.

Lemma send_message_total self to c w :
  (depth c < fuel)%nat -> send_message env publish self to c w <> OutOfFuel.
Proof. intros H. unfold send_message. now apply publish_total. Qed.

Lemma for_each_send_total (f : string -> string) c l w :
  (depth c < fuel)%nat ->
  for_each_o (fun w t => send_message env publish Communication (f t) c w) l w
    <> OutOfFuel.
Proof.
  intros H. revert w. induction l as [|t l IH]; intros w; cbn [for_each_o].
  - discriminate.
  - destruct (send_message env publish Communication (f t) c w) eqn:E; cbn [obind].
    + apply IH.
    + discriminate.
    + now apply send_message_total in E.
Qed.

Lemma receive_message_total a m w :
  (depth (content m) <= fuel)%nat ->
  receive_message env publish a m w <> OutOfFuel.
Proof.
  intros H. unfold receive_message, process_message.
  generalize (record_message a m w). clear w. intros w.
  destruct a.
  - unfold relief_process_message.
    destruct (content m); try discriminate.
    unfold optimize_resource_allocation.
    match goal with |- obind (lift ?x) _ <> _ => destruct x; cbn [lift obind] end;
      [|discriminate].
    apply send_message_total. cbn in *. lia.
  - unfold volunteer_process_message. destruct (content m); discriminate.
  - unfold communication_process_message.
    destruct (content m); try discriminate.
    unfold broadcast_alert.
    match goal with |- obind ?x _ <> _ => destruct x eqn:E; cbn [obind] end.
    + apply send_message_total. cbn in *. lia.
    + discriminate.
    + apply (for_each_send_total
               (fun team_id => ("rescue_team_" ++ team_id)%string)) in E;
        [contradiction | cbn in *; lia].
  - unfold analytics_process_message.
    destruct (content m); try discriminate.
    + unfold process_new_data.
      destruct (detect_significant_change source data); [|discriminate].
      match goal with |- obind ?x _ <> _ => destruct x as [[p w1]| |] eqn:E; cbn [obind] end.
      * destruct (7 <=? risk_level p); [|discriminate].
        apply send_message_total. cbn in *. lia.
      * discriminate.
      * unfold generate_prediction in E.
        destruct (String.eqb source "weather"); cbn in E;
          repeat match type of E with
                 | context [lift ?x] => destruct x; cbn in E
                 end; discriminate.
    + cbn. apply send_message_total. cbn in *. lia.
Qed.
End DepthAgents.

Lemma publish_message_total env fuel : forall w m,
  (depth (content m) < fuel)%nat -> publish_message env fuel w m <> OutOfFuel.
Proof.
  induction fuel as [|fuel IH]; intros w m H; [lia|].
  cbn [publish_message].
  destruct (Dict.get (subscribers w) (msg_to m)) as [cb|]; [|discriminate].
  destruct (receive_message env (publish_message env fuel) cb m w) eqn:E;
    cbn [obind]; try discriminate.
  apply (receive_message_total env _ fuel IH) in E; [contradiction|lia].
Qed.

Lemma depth_le_2 (c : Content) : (depth c <= 2)%nat.
Proof. destruct c; cbn; lia. Qed.

Lemma publish_message_returns env fuel w m :
  (3 <= fuel)%nat -> publish_message env fuel w m <> OutOfFuel.
Proof.
  intros H. apply publish_message_total. pose proof (depth_le_2 (content m)). lia.
Qed.

(** ** The message bus *)

(** C4: a message addressed to an identifier that is not registered makes
    [publish_message] return normally, with the unroutable destination
    reported in the broker's log and the subscriber registry as it was, so
    that a later publish to a registered identifier runs that identifier's
    handler and returns; a message addressed to a registered identifier
    runs exactly the handler bound to it, on that message. *)
Theorem publish_message_routing (env : Env) (fuel : nat) (w : World) (m : Message) :
  (Dict.get (subscribers w) (msg_to m) = None ->
     let w1 := log_event w (NoSubscriber m) in
     publish_message env (S fuel) w m = Done w1
     /\ subscribers w1 = subscribers w
     /\ forall m' cb, Dict.get (subscribers w) (msg_to m') = Some cb ->
          publish_message env (S fuel) w1 m'
            = (w' <~ receive_message env (publish_message env fuel) cb m' w1 ;;
               Done (log_event w' (Delivered m')))
          /\ ((3 <= S fuel)%nat -> publish_message env (S fuel) w1 m' <> OutOfFuel))
  /\ (forall cb, Dict.get (subscribers w) (msg_to m) = Some cb ->
        publish_message env (S fuel) w m
          = (w' <~ receive_message env (publish_message env fuel) cb m w ;;
             Done (log_event w' (Delivered m)))).
Proof.
  split.
  - intros H. cbn zeta. split; [|split].
    { cbn [publish_message]. now rewrite H. }
    { reflexivity. }
    intros m' cb H'. split.
    + cbn [publish_message log_event subscribers]. now rewrite H'.
    + apply publish_message_returns.
  - intros cb H. cbn [publish_message]. now rewrite H.
Qed.

Lemma publish_message_routing_witness :
  publish_message (sample_env 0) 3 initial_world
    (mkMessage "communication" "rescue_team_team_1" 0 (Other None))
  = Done (log_event initial_world
            (NoSubscriber (mkMessage "communication" "rescue_team_team_1" 0 (Other None)))).
Proof.
  apply (publish_message_routing (sample_env 0) 2 initial_world
           (mkMessage "communication" "rescue_team_team_1" 0 (Other None))).
  reflexivity.
Defined.

(** ** The shared context under plan generation *)

Lemma publish_plan_keeps_relief env p : forall fuel w m w',
  content m = NewAllocationPlan p ->
  publish_message env fuel w m = Done w' ->
  resource_allocation_plan (relief w') = resource_allocation_plan (relief w)
  /\ priority_areas (relief w') = priority_areas (relief w).
Proof.
  intros [|fuel] w m w' Hc H; cbn [publish_message] in H; [discriminate|].
  destruct m as [f t ts c]. cbn in Hc. subst c.
  destruct (Dict.get _ _) as [[]|];
    unfold receive_message, process_message, relief_process_message,
      volunteer_process_message, communication_process_message,
      analytics_process_message in H;
    cbn [content obind] in H; injection H as <-;
    try (split; reflexivity).
  unfold generate_distribution_tasks.
  destruct (fold_left _ _ _) as [k tasks]. split; reflexivity.
Qed.

Lemma optimize_resource_allocation_plan env fuel w w' :
  optimize_resource_allocation env (publish_message env fuel) w = Done w' ->
  Some (resource_allocation_plan (relief w'))
  = allocation_plan_of (priority_areas (relief w)) (ctx_resources (context w)).
Proof.
  unfold optimize_resource_allocation. intros H.
  destruct (allocation_plan_of _ _) as [p|] eqn:E; cbn [lift obind] in H;
    [|discriminate].
  unfold send_message in H.
  apply (publish_plan_keeps_relief env p) in H; [|reflexivity].
  destruct H as [H _]. cbn in H. now rewrite H.
Qed.

(** C10: [optimize_resource_allocation] works on a copy of the context's
    resources: when it returns, the shared context is the one it started
    from, field for field; and of two need assessments handled one after
    the other, the second is allocated from the inventory the first one
    started from. *)
Theorem optimize_resource_allocation_keeps_context (env : Env) (fuel : nat) (w : World) :
  (forall w', optimize_resource_allocation env (publish_message env fuel) w = Done w' ->
     context w' = context w)
  /\ (forall m1 m2 areas2 w1 w2,
        content m2 = NeedAssessment areas2 ->
        relief_process_message env (publish_message env fuel) m1 w = Done w1 ->
        relief_process_message env (publish_message env fuel) m2 w1 = Done w2 ->
        context w2 = context w
        /\ Some (resource_allocation_plan (relief w2))
           = allocation_plan_of (update_priority_areas areas2)
               (ctx_resources (context w))).
Proof.
  split.
  - intros w' H.
    apply (optimize_resource_allocation_frame env _ (publish_message_frame env fuel)) in H.
    apply H.
  - intros m1 m2 areas2 w1 w2 Hc H1 H2.
    pose proof (relief_process_message_frame env _ (publish_message_frame env fuel)
                  _ _ _ H1) as [_ F1].
    pose proof (relief_process_message_frame env _ (publish_message_frame env fuel)
                  _ _ _ H2) as [_ F2].
    split; [congruence|].
    unfold relief_process_message in H2. rewrite Hc in H2.
    apply optimize_resource_allocation_plan in H2. rewrite H2. cbn.
    now rewrite F1.
Qed.

Lemma optimize_resource_allocation_keeps_context_witness :
  let w1 := result_of (relief_process_message (sample_env 0)
                         (publish_message (sample_env 0) 3)
                         (need_assessment [area_B; area_A]) scenario_world)
                      scenario_world in
  let w2 := result_of (relief_process_message (sample_env 0)
                         (publish_message (sample_env 0) 3)
                         (need_assessment [area_A; area_B]) w1) w1 in
  context w2 = context scenario_world
  /\ Some (resource_allocation_plan (relief w2))
     = allocation_plan_of (update_priority_areas [area_A; area_B])
         (ctx_resources (context scenario_world)).
Proof.
  intros w1 w2.
  apply (proj2 (optimize_resource_allocation_keeps_context (sample_env 0) 3 scenario_world)
           (need_assessment [area_B; area_A]) (need_assessment [area_A; area_B])
           [area_A; area_B] w1 w2).
  - reflexivity.
  - vm_compute. reflexivity.
  - vm_compute. reflexivity.
Defined.

(** ** Dictionaries *)

Lemma get_set_same {V} (d : dict V) (k : string) (v : V) :
  Dict.get (Dict.set d k v) k = Some v.
Proof.
  induction d as [|[k' v'] d IH]; cbn.
  - now rewrite String.eqb_refl.
  - destruct (String.eqb k k') eqn:E; cbn; rewrite E; [reflexivity|exact IH].
Qed.

Lemma get_set_other {V} (d : dict V) (k k' : string) (v : V) :
  k' <> k -> Dict.get (Dict.set d k v) k' = Dict.get d k'.
Proof.
  intros N. induction d as [|[k0 v0] d IH]; cbn.
  - apply String.eqb_neq in N. now rewrite N.
  - destruct (String.eqb k k0) eqn:E; cbn.
    + apply String.eqb_eq in E. subst k0.
      apply String.eqb_neq in N. now rewrite N.
    + destruct (String.eqb k' k0); [reflexivity|exact IH].
Qed.

Lemma set_set {V} (d : dict V) (k : string) (v1 v2 : V) :
  Dict.set (Dict.set d k v1) k v2 = Dict.set d k v2.
Proof.
  induction d as [|[k' v'] d IH]; cbn.
  - now rewrite String.eqb_refl.
  - destruct (String.eqb k k') eqn:E; cbn; rewrite E; [reflexivity|].
    now rewrite IH.
Qed.

(** ** Registration *)

Lemma register_skill_ids (id : string) (registry : dict (list string))
    (skill s : string) :
  ids_with_skill (register_skill id registry skill) s
  = ids_with_skill registry s ++ (if String.eqb s skill then [id] else []).
Proof.
  unfold register_skill, ids_with_skill, Dict.mem.
  destruct (Dict.get registry skill) as [ids|] eqn:G.
  - rewrite G. destruct (String.eqb s skill) eqn:E.
    + apply String.eqb_eq in E. subst s. now rewrite get_set_same, G.
    + apply String.eqb_neq in E. rewrite get_set_other by exact E.
      now rewrite app_nil_r.
  - rewrite get_set_same. destruct (String.eqb s skill) eqn:E.
    + apply String.eqb_eq in E. subst s. now rewrite get_set_same, G.
    + apply String.eqb_neq in E. rewrite !get_set_other by exact E.
      now rewrite app_nil_r.
Qed.

Lemma register_skills_ids (id : string) (l : list string) :
  forall (registry : dict (list string)) (s : string),
  ids_with_skill (fold_left (register_skill id) l registry) s
  = ids_with_skill registry s ++ repeat id (count_occ string_dec l s).
Proof.
  induction l as [|skill l IH]; intros registry s; cbn [fold_left count_occ].
  - cbn. now rewrite app_nil_r.
  - rewrite IH, register_skill_ids, <- app_assoc. f_equal.
    destruct (string_dec skill s) as [->|N].
    + now rewrite String.eqb_refl.
    + assert (E : String.eqb s skill = false)
        by (apply String.eqb_neq; congruence).
      now rewrite E.
Qed.

(** C9 as stated fails for the skill index: after [v1] registers as a medic
    and then again with logistics only, the index is not the one that the
    later registration alone gives; [v1] is still listed as a medic. *)
Lemma reregistration_keeps_stale_skills :
  let first := mkVolunteer "v1" "Volunteer 1" ["medical"] "Base Camp" true in
  let second := mkVolunteer "v1" "Volunteer 1" ["logistics"] "Base Camp" true in
  let twice := register_volunteer_agent second
                 (register_volunteer_agent first empty_volunteer_agent) in
  let once := register_volunteer_agent second empty_volunteer_agent in
  skills_registry twice <> skills_registry once
  /\ ids_with_skill (skills_registry twice) "medical" = ["v1"]
  /\ ids_with_skill (skills_registry once) "medical" = [].
Proof. cbv zeta. split; [discriminate|split; reflexivity]. Qed.

(** C9, amended: a second [subscribe] under the same identifier replaces
    the handler, and a second registration under the same volunteer id
    replaces the roster record, each as if the first had never happened;
    the skill index is only ever appended to: it keeps every entry of the
    earlier registration and lists the id once more under each skill of
    the later one. *)
Theorem reregistration_last_writer_wins :
  (forall w agent cb1 cb2,
      subscribers (subscribe (subscribe w agent cb1) agent cb2)
        = subscribers (subscribe w agent cb2)
      /\ Dict.get (subscribers (subscribe (subscribe w agent cb1) agent cb2)) agent
         = Some cb2)
  /\ (forall v first second,
        vol_id first = vol_id second ->
        let twice := register_volunteer_agent second (register_volunteer_agent first v) in
        available_volunteers twice
          = available_volunteers (register_volunteer_agent second v)
        /\ Dict.get (available_volunteers twice) (vol_id second) = Some second
        /\ forall s,
             ids_with_skill (skills_registry twice) s
             = ids_with_skill (skills_registry v) s
               ++ repeat (vol_id second) (count_occ string_dec (skills first) s)
               ++ repeat (vol_id second) (count_occ string_dec (skills second) s)).
Proof.
  split.
  - intros w agent cb1 cb2. unfold subscribe. cbn. split.
    + apply set_set.
    + apply get_set_same.
  - intros v first second E. cbn. rewrite E. split; [apply set_set|].
    split; [apply get_set_same|].
    intros s. now rewrite !register_skills_ids, <- app_assoc.
Qed.

Lemma reregistration_last_writer_wins_witness :
  let first := mkVolunteer "v1" "Volunteer 1" ["medical"] "Base Camp" true in
  let second := mkVolunteer "v1" "Volunteer 1" ["logistics"] "Base Camp" true in
  Dict.get (available_volunteers
              (register_volunteer_agent second
                 (register_volunteer_agent first empty_volunteer_agent))) "v1"
  = Some second.
Proof.
  cbv zeta.
  apply (proj2 reregistration_last_writer_wins empty_volunteer_agent
           (mkVolunteer "v1" "Volunteer 1" ["medical"] "Base Camp" true)
           (mkVolunteer "v1" "Volunteer 1" ["logistics"] "Base Camp" true)).
  reflexivity.
Defined.

(** ** Distribution tasks *)

Lemma fold_append_task env l : forall k ts,
  fold_left (append_task env) l (k, ts)
  = ((List.length l + k)%nat, ts ++ tasks_from env k l).
Proof.
  induction l as [|[[a r] q] l IH]; intros k ts; cbn [fold_left tasks_from List.length].
  - now rewrite app_nil_r.
  - cbn [append_task]. rewrite IH, <- app_assoc. f_equal. lia.
Qed.

Lemma generate_distribution_tasks_pending env p w :
  pending_tasks (volunteer (generate_distribution_tasks env p w))
  = pending_tasks (volunteer w) ++ tasks_from env (reads w) (plan_triples p)
  /\ reads (generate_distribution_tasks env p w)
     = (List.length (plan_triples p) + reads w)%nat
  /\ relief (generate_distribution_tasks env p w) = relief w.
Proof.
  unfold generate_distribution_tasks. rewrite fold_append_task.
  split; [reflexivity|]. split; reflexivity.
Qed.

(** C6 fails on the code: the id of a task is built from the area, the
    resource kind and the clock's current second only.  The same need
    assessment handled twice within one second queues tasks with equal ids
    (the first and the fifth below), and within a single plan the pairs
    (A, B_C) and (A_B, C) get the same id as well. *)
Theorem task_ids_collide :
  let env := sample_env 0 in
  let m := need_assessment [area_A; area_B] in
  let w := result_of (deliver_all env 3 [m; m] scenario_world) scenario_world in
  let ids := map task_id (pending_tasks (volunteer w)) in
  deliver_all env 3 [m; m] scenario_world = Done w
  /\ nth_error ids 0 = Some "dist_A_food_0"%string
  /\ nth_error ids 4 = Some "dist_A_food_0"%string
  /\ map task_id
       (tasks_from env 0 (plan_triples [("A", [("B_C", 1)]); ("A_B", [("C", 1)])]))
     = ["dist_A_B_C_0"; "dist_A_B_C_0"]%string.
Proof.
  cbv zeta.
  split; [vm_compute; reflexivity|].
  split; [vm_compute; reflexivity|].
  split; vm_compute; reflexivity.
Qed.

(** ** Receiving a dictionary *)

Lemma content_for_other (a : AgentRef) (d : dict PyVal) :
  reacts_to a (tag_of d) = false -> content_for a d = Read (Other (tag_of d)).
Proof.
  unfold reacts_to, content_for.
  destruct a, (tag_of d) as [t|]; intros H; try reflexivity.
  - now rewrite H.
  - now rewrite H.
  - now rewrite H.
  - apply orb_false_elim in H. destruct H as [H1 H2]. now rewrite H1, H2.
Qed.

Lemma index_missing (d : dict PyVal) (k : string) :
  Dict.get d k = None -> index d k = Missing.
Proof. intros H. unfold index. now rewrite H. Qed.

Lemma content_for_missing (a : AgentRef) (d : dict PyVal) (tag k : string) :
  tag_of d = Some tag -> In k (indexed_entries a tag) -> Dict.get d k = None ->
  content_for a d = Missing.
Proof.
  intros T I G. unfold content_for. rewrite T. unfold indexed_entries in I.
  destruct a.
  - destruct (String.eqb tag "need_assessment"); [|contradiction].
    destruct I as [<-|[]]. now rewrite (index_missing d _ G).
  - destruct (String.eqb tag "new_allocation_plan"); [|contradiction].
    destruct I as [<-|[]]. now rewrite (index_missing d _ G).
  - destruct (String.eqb tag "alert"); [|contradiction].
    destruct I as [<-|[<-|[]]].
    + now rewrite (index_missing d _ G).
    + rewrite (index_missing d _ G). unfold index at 1. destruct (Dict.get d "alert_type"); reflexivity.
  - destruct (String.eqb tag "request_area_assessment").
    + destruct I as [<-|[<-|[]]].
      * now rewrite (index_missing d _ G).
      * rewrite (index_missing d _ G).
        unfold index at 1. destruct (Dict.get d "disaster_type"); reflexivity.
    + destruct (String.eqb tag "new_data"); [|contradiction].
      destruct I as [<-|[<-|[]]].
      * now rewrite (index_missing d _ G).
      * rewrite (index_missing d _ G). unfold index at 1. destruct (Dict.get d "source"); reflexivity.
Qed.

(** C5 as stated fails: [receive_message] raises on a need assessment
    without its area data, and on a message without a sender. *)
Lemma receive_raw_raises :
  receive_raw (sample_env 0) 3 Relief
    (mkRaw (Some "analytics") (Some "relief_coordinator") (Some 0)
           (Some (PDict [("type", PStr "need_assessment")])))
    initial_world = Some Raised
  /\ receive_raw (sample_env 0) 3 Relief
       (mkRaw None (Some "relief_coordinator") (Some 0)
              (Some (PDict [("type", PStr "status_report")])))
       initial_world = Some Raised.
Proof. split; reflexivity. Qed.

(** C5, amended: for every agent and every message that carries a sender
    and a content dictionary whose type tag is absent or is not one the
    agent reacts to, [receive_message] returns normally: the message is
    recorded and nothing else happens.  A message without a sender or
    without a content, a message whose content is not a dictionary, and
    a message with a tag the agent reacts to but without an entry the
    branch of that tag indexes, all raise to the caller. *)
Theorem receive_raw_outcome (env : Env) (fuel : nat) (a : AgentRef)
    (raw : RawMessage) (w : World) :
  (raw_from raw = None -> receive_raw env fuel a raw w = Some Raised)
  /\ (raw_content raw = None -> receive_raw env fuel a raw w = Some Raised)
  /\ (forall from v, raw_from raw = Some from -> raw_content raw = Some v ->
        as_dict v = None -> receive_raw env fuel a raw w = Some Raised)
  /\ (forall from d, raw_from raw = Some from -> raw_content raw = Some (PDict d) ->
        (reacts_to a (tag_of d) = false ->
           receive_raw env fuel a raw w
           = Some (Done (record_message a
                           (mkMessage from (default (raw_to raw) "")
                                      (default (raw_timestamp raw) 0)
                                      (Other (tag_of d))) w)))
        /\ (forall tag k, tag_of d = Some tag -> In k (indexed_entries a tag) ->
              Dict.get d k = None ->
              receive_raw env fuel a raw w = Some Raised)).
Proof.
  unfold receive_raw. repeat split.
  - intros ->. reflexivity.
  - intros ->. destruct (raw_from raw); reflexivity.
  - intros from v -> -> D. destruct v; try reflexivity. discriminate.
  - intros R. rewrite H, H0, (content_for_other a d R).
    unfold receive_message, process_message. destruct a; reflexivity.
  - intros tag k T I G. rewrite H, H0, (content_for_missing a d tag k T I G).
    reflexivity.
Qed.

Lemma receive_raw_outcome_witness :
  receive_raw (sample_env 0) 3 Relief
    (mkRaw (Some "analytics") (Some "relief_coordinator") (Some 0)
           (Some (PDict [("type", PStr "status_report")])))
    initial_world
  = Some (Done (record_message Relief
                  (mkMessage "analytics" "relief_coordinator" 0
                             (Other (Some "status_report"%string)))
                  initial_world))
  /\ receive_raw (sample_env 0) 3 Communication
       (mkRaw (Some "analytics") (Some "communication") (Some 0)
              (Some (PDict [("type", PStr "alert"); ("alert_type", PInt 5)])))
       initial_world
     = Some Raised.
Proof.
  split.
  - apply (proj1 (proj2 (proj2 (proj2
             (receive_raw_outcome (sample_env 0) 3 Relief
                (mkRaw (Some "analytics") (Some "relief_coordinator") (Some 0)
                       (Some (PDict [("type", PStr "status_report")])))
                initial_world)))
           "analytics" [("type", PStr "status_report")] eq_refl eq_refl));
      reflexivity.
  - apply (proj2 (proj2 (proj2 (proj2
             (receive_raw_outcome (sample_env 0) 3 Communication
                (mkRaw (Some "analytics") (Some "communication") (Some 0)
                       (Some (PDict [("type", PStr "alert"); ("alert_type", PInt 5)])))
                initial_world)))
           "analytics" [("type", PStr "alert"); ("alert_type", PInt 5)]
           eq_refl eq_refl) "alert" "message"); [reflexivity|cbn; auto|reflexivity].
Defined.

(** ** Weather alerts *)






Lemma publish_message_S env fuel w m :
  publish_message env (S fuel) w m
  = match Dict.get (subscribers w) (msg_to m) with
    | Some callback =>
        w' <~ receive_message env (publish_message env fuel) callback m w ;;
        Done (log_event w' (Delivered m))
    | None => Done (log_event w (NoSubscriber m))
    end.
Proof. reflexivity. Qed.

Section AlertCount.
Variable env : Env.




End AlertCount.

Lemma process_new_data_unfold env publish source data w :
  process_new_data env publish source data w
  = let w1 := set_analytics (tick w) (with_sample env source data w) in
    if detect_significant_change source data then
      '(prediction, w2) <~ generate_prediction env source w1 ;;
      if 7 <=? risk_level prediction then send_alert env publish prediction w2
      else Done w2
    else Done w1.
Proof. reflexivity. Qed.

Lemma generate_prediction_weather env w :
  match prediction_risk (analytics w) with
  | Some t =>
      exists p w', generate_prediction env "weather" w = Done (p, w')
                   /\ risk_level p = t
                   /\ alerts_published w' = alerts_published w
  | None => generate_prediction env "weather" w = Raised
  end.
Proof.
  unfold prediction_risk, generate_prediction.
  change (String.eqb "weather" "weather") with true. cbv iota.
  destruct (average "wind_speed" _) as [aw|]; cbn [bind lift obind]; [|reflexivity].
  destruct (average "rainfall" _) as [ar|]; cbn [bind lift obind]; [|reflexivity].
  destruct (scaled_risk aw) as [t|]; cbn [lift obind]; [|reflexivity].
  eexists. eexists. split; [reflexivity|]. split; reflexivity.
Qed.

(** ** Binary64 rounding never exceeds a representable bound *)

Lemma pow2_pos (a : Z) : 0 <= a -> 0 < 2 ^ a.
Proof. intros. apply Z.pow_pos_nonneg; lia. Qed.

Lemma dle_pos m e q : dle m e q -> 0 <= e -> m * 2 ^ e <= q.
Proof.
  intros (a & b & Ha & Hb & -> & H) He.
  replace a with ((a - b) + b) in H by lia.
  rewrite Z.pow_add_r, Z.mul_assoc in H by lia.
  apply Z.mul_le_mono_pos_r in H; [exact H|now apply pow2_pos].
Qed.

Lemma dle_neg m e q : dle m e q -> e <= 0 -> m <= q * 2 ^ (- e).
Proof.
  intros (a & b & Ha & Hb & -> & H) He.
  replace b with (- (a - b) + a) in H by lia.
  rewrite Z.pow_add_r, Z.mul_assoc in H by lia.
  apply Z.mul_le_mono_pos_r in H; [exact H|now apply pow2_pos].
Qed.

Lemma dlt_neg m e q : dlt m e q -> e <= 0 -> m < q * 2 ^ (- e).
Proof.
  intros (a & b & Ha & Hb & -> & H) He.
  replace b with (- (a - b) + a) in H by lia.
  rewrite Z.pow_add_r, Z.mul_assoc in H by lia.
  apply Z.mul_lt_mono_pos_r in H; [exact H|now apply pow2_pos].
Qed.

Lemma dle_of_pos m e q : 0 <= e -> m * 2 ^ e <= q -> dle m e q.
Proof.
  intros He H. exists e, 0. repeat split; try lia.
  all: rewrite Z.mul_1_r; assumption.
Qed.

Lemma dle_of_neg m e q : e <= 0 -> m <= q * 2 ^ (- e) -> dle m e q.
Proof.
  intros He H. exists 0, (- e). repeat split; try lia.
  all: rewrite Z.mul_1_r; assumption.
Qed.

Lemma dlt_dle m e q : dlt m e q -> dle m e q.
Proof. intros (a & b & Ha & Hb & E & H). exists a, b. repeat split; lia. Qed.

(** Dropping low bits only lowers the value. *)
Lemma dle_shift m e q n :
  0 <= n -> 0 <= m -> dle m e q -> dle (m / 2 ^ n) (e + n) q.
Proof.
  intros Hn Hm (a & b & Ha & Hb & -> & H).
  exists (a + n), b. repeat split; try lia.
  rewrite Z.pow_add_r by lia.
  pose proof (pow2_pos n Hn) as Pn. pose proof (pow2_pos a Ha) as Pa.
  pose proof (Z.mul_div_le m (2 ^ n) Pn).
  nia.
Qed.

Lemma dle_mul m1 e1 q1 m2 e2 q2 :
  0 <= m1 -> 0 <= m2 -> 0 <= q1 ->
  dle m1 e1 q1 -> dle m2 e2 q2 -> dle (m1 * m2) (e1 + e2) (q1 * q2).
Proof.
  intros P1 P2 Q1 (a1 & b1 & Ha1 & Hb1 & -> & H1) (a2 & b2 & Ha2 & Hb2 & -> & H2).
  exists (a1 + a2), (b1 + b2). repeat split; try lia.
  rewrite !Z.pow_add_r by lia.
  pose proof (pow2_pos a1 Ha1). pose proof (pow2_pos a2 Ha2).
  pose proof (pow2_pos b1 Hb1). pose proof (pow2_pos b2 Hb2).
  assert (0 <= m1 * 2 ^ a1) by nia. assert (0 <= m2 * 2 ^ a2) by nia.
  assert (m1 * 2 ^ a1 * (m2 * 2 ^ a2) <= q1 * 2 ^ b1 * (q2 * 2 ^ b2)) by nia.
  nia.
Qed.

(** *** Shifting a mantissa right *)

(** After [n] one-bit shifts the mantissa is the quotient by [2^n], and the
    round and sticky bits are both clear when they were clear before and
    the division is exact. *)
Definition shifted (n : Z) (x y : shr_record) : Prop :=
  0 <= shr_m x ->
  0 <= shr_m y
  /\ shr_m y = shr_m x / 2 ^ n
  /\ (shr_r x || shr_s x = false -> shr_m x mod 2 ^ n = 0 ->
      shr_r y || shr_s y = false).

Lemma shifted_1 (x : shr_record) : shifted 1 x (shr_1 x).
Proof.
  destruct x as [m r s]. unfold shifted. cbn [shr_m shr_r shr_s]. intros Hm.
  change (2 ^ 1) with 2.
  destruct m as [|p|p]; [| |lia].
  - cbn. split; [lia|]. split; [reflexivity|]. intros H _. now rewrite H.
  - destruct p as [p|p|]; cbn [shr_1 shr_m shr_r shr_s].
    + split; [lia|]. split.
      * rewrite Pos2Z.inj_xI. apply Z.div_unique with 1; lia.
      * intros _ H. rewrite Pos2Z.inj_xI in H.
        rewrite Z.add_comm, Z.mul_comm, Z.mod_add in H by lia. discriminate H.
    + split; [lia|]. split.
      * rewrite Pos2Z.inj_xO. apply Z.div_unique with 0; lia.
      * intros H _. now rewrite H.
    + split; [lia|]. split; [reflexivity|]. intros _ H. discriminate H.
Qed.

Lemma shifted_trans j k x y z :
  0 <= j -> 0 <= k -> shifted j x y -> shifted k y z -> shifted (j + k) x z.
Proof.
  intros Hj Hk A B Hx. destruct (A Hx) as (Hy & My & Fy).
  destruct (B Hy) as (Hz & Mz & Fz). split; [exact Hz|].
  pose proof (pow2_pos j Hj) as Pj. pose proof (pow2_pos k Hk) as Pk.
  split.
  - rewrite Mz, My, Z.pow_add_r, Z.div_div by lia. reflexivity.
  - intros F Hmod. rewrite Z.pow_add_r in Hmod by lia.
    apply Z.mod_divide in Hmod; [|lia]. destruct Hmod as [c Hc].
    apply Fz.
    + apply Fy; [exact F|]. apply Z.mod_divide; [lia|].
      exists (c * 2 ^ k). lia.
    + rewrite My. apply Z.mod_divide; [lia|]. exists c.
      rewrite Hc. replace (c * (2 ^ j * 2 ^ k)) with (c * 2 ^ k * 2 ^ j) by ring.
      now rewrite Z.div_mul by lia.
Qed.

Lemma shifted_iter (p : positive) : forall x, shifted (Zpos p) x (iter_pos shr_1 p x).
Proof.
  induction p as [p IH|p IH|]; intros x; cbn [iter_pos].
  - rewrite Pos2Z.inj_xI.
    replace (2 * Zpos p + 1) with (1 + (Zpos p + Zpos p)) by lia.
    apply shifted_trans with (shr_1 x); try lia; [apply shifted_1|].
    apply shifted_trans with (iter_pos shr_1 p (shr_1 x)); try lia; apply IH.
  - rewrite Pos2Z.inj_xO.
    replace (2 * Zpos p) with (Zpos p + Zpos p) by lia.
    apply shifted_trans with (iter_pos shr_1 p x); try lia; apply IH.
  - apply shifted_1.
Qed.

Lemma digits2_lower (p : positive) : 2 ^ (Zpos (digits2_pos p) - 1) <= Zpos p.
Proof.
  induction p as [p IH|p IH|]; cbn [digits2_pos].
  - rewrite Pos2Z.inj_succ.
    replace (Z.succ (Zpos (digits2_pos p)) - 1)
      with ((Zpos (digits2_pos p) - 1) + 1) by lia.
    rewrite Z.pow_add_r by lia. change (2 ^ 1) with 2.
    set (x := 2 ^ (Zpos (digits2_pos p) - 1)) in *. lia.
  - rewrite Pos2Z.inj_succ.
    replace (Z.succ (Zpos (digits2_pos p)) - 1)
      with ((Zpos (digits2_pos p) - 1) + 1) by lia.
    rewrite Z.pow_add_r by lia. change (2 ^ 1) with 2.
    set (x := 2 ^ (Zpos (digits2_pos p) - 1)) in *. lia.
  - cbn. lia.
Qed.

Lemma loc_exact_flags (x : shr_record) :
  loc_of_shr_record x = loc_Exact <-> shr_r x || shr_s x = false.
Proof. destruct x as [m [] []]; cbn; split; intros H; congruence. Qed.

Lemma record_of_loc (m : Z) (l : SpecFloat.location) :
  shr_m (shr_record_of_loc m l) = m
  /\ loc_of_shr_record (shr_record_of_loc m l) = l.
Proof. destruct l as [|[]]; split; reflexivity. Qed.

Lemma round_nearest_even_bounds (m : Z) (l : SpecFloat.location) :
  m <= round_nearest_even m l <= m + 1
  /\ (l = loc_Exact -> round_nearest_even m l = m).
Proof.
  destruct l as [|[]]; cbn; try (split; [lia|]; congruence).
  destruct (Z.even m); split; try lia; congruence.
Qed.

(** [shr_fexp] either leaves the mantissa alone or divides it by a power
    of two, and keeps an exact value exact. *)
Lemma shr_fexp_spec (m e : Z) (l : SpecFloat.location) :
  0 <= m ->
  let n := fexp PyNum.prec PyNum.emax (Zdigits2 m + e) - e in
  let '(x, e') := shr_fexp PyNum.prec PyNum.emax m e l in
  0 <= shr_m x
  /\ ((n <= 0 /\ shr_m x = m /\ e' = e /\ loc_of_shr_record x = l)
      \/ (0 < n /\ shr_m x = m / 2 ^ n /\ e' = e + n
          /\ (l = loc_Exact -> m mod 2 ^ n = 0 -> loc_of_shr_record x = loc_Exact))).
Proof.
  intros Hm n. unfold shr_fexp. fold n.
  destruct (record_of_loc m l) as [Rm Rl].
  destruct n as [|p|p] eqn:En; cbn [shr].
  - rewrite Rm. split; [exact Hm|]. left. repeat split; try lia. exact Rl.
  - pose proof (shifted_iter p (shr_record_of_loc m l)) as S.
    unfold shifted in S. rewrite Rm in S. destruct (S Hm) as (Hy & My & Fy).
    split; [exact Hy|]. right. repeat split; try lia; try exact My.
    intros -> Hmod. apply loc_exact_flags. apply Fy; [|exact Hmod].
    reflexivity.
  - rewrite Rm. split; [exact Hm|]. left. repeat split; try lia. exact Rl.
Qed.

Lemma dle_mono m m' e q : m' <= m -> dle m e q -> dle m' e q.
Proof.
  intros H (a & b & Ha & Hb & E & L). exists a, b. repeat split; try assumption.
  pose proof (pow2_pos a Ha). nia.
Qed.

(** The exponent that rounding settles on is not positive while the value
    stays below [2^53]. *)
Lemma fexp_not_positive (M E Q : Z) :
  0 <= M -> 0 < Q < 2 ^ 53 -> dle M E Q -> (M = 0 -> E <= 0) ->
  fexp PyNum.prec PyNum.emax (Zdigits2 M + E) <= 0.
Proof.
  intros HM HQ Hle H0. unfold fexp, emin, PyNum.prec, PyNum.emax.
  destruct M as [|p|p]; [cbn [Zdigits2]; specialize (H0 eq_refl); lia| |lia].
  cbn [Zdigits2]. pose proof (digits2_lower p) as D.
  set (d := Zpos (digits2_pos p)) in *.
  assert (Hd : 1 <= d) by (unfold d; lia).
  destruct (Z.le_gt_cases (d + E - 53) 0) as [|C]; [lia|exfalso].
  destruct (Z.le_gt_cases 0 E) as [HE|HE].
  - apply dle_pos in Hle; [|exact HE].
    assert (2 ^ 53 <= 2 ^ (d - 1) * 2 ^ E).
    { rewrite <- Z.pow_add_r by lia. apply Z.pow_le_mono_r; lia. }
    pose proof (pow2_pos E HE). nia.
  - apply dle_neg in Hle; [|lia].
    assert (2 ^ 53 * 2 ^ (- E) <= 2 ^ (d - 1)).
    { rewrite <- Z.pow_add_r by lia. apply Z.pow_le_mono_r; lia. }
    assert (0 < 2 ^ (- E)) by (apply pow2_pos; lia). nia.
Qed.

Lemma round_at_most (M E Q : Z) (l : SpecFloat.location) :
  0 <= M -> 0 < Q < 2 ^ 53 ->
  dle M E Q -> (l <> loc_Exact -> dlt M E Q) -> (l = loc_Exact \/ E <= 0) ->
  at_most (binary_round_aux PyNum.prec PyNum.emax false M E l) Q.
Proof.
  intros HM HQ Hle Hlt Hex. unfold binary_round_aux.
  pose proof (shr_fexp_spec M E l HM) as S1. cbv zeta in S1.
  destruct (shr_fexp PyNum.prec PyNum.emax M E l) as [x1 e1].
  destruct S1 as (P1 & S1).
  destruct (round_nearest_even_bounds (shr_m x1) (loc_of_shr_record x1)) as (B2 & X2).
  set (m2 := round_nearest_even (shr_m x1) (loc_of_shr_record x1)) in *.
  assert (D2 : dle m2 e1 Q).
  { destruct S1 as [(Hn & Mx & Ee & Ll) | (Hn & Mx & Ee & Lx)].
    - (* the mantissa is kept *)
      rewrite Ll in X2. rewrite Mx in B2, X2. subst e1.
      destruct l as [|c].
      + rewrite X2 by reflexivity. exact Hle.
      + destruct Hex as [Hex|Hex]; [discriminate|].
        assert (Hs : dlt M E Q) by (apply Hlt; discriminate).
        apply dlt_neg in Hs; [|exact Hex].
        apply dle_of_neg; [exact Hex|lia].
    - (* low bits are dropped *)
      set (n := fexp PyNum.prec PyNum.emax (Zdigits2 M + E) - E) in *.
      assert (Pn : 0 < 2 ^ n) by (apply pow2_pos; lia).
      destruct (Z.eq_dec (M mod 2 ^ n) 0) as [Hmod|Hmod].
      + destruct l as [|c].
        * rewrite (Lx eq_refl Hmod) in X2. rewrite X2 by reflexivity.
          rewrite Mx, Ee. apply dle_shift; [lia|exact HM|exact Hle].
        * destruct Hex as [Hex|Hex]; [discriminate|].
          assert (He1 : e1 <= 0).
          { rewrite Ee. unfold n. ring_simplify.
            apply (fexp_not_positive M E Q); auto. }
          assert (Hs : dlt M E Q) by (apply Hlt; discriminate).
          apply dlt_neg in Hs; [|exact Hex].
          replace (- E) with (- e1 + n) in Hs by lia.
          rewrite Z.pow_add_r in Hs by lia.
          pose proof (Z.mul_div_le M (2 ^ n) Pn) as Hd. rewrite <- Mx in Hd.
          assert (0 < 2 ^ (- e1)) by (apply pow2_pos; lia).
          apply dle_of_neg; [exact He1|]. nia.
      + assert (HM0 : M <> 0) by (intros ->; apply Hmod; apply Z.mod_0_l; lia).
        assert (He1 : e1 <= 0).
        { rewrite Ee. unfold n. ring_simplify.
          apply (fexp_not_positive M E Q); auto. intros; contradiction. }
        assert (HE : E <= 0) by lia.
        pose proof (dle_neg _ _ _ Hle HE) as Hs.
        replace (- E) with (- e1 + n) in Hs by lia.
        rewrite Z.pow_add_r in Hs by lia.
        pose proof (Z.div_mod M (2 ^ n) ltac:(lia)) as Hdm.
        pose proof (Z.mod_pos_bound M (2 ^ n) Pn) as Hb.
        rewrite <- Mx in Hdm.
        assert (0 < 2 ^ (- e1)) by (apply pow2_pos; lia).
        apply dle_of_neg; [exact He1|]. nia. }
  assert (P2 : 0 <= m2) by lia.
  pose proof (shr_fexp_spec m2 e1 loc_Exact P2) as S2. cbv zeta in S2.
  destruct (shr_fexp PyNum.prec PyNum.emax m2 e1 loc_Exact) as [x2 e2].
  destruct S2 as (P3 & S2).
  assert (D3 : dle (shr_m x2) e2 Q).
  { destruct S2 as [(_ & -> & -> & _) | (Hn & -> & -> & _)]; [exact D2|].
    apply dle_shift; [lia|exact P2|exact D2]. }
  destruct (shr_m x2) as [|m|m]; [exact I| |lia].
  destruct (Z.leb_spec e2 (PyNum.emax - PyNum.prec)) as [He|He]; [exact D3|].
  exfalso. unfold PyNum.emax, PyNum.prec in He.
  apply dle_pos in D3; [|lia].
  assert (2 ^ 53 <= 2 ^ e2) by (apply Z.pow_le_mono_r; lia).
  nia.
Qed.

(** *** The three float operations of the allocation *)

Lemma iter_xO (p d : positive) : Zpos (Pos.iter xO p d) = Zpos p * 2 ^ Zpos d.
Proof.
  induction d as [|d IH] using Pos.peano_ind.
  - cbn [Pos.iter]. change (2 ^ 1) with 2. lia.
  - rewrite Pos.iter_succ, Pos2Z.inj_succ, Z.pow_succ_r by lia.
    change (Zpos (Pos.iter xO p d)~0) with (2 * Zpos (Pos.iter xO p d)).
    rewrite IH. ring.
Qed.

Lemma float_of_int_at_most (q : Z) :
  0 <= q < 2 ^ 53 -> exists f, PyNum.float_of_int q = Some f /\ at_most f q.
Proof.
  intros Hq. unfold PyNum.float_of_int, binary_normalize.
  destruct q as [|p|p]; [exists (S754_zero false); split; [reflexivity|exact I]| |lia].
  unfold binary_round.
  assert (A : at_most
                (let '(mz, ez) :=
                   shl_align p 0 (fexp PyNum.prec PyNum.emax (Zpos (digits2_pos p) + 0)) in
                 binary_round_aux PyNum.prec PyNum.emax false (Zpos mz) ez loc_Exact)
                (Zpos p)).
  { unfold shl_align.
    destruct (fexp PyNum.prec PyNum.emax (Zpos (digits2_pos p) + 0) - 0) as [|d|d] eqn:Ed.
    - apply round_at_most; [lia|lia| |intros H; now elim H|now left].
      apply dle_of_pos; lia.
    - apply round_at_most; [lia|lia| |intros H; now elim H|now left].
      apply dle_of_pos; lia.
    - apply round_at_most; [lia|lia| |intros H; now elim H|now left].
      apply dle_of_neg; [lia|].
      replace (- fexp PyNum.prec PyNum.emax (Zpos (digits2_pos p) + 0)) with (Zpos d) by lia.
      rewrite iter_xO. lia. }
  destruct (let '(mz, ez) := shl_align p 0 _ in _) as [[]|[]| |[] m e];
    cbn [at_most] in A; try contradiction; eexists; split; try reflexivity; exact A.
Qed.

Lemma new_location_exact (nb : Z) : new_location nb 0 = loc_Exact.
Proof. unfold new_location. destruct (Z.even nb); reflexivity. Qed.

Lemma new_location_inexact (nb r : Z) : new_location nb r <> loc_Exact -> r <> 0.
Proof. intros H ->. apply H, new_location_exact. Qed.

Lemma int_truediv_at_most (a t : Z) :
  0 < a <= t -> exists w, PyNum.int_truediv a t = Some w /\ at_most w 1.
Proof.
  intros Ha. destruct a as [|p|p]; [lia| |lia]. destruct t as [|q|q]; [lia| |lia].
  unfold PyNum.int_truediv, SFdiv, SFdiv_core_binary. cbn [xorb].
  set (e' := Z.min (fexp PyNum.prec PyNum.emax
                      (Zdigits2 (Zpos p) + 0 - (Zdigits2 (Zpos q) + 0))) (0 - 0)).
  assert (He : e' <= 0) by (unfold e'; lia).
  set (m' := match 0 - 0 - e' with
             | Zpos _ => Z.shiftl (Zpos p) (0 - 0 - e')
             | Z0 => Zpos p
             | Zneg _ => Z0
             end).
  assert (Hm : m' = Zpos p * 2 ^ (- e')).
  { unfold m'. replace (0 - 0 - e') with (- e') by lia.
    destruct (- e') as [|s|s] eqn:Es; [cbn; lia| |lia].
    now rewrite Z.shiftl_mul_pow2 by lia. }
  clearbody m' e'.
  pose proof (Z.div_eucl_eq m' (Zpos q) ltac:(lia)) as Hd.
  pose proof (Z.mod_pos_bound m' (Zpos q) ltac:(lia)) as Hr.
  unfold Z.modulo in Hr.
  destruct (Z.div_eucl m' (Zpos q)) as [k r].
  assert (Ps : 0 < 2 ^ (- e')) by (apply pow2_pos; lia).
  assert (Hk : 0 <= k) by nia.
  assert (A : at_most (binary_round_aux PyNum.prec PyNum.emax false k e'
                         (new_location (Zpos q) r)) 1).
  { apply round_at_most; [exact Hk|lia| | |now right].
    - apply dle_of_neg; [exact He|]. nia.
    - intros Hl. apply new_location_inexact in Hl.
      exists 0, (- e'). split; [lia|]. split; [lia|]. split; [lia|]. nia. }
  destruct (binary_round_aux _ _ _ _ _ _) as [[]|[]| |[] m e];
    cbn [at_most] in A; try contradiction; eexists; split; try reflexivity; exact A.
Qed.

Lemma SFmul_at_most (x w : PyNum.float) (q : Z) :
  0 <= q < 2 ^ 53 -> at_most x q -> at_most w 1 ->
  at_most (SFmul PyNum.prec PyNum.emax x w) q.
Proof.
  intros Hq Hx Hw.
  destruct x as [[]|[]| |[] mx ex]; cbn [at_most] in Hx; try contradiction;
    destruct w as [[]|[]| |[] mw ew]; cbn [at_most] in Hw; try contradiction;
    cbn [SFmul xorb]; try exact I.
  assert (0 < q).
  { destruct Hx as (a & b & Ha & Hb & _ & H).
    pose proof (pow2_pos a Ha). pose proof (pow2_pos b Hb). nia. }
  apply round_at_most; [lia|lia| |intros H'; now elim H'|now left].
  rewrite Pos2Z.inj_mul. replace q with (q * 1) by lia.
  apply dle_mul; try lia; assumption.
Qed.

Lemma int_of_float_at_most (f : PyNum.float) (q : Z) :
  0 <= q -> at_most f q ->
  exists n, PyNum.int_of_float f = Some n /\ PyNum.floor_of_float f = Some n
            /\ 0 <= n <= q.
Proof.
  intros Hq Hf.
  destruct f as [[]|[]| |[] m e]; cbn [at_most] in Hf; try contradiction.
  - exists 0. repeat split; lia.
  - cbn [PyNum.int_of_float PyNum.floor_of_float].
    eexists. split; [reflexivity|]. split; [destruct e; reflexivity|].
    destruct e as [|p|p].
    + apply dle_pos in Hf; [|lia]. rewrite Z.shiftl_0_r. lia.
    + apply dle_pos in Hf; [|lia]. rewrite Z.shiftl_mul_pow2 by lia.
      pose proof (pow2_pos (Zpos p)). nia.
    + apply dle_neg in Hf; [|lia]. rewrite Z.shiftr_div_pow2 by lia.
      change (- Zneg p) with (Zpos p) in Hf.
      pose proof (pow2_pos (Zpos p) ltac:(lia)) as P.
      split; [apply Z.div_pos; lia|].
      apply Z.div_le_upper_bound; [exact P|]. lia.
Qed.

(** The allocation of one resource to one area: for a stock below [2^53]
    and a weight of at most one, [int(total_quantity * area_weight)]
    exists, is the floor of the product, and lies between nothing and all
    of the stock. *)
Lemma allocated_quantity_bound (q : Z) (w : PyNum.float) :
  0 <= q < 2 ^ 53 -> at_most w 1 ->
  exists n, allocated_quantity q (W_float w) = Some n
            /\ (p <- PyNum.int_mul_float q w ;; PyNum.floor_of_float p) = Some n
            /\ 0 <= n <= q.
Proof.
  intros Hq Hw. unfold allocated_quantity, PyNum.int_mul_float.
  destruct (float_of_int_at_most q Hq) as (x & -> & Hx). cbn [bind].
  apply int_of_float_at_most; [lia|]. now apply SFmul_at_most.
Qed.

(** ** The allocation loops *)

Lemma get_app_fresh {V} (d1 d2 : dict V) (k : string) :
  ~ In k (Dict.keys d1) -> Dict.get (d1 ++ d2) k = Dict.get d2 k.
Proof.
  induction d1 as [|[k' v'] d1 IH]; cbn; intros N; [reflexivity|].
  destruct (String.eqb k k') eqn:E.
  - apply String.eqb_eq in E. subst. exfalso. apply N. now left.
  - apply IH. intros H. apply N. now right.
Qed.

Lemma set_app_fresh {V} (d1 d2 : dict V) (k : string) (v v' : V) :
  ~ In k (Dict.keys d1) ->
  Dict.set (d1 ++ (k, v) :: d2) k v' = d1 ++ (k, v') :: d2.
Proof.
  induction d1 as [|[k0 v0] d1 IH]; cbn; intros N.
  - now rewrite String.eqb_refl.
  - destruct (String.eqb k k0) eqn:E.
    + apply String.eqb_eq in E. subst. exfalso. apply N. now left.
    + f_equal. apply IH. intros H. apply N. now right.
Qed.

Lemma set_fresh {V} (d : dict V) (k : string) (v : V) :
  ~ In k (Dict.keys d) -> Dict.set d k v = d ++ [(k, v)].
Proof.
  induction d as [|[k0 v0] d IH]; cbn; intros N; [reflexivity|].
  destruct (String.eqb k k0) eqn:E.
  - apply String.eqb_eq in E. subst. exfalso. apply N. now left.
  - f_equal. apply IH. intros H. apply N. now right.
Qed.

Definition bounded_stock (kq : string * Z) : Prop := 0 <= snd kq < 2 ^ 53.

Section InnerLoop.
Variables (total : Z) (a : AreaDemand) (f : PyNum.float).
Hypothesis total_nonzero : (total =? 0) = false.
Hypothesis weight_is : PyNum.int_truediv (priority a) total = Some f.
Hypothesis weight_at_most : at_most f 1.

Lemma area_share_is (q : Z) :
  0 <= q < 2 ^ 53 ->
  exists n, allocated_quantity q (W_float f) = Some n
            /\ Scheme.area_share Scheme.binary64_share total a q = Some n
            /\ 0 <= n <= q.
Proof.
  intros Hq. destruct (allocated_quantity_bound q f Hq weight_at_most) as (n & A & B & C).
  exists n. split; [exact A|]. split; [|exact C].
  unfold Scheme.area_share, Scheme.binary64_share.
  rewrite total_nonzero, weight_is. exact B.
Qed.

Lemma inner_loop_is_share_out (todo : dict Z) : forall (done row : dict Z),
  NoDup (Dict.keys (done ++ todo)) ->
  Forall bounded_stock todo ->
  (forall k, In k (Dict.keys row) -> In k (Dict.keys done)) ->
  exists row2 todo',
    Scheme.share_out Scheme.binary64_share total a todo = Some (row2, todo')
    /\ for_each (allocate_resource (W_float f)) (Dict.keys todo) (row, done ++ todo)
       = Some (row ++ row2, done ++ todo')
    /\ Dict.keys todo' = Dict.keys todo
    /\ Forall bounded_stock todo'.
Proof.
  induction todo as [|[k q] rest IH]; intros done row ND B R.
  - exists [], []. cbn. rewrite !app_nil_r. repeat split. constructor.
  - inversion B as [|? ? Bq Brest]; subst. unfold bounded_stock in Bq. cbn [snd] in Bq.
    destruct (area_share_is q Bq) as (n & A & S & Hn).
    assert (Nk : ~ In k (Dict.keys done)).
    { unfold Dict.keys in *. rewrite map_app in ND. cbn [map fst] in ND.
      apply NoDup_remove_2 in ND. intros H. apply ND, in_or_app. now left. }
    assert (Nrow : ~ In k (Dict.keys row)) by (intros H; apply Nk, R, H).
    assert (ND' : forall v, NoDup (Dict.keys ((done ++ [(k, v)]) ++ rest))).
    { intros v. rewrite <- app_assoc. cbn [app].
      unfold Dict.keys in *. rewrite map_app in *. exact ND. }
    cbn [Scheme.share_out Dict.keys map fst for_each]. fold (Dict.keys rest).
    rewrite S. cbn [bind].
    unfold allocate_resource at 1.
    rewrite get_app_fresh by exact Nk. cbn [Dict.get]. rewrite String.eqb_refl.
    cbn [bind]. rewrite A. cbn [bind].
    destruct (0 <? n) eqn:Pn.
    + apply Z.ltb_lt in Pn.
      assert (En : (n =? 0) = false) by (apply Z.eqb_neq; lia).
      rewrite set_app_fresh by exact Nk. rewrite set_fresh by exact Nrow.
      destruct (IH (done ++ [(k, q - n)]) (row ++ [(k, n)]) (ND' _) Brest)
        as (row2 & todo' & S2 & F2 & K2 & B2).
      { intros k' Hk'. unfold Dict.keys in *. rewrite map_app in *.
        apply in_app_or in Hk'. apply in_or_app.
        destruct Hk' as [Hk'|Hk']; [left; now apply R|right; exact Hk']. }
      rewrite S2. cbn [bind]. rewrite En.
      exists ((k, n) :: row2), ((k, q - n) :: todo').
      split; [reflexivity|]. rewrite <- !app_assoc in F2. cbn [app] in F2.
      split; [exact F2|]. split; [change (k :: Dict.keys todo' = k :: Dict.keys rest); now rewrite K2|].
      constructor; [unfold bounded_stock; cbn; lia|exact B2].
    + apply Z.ltb_ge in Pn. assert (n = 0) by lia. subst n.
      destruct (IH (done ++ [(k, q)]) row (ND' _) Brest)
        as (row2 & todo' & S2 & F2 & K2 & B2).
      { intros k' Hk'. unfold Dict.keys in *. rewrite map_app.
        apply in_or_app. left. now apply R. }
      rewrite S2. cbn [bind]. cbn [Z.eqb].
      exists row2, ((k, q - 0) :: todo').
      split; [reflexivity|]. rewrite <- !app_assoc in F2. cbn [app] in F2.
      rewrite Z.sub_0_r.
      split; [exact F2|]. split; [change (k :: Dict.keys todo' = k :: Dict.keys rest); now rewrite K2|].
      constructor; [exact Bq|exact B2].
Qed.
End InnerLoop.

Lemma fold_left_add (l : list Z) : forall z,
  fold_left Z.add l z = z + fold_right Z.add 0 l.
Proof.
  induction l as [|x l IH]; intros z; cbn; [lia|]. rewrite IH. lia.
Qed.

Lemma total_weight_eq (l : list AreaDemand) :
  Scheme.total_weight l = total_priority_weight l.
Proof.
  unfold total_priority_weight, Scheme.total_weight. rewrite fold_left_add.
  rewrite Z.add_0_l.
  induction l as [|a l IH]; cbn [fold_right map]; [reflexivity|]. now rewrite IH.
Qed.

Lemma positive_priority (a : AreaDemand) : positive_area a -> 0 < priority a.
Proof. intros [Hs Hp]. unfold priority. nia. Qed.

Lemma priority_le_total (l : list AreaDemand) :
  Forall positive_area l ->
  0 <= Scheme.total_weight l
  /\ Forall (fun a => 0 < priority a <= Scheme.total_weight l) l.
Proof.
  induction 1 as [|a l Ha Hl [IH0 IH]]; [split; [cbn; lia|constructor]|].
  change (Scheme.total_weight (a :: l)) with (priority a + Scheme.total_weight l).
  pose proof (positive_priority a Ha). split; [lia|].
  constructor; [lia|]. eapply Forall_impl; [|exact IH]. cbn beta. intros; lia.
Qed.

Lemma outer_loop_is_single_pass (areas : list AreaDemand) (total : Z) :
  total_priority_weight areas = total -> 0 < total ->
  forall (l : list AreaDemand) (p : plan) (remaining : dict Z),
  Forall (fun a => 0 < priority a <= total) l -> stock_ok remaining ->
  exists rows final,
    Scheme.single_pass Scheme.binary64_share total l remaining = Some (rows, final)
    /\ for_each (allocate_area areas) l (p, remaining)
       = Some (fold_left (fun p r => Dict.set p (fst r) (snd r)) rows p, final)
    /\ stock_ok final.
Proof.
  intros Ht Hpos. induction l as [|a l IH]; intros p remaining Hl Hs.
  - exists [], remaining. split; [reflexivity|]. split; [reflexivity|exact Hs].
  - inversion Hl as [|? ? Ha Hl']; subst.
    destruct (int_truediv_at_most (priority a) (total_priority_weight areas) Ha)
      as (f & Hf & Af).
    assert (Hz : (total_priority_weight areas =? 0) = false) by (apply Z.eqb_neq; lia).
    destruct Hs as [Hwf Hb].
    destruct (inner_loop_is_share_out _ a f Hz Hf Af remaining [] [])
      as (row & remaining' & S & F & K & B); try assumption.
    { intros k []. }
    cbn [app] in F.
    assert (Hs' : stock_ok remaining').
    { split; [|exact B]. unfold Dict.wf in *. now rewrite K. }
    destruct (IH (Dict.set p (name a) row) remaining' Hl' Hs')
      as (rows & final & S' & F' & Hfin).
    exists ((name a, row) :: rows), final.
    cbn [Scheme.single_pass for_each]. rewrite S. cbn [bind]. rewrite S'. cbn [bind].
    split; [reflexivity|]. split; [|exact Hfin].
    unfold allocate_area at 1. cbv beta iota zeta. unfold area_weight.
    assert (Hp : (0 <? total_priority_weight areas) = true) by (apply Z.ltb_lt; lia).
    rewrite Hp, Hf. cbn [bind].
    match goal with |- context [for_each (allocate_resource ?w) ?ks ?s] =>
      replace (for_each (allocate_resource w) ks s) with (Some (row, remaining'))
        by (symmetry; exact F) end.
    cbn [bind].
    rewrite set_set. exact F'.
Qed.

Lemma zero_weight_loop (remaining : dict Z) : forall (l : list string) (row : dict Z),
  (forall k, In k l -> In k (Dict.keys remaining)) ->
  for_each (allocate_resource W_zero) l (row, remaining) = Some (row, remaining).
Proof.
  induction l as [|k l IH]; intros row H; [reflexivity|].
  cbn [for_each]. unfold allocate_resource at 1.
  assert (G : exists q, Dict.get remaining k = Some q).
  { specialize (H k (or_introl eq_refl)). clear IH.
    induction remaining as [|[k' q'] r IHr]; [contradiction|].
    cbn. destruct (String.eqb k k') eqn:E; [now exists q'|].
    apply IHr. destruct H as [H|H]; [|exact H].
    cbn in H. subst k'. now rewrite String.eqb_refl in E. }
  destruct G as [q ->]. cbn. apply IH. intros k' Hk'. apply H. now right.
Qed.

Lemma zero_total_loop (held : list AreaDemand) :
  total_priority_weight held = 0 ->
  forall (l : list AreaDemand) (p : plan) (remaining : dict Z),
  for_each (allocate_area held) l (p, remaining)
  = Some (fold_left (fun p a => Dict.set p (name a) []) l p, remaining).
Proof.
  intros Ht. induction l as [|a l IH]; intros p remaining; [reflexivity|].
  cbn [for_each fold_left]. unfold allocate_area at 1. cbv beta iota zeta.
  unfold area_weight. rewrite Ht. cbn [Z.ltb Z.compare bind].
  rewrite zero_weight_loop by (intros k H; exact H). cbn [bind].
  rewrite set_set. apply IH.
Qed.

(** C1 as stated fails.  With the floor taken of the exact product, areas
    C (9 * 200) and D (5 * 300) and 198 units of food give C 108 units
    (198 * 1800 / 3300 is 108), where the code gives 107.  With the
    arithmetic of the code, an inventory of 2^53 + 3 units and areas H and
    S leave a negative remainder after H, of which the scheme's floor
    gives S the allocation -1 and the code nothing. *)
Lemma allocation_differs_from_scheme :
  allocation_plan_of (update_priority_areas [area_C; area_D]) [("food", 198)]
    <> Scheme.allocation Scheme.exact_share [area_C; area_D] [("food", 198)]
  /\ allocation_plan_of (update_priority_areas [area_H; area_S]) [("food", 2 ^ 53 + 3)]
       <> Scheme.allocation Scheme.binary64_share [area_H; area_S]
            [("food", 2 ^ 53 + 3)].
Proof. split; vm_compute; discriminate. Qed.

(** C1, amended: for every list of demand areas with positive severity and
    population and every inventory of distinct kinds with quantities from
    0 up to, but not including, 2^53, [optimize_resource_allocation]
    returns the plan of the single-pass proportional scheme in binary64
    arithmetic: areas in descending severity * population order, the
    total summed once, each area's weight the rounded quotient of its
    priority by that total, each allocation the floor of the rounded
    product of the running remainder and the weight, zero allocations
    left out, the remainder decremented.  For any held list whose total
    weight is 0, every area gets an empty row and nothing is raised. *)
Theorem allocation_is_single_pass :
  (forall area_data inventory,
      Forall positive_area area_data -> stock_ok inventory ->
      exists p,
        allocation_plan_of (update_priority_areas area_data) inventory = Some p
        /\ Scheme.allocation Scheme.binary64_share area_data inventory = Some p)
  /\ (forall held inventory,
        total_priority_weight held = 0 ->
        allocation_plan_of held inventory = Some (empty_rows held)).
Proof.
  split.
  - intros area_data inventory Hpos Hs.
    unfold allocation_plan_of, Scheme.allocation, update_priority_areas.
    cbv zeta.
    set (areas := sorted_desc priority area_data).
    assert (Hp : Forall positive_area areas).
    { eapply Permutation_Forall; [|exact Hpos].
      apply Permutation_sym, sorted_desc_perm. }
    destruct (priority_le_total areas Hp) as [H0 Hle].
    rewrite total_weight_eq in *.
    destruct areas as [|a l] eqn:Ea.
    + exists []. split; reflexivity.
    + assert (Ht : 0 < total_priority_weight (a :: l))
        by (inversion Hle; subst; lia).
      destruct (outer_loop_is_single_pass (a :: l) _ eq_refl Ht (a :: l) []
                  inventory Hle Hs) as (rows & final & S & F & _).
      assert (F' : allocation_loop (a :: l) inventory
                   = Some (fold_left (fun p r => Dict.set p (fst r) (snd r)) rows [],
                           final)) by exact F.
      rewrite S, F'. cbn [bind]. eexists. split; reflexivity.
  - intros held inventory Ht.
    unfold allocation_plan_of.
    assert (F : allocation_loop held inventory = Some (empty_rows held, inventory))
      by apply (zero_total_loop held Ht).
    now rewrite F.
Qed.

Lemma allocation_is_single_pass_witness :
  exists p,
    allocation_plan_of (update_priority_areas [area_B; area_A])
      [("food", 1000); ("water", 5000)] = Some p
    /\ Scheme.allocation Scheme.binary64_share [area_B; area_A]
         [("food", 1000); ("water", 5000)] = Some p.
Proof.
  apply (proj1 allocation_is_single_pass).
  - repeat constructor.
  - split.
    + unfold Dict.wf. cbn. repeat constructor; cbn; intuition discriminate.
    + repeat constructor; cbn; lia.
Defined.

(** ** Conservation of stock *)

Lemma stock_fresh (d : dict Z) (k : string) :
  ~ In k (Dict.keys d) -> stock d k = 0.
Proof.
  unfold stock. induction d as [|[k' v] d IH]; cbn; intros N; [reflexivity|].
  destruct (String.eqb k k') eqn:E.
  - apply String.eqb_eq in E. subst. exfalso. apply N. now left.
  - apply IH. intros H. apply N. now right.
Qed.

Lemma stock_cons (d : dict Z) (k k' : string) (v : Z) :
  stock ((k', v) :: d) k = if String.eqb k k' then v else stock d k.
Proof. unfold stock. cbn. now destruct (String.eqb k k'). Qed.

Section ShareOut.
Variables (total : Z) (a : AreaDemand) (f : PyNum.float).
Hypothesis total_nonzero : (total =? 0) = false.
Hypothesis weight_is : PyNum.int_truediv (priority a) total = Some f.
Hypothesis weight_at_most : at_most f 1.

Lemma share_out_conserves (remaining : dict Z) : forall row remaining',
  NoDup (Dict.keys remaining) -> Forall bounded_stock remaining ->
  Scheme.share_out Scheme.binary64_share total a remaining = Some (row, remaining') ->
  (forall k, stock remaining' k + stock row k = stock remaining k)
  /\ Forall (fun kn => 0 < snd kn) row
  /\ (forall k, In k (Dict.keys row) -> In k (Dict.keys remaining)).
Proof.
  induction remaining as [|[k q] rest IH]; intros row remaining' ND B S.
  - injection S as <- <-. repeat split; auto.
  - cbn [Scheme.share_out] in S.
    inversion B as [|? ? Bq Brest]; subst. unfold bounded_stock in Bq. cbn [snd] in Bq.
    destruct (area_share_is total a f total_nonzero weight_is weight_at_most q Bq)
      as (n & _ & Sn & Hn).
    rewrite Sn in S. cbn [bind] in S.
    destruct (Scheme.share_out _ total a rest) as [[row1 rest1]|] eqn:S1;
      cbn [bind] in S; [|discriminate].
    injection S as <- <-.
    cbn [Dict.keys map fst] in ND. fold (Dict.keys rest) in ND.
    apply NoDup_cons_iff in ND. destruct ND as [Nk ND].
    destruct (IH row1 rest1 ND Brest eq_refl) as (C & P & K).
    assert (Nrow : ~ In k (Dict.keys row1)) by (intros H; apply Nk, K, H).
    destruct (n =? 0) eqn:En.
    + apply Z.eqb_eq in En. subst n. split; [|split].
      * intros k'. rewrite !stock_cons. destruct (String.eqb k' k) eqn:E; [|apply C].
        apply String.eqb_eq in E. subst k'. rewrite stock_fresh by exact Nrow. lia.
      * exact P.
      * intros k' H. right. now apply K.
    + apply Z.eqb_neq in En. split; [|split].
      * intros k'. rewrite !stock_cons. destruct (String.eqb k' k); [lia|apply C].
      * constructor; [cbn; lia|exact P].
      * intros k' [H|H]; [now left|right; now apply K].
Qed.
End ShareOut.

Lemma single_pass_conserves (total : Z) : 0 < total ->
  forall (l : list AreaDemand) (remaining : dict Z) rows final,
  Forall (fun a => 0 < priority a <= total) l -> stock_ok remaining ->
  Scheme.single_pass Scheme.binary64_share total l remaining = Some (rows, final) ->
  (forall k, stock final k + rows_total rows k = stock remaining k)
  /\ positive_rows rows
  /\ stock_ok final.
Proof.
  intros Ht. induction l as [|a l IH]; intros remaining rows final Hl Hs S.
  - injection S as <- <-. repeat split; try apply Hs. intros k. cbn. lia. constructor.
  - cbn [Scheme.single_pass] in S. inversion Hl as [|? ? Ha Hl']; subst.
    destruct (int_truediv_at_most (priority a) total Ha) as (f & Hf & Af).
    assert (Hz : (total =? 0) = false) by (apply Z.eqb_neq; lia).
    destruct Hs as [Hwf Hb].
    destruct (inner_loop_is_share_out total a f Hz Hf Af remaining [] [])
      as (row & remaining' & S1 & _ & K & B); try assumption.
    { intros k []. }
    rewrite S1 in S. cbn [bind] in S.
    destruct (share_out_conserves total a f Hz Hf Af remaining row remaining' Hwf Hb S1)
      as (C & P & _).
    assert (Hs' : stock_ok remaining').
    { split; [|exact B]. unfold Dict.wf in *. now rewrite K. }
    destruct (Scheme.single_pass _ total l remaining') as [[rows1 final1]|] eqn:S2;
      cbn [bind] in S; [|discriminate].
    injection S as <- <-.
    destruct (IH remaining' rows1 final1 Hl' Hs' S2) as (C' & P' & F').
    split; [|split; [constructor; assumption|exact F']].
    intros k. cbn [rows_total fold_right snd]. fold (rows_total rows1 k).
    specialize (C k). specialize (C' k). lia.
Qed.

(** Writing a row into a plan never adds more than the row. *)
Lemma rows_total_set (p : plan) (area : string) (row : dict Z) (k : string) :
  positive_rows p -> 0 <= stock row k ->
  rows_total (Dict.set p area row) k <= rows_total p k + stock row k.
Proof.
  intros P Hr. induction p as [|[area' row'] p IH]; cbn [Dict.set].
  - cbn. lia.
  - inversion P as [|? ? Prow' Pp]; subst.
    assert (0 <= stock row' k).
    { unfold stock. cbn [snd] in Prow'. clear - Prow'.
      induction row' as [|[k' v] r IHr]; cbn; [lia|].
      inversion Prow'; subst. destruct (String.eqb k k'); [cbn in *; lia|now apply IHr]. }
    destruct (String.eqb area area'); cbn [rows_total fold_right snd];
      fold (rows_total p k); [lia|].
    fold (rows_total (Dict.set p area row) k). specialize (IH Pp). lia.
Qed.

Lemma positive_rows_set (p : plan) (area : string) (row : dict Z) :
  positive_rows p -> Forall (fun kn => 0 < snd kn) row ->
  positive_rows (Dict.set p area row).
Proof.
  intros P R. induction p as [|[area' row'] p IH]; cbn [Dict.set].
  - constructor; [exact R|constructor].
  - inversion P as [|? ? Prow' Pp]; subst. cbn [snd] in Prow'.
    destruct (String.eqb area area').
    + constructor; [exact R|exact Pp].
    + constructor; [exact Prow'|exact (IH Pp)].
Qed.

Lemma stock_nonneg_of_positive (row : dict Z) (k : string) :
  Forall (fun kn => 0 < snd kn) row -> 0 <= stock row k.
Proof.
  unfold stock. induction 1 as [|[k' v] r H Hr IH]; cbn; [lia|].
  destruct (String.eqb k k'); [cbn in *; lia|exact IH].
Qed.

Lemma plan_of_rows_total (rows : list (string * dict Z)) (k : string) :
  positive_rows rows ->
  forall p, positive_rows p ->
  let p' := fold_left (fun p r => Dict.set p (fst r) (snd r)) rows p in
  positive_rows p' /\ rows_total p' k <= rows_total p k + rows_total rows k.
Proof.
  induction 1 as [|[area row] rows Hr Hrows IH]; intros p Pp; cbn [fold_left].
  - split; [exact Pp|cbn; lia].
  - cbn [fst snd] in *.
    destruct (IH (Dict.set p area row) (positive_rows_set p area row Pp Hr)) as [P' T'].
    split; [exact P'|].
    pose proof (rows_total_set p area row k Pp (stock_nonneg_of_positive row k Hr)).
    cbn [rows_total fold_right snd]. fold (rows_total rows k). cbv zeta in T'. lia.
Qed.

Lemma stock_bounded (d : dict Z) (k : string) :
  Forall bounded_stock d -> 0 <= stock d k < 2 ^ 53.
Proof.
  unfold stock. induction 1 as [|[k' v] r H Hr IH]; cbn; [lia|].
  destruct (String.eqb k k'); [exact H|exact IH].
Qed.

Lemma Forall_prefix {A} (P : A -> Prop) (l1 l2 : list A) :
  Forall P (l1 ++ l2) -> Forall P l1.
Proof. intros H. apply Forall_app in H. apply H. Qed.

(** Below 2^53 the allocation conserves the stock.  For every held list
    of areas with positive severity and population and every inventory of
    distinct kinds with quantities from 0 up to, but not including, 2^53,
    the loop of [optimize_resource_allocation] returns a plan in which
    every quantity is positive and, for every kind, the quantities of the
    plan sum to at most the inventory of that kind; and after every area
    visited the remaining inventory is again of that form, so no quantity
    in it is negative. *)
Lemma allocation_conserves_bounded_stock (areas : list AreaDemand) (inventory : dict Z) :
  Forall positive_area areas -> stock_ok inventory ->
  (exists p final,
      allocation_loop areas inventory = Some (p, final)
      /\ positive_rows p
      /\ forall kind, 0 <= rows_total p kind <= stock inventory kind)
  /\ (forall visited rest, areas = visited ++ rest ->
        exists p remaining,
          for_each (allocate_area areas) visited ([], inventory) = Some (p, remaining)
          /\ stock_ok remaining).
Proof.
  intros Hpos Hs.
  destruct (priority_le_total areas Hpos) as [H0 Hle].
  rewrite total_weight_eq in *.
  destruct areas as [|a l].
  { split.
    - exists [], inventory. split; [reflexivity|]. split; [constructor|].
      intros kind. cbn [rows_total fold_right].
      pose proof (stock_bounded inventory kind (proj2 Hs)). lia.
    - intros visited rest E. symmetry in E. apply app_eq_nil in E.
      destruct E as [-> _]. exists [], inventory. split; [reflexivity|exact Hs]. }
  set (areas := a :: l) in *.
  assert (Ht : 0 < total_priority_weight areas)
    by (inversion Hle; subst; lia).
  split.
  - destruct (outer_loop_is_single_pass areas _ eq_refl Ht areas [] inventory Hle Hs)
      as (rows & final & S & F & Hfin).
    destruct (single_pass_conserves _ Ht areas inventory rows final Hle Hs S)
      as (C & P & _).
    exists (fold_left (fun p r => Dict.set p (fst r) (snd r)) rows []), final.
    split; [exact F|].
    assert (Pnil : positive_rows []) by constructor.
    split.
    + exact (proj1 (plan_of_rows_total rows "" P [] Pnil)).
    + intros kind.
      destruct (plan_of_rows_total rows kind P [] Pnil) as [P' T]. cbv zeta in T.
      change (rows_total [] kind) with 0 in T.
      pose proof (stock_bounded final kind (proj2 Hfin)).
      specialize (C kind).
      assert (0 <= rows_total (fold_left (fun p r => Dict.set p (fst r) (snd r)) rows [])
                     kind).
      { clear - P'. induction P' as [|[area row] p Hrow Hp IH]; [cbn; lia|].
        cbn [rows_total fold_right snd]. fold (rows_total p kind).
        pose proof (stock_nonneg_of_positive row kind Hrow). lia. }
      lia.
  - intros visited rest E.
    assert (Hv : Forall (fun a => 0 < priority a <= total_priority_weight areas) visited).
    { rewrite E in Hle at 1. exact (Forall_prefix _ _ _ Hle). }
    destruct (outer_loop_is_single_pass areas _ eq_refl Ht visited [] inventory Hv Hs)
      as (rows & final & _ & F & Hfin).
    eexists _, final. split; [exact F|exact Hfin].
Qed.

(** The sample scenario: areas A and B, 1000 units of food and 5000 of
    water. *)
Example allocation_conserves_scenario :
  exists p final,
    allocation_loop [area_A; area_B] [("food", 1000); ("water", 5000)] = Some (p, final)
    /\ positive_rows p
    /\ forall kind, 0 <= rows_total p kind
                    <= stock [("food", 1000); ("water", 5000)] kind.
Proof.
  apply (allocation_conserves_bounded_stock [area_A; area_B]).
  - repeat constructor.
  - split.
    + unfold Dict.wf. cbn. repeat constructor; cbn; intuition discriminate.
    + repeat constructor; cbn; lia.
Qed.

(** C2 fails on the code.  With the single area S (severity 1,
    population 1, hence weight 1.0) and 2^53 + 3 units of food,
    [optimize_resource_allocation] gives S 2^53 + 4 units and leaves the
    remaining inventory at -1: the quantities allocated exceed the
    inventory and the remaining inventory is negative. *)
Theorem allocation_exceeds_inventory :
  exists p remaining,
    allocation_loop [area_S] [("food", 2 ^ 53 + 3)] = Some (p, remaining)
    /\ p = [("S", [("food", 2 ^ 53 + 4)])]
    /\ remaining = [("food", -1)]
    /\ stock [("food", 2 ^ 53 + 3)] "food" < rows_total p "food"
    /\ stock remaining "food" < 0.
Proof.
  exists [("S", [("food", 2 ^ 53 + 4)])], [("food", -1)].
  split; [vm_compute; reflexivity|].
  split; [reflexivity|]. split; [reflexivity|].
  split; vm_compute; reflexivity.
Qed.

(** ** The window of recent samples *)

Lemma StronglySorted_app_inv {A} (R : A -> A -> Prop) (l1 l2 : list A) :
  StronglySorted R (l1 ++ l2) ->
  StronglySorted R l1 /\ StronglySorted R l2
  /\ forall x y, In x l1 -> In y l2 -> R x y.
Proof.
  induction l1 as [|a l1 IH]; cbn [app]; intros H.
  - split; [constructor|]. split; [exact H|]. intros x y [].
  - inversion H as [|? ? Hs Hf]; subst. destruct (IH Hs) as (S1 & S2 & C).
    rewrite Forall_app in Hf. destruct Hf as [F1 F2].
    split; [constructor; assumption|]. split; [exact S2|].
    intros x y [<-|Hx] Hy.
    + rewrite Forall_forall in F2. now apply F2.
    + now apply C.
Qed.

(** [get_recent_data] returns the [count] most recent samples of a source,
    newest first: as many as asked for when the source holds that many,
    all of them otherwise, none for a source that is unknown or empty;
    no sample left out is newer than one returned. *)
Theorem get_recent_data_newest_first (a : AnalyticsPredictionAgent)
    (source : string) (count : nat) :
  let recent := get_recent_data a source count in
  List.length recent = Nat.min count (List.length (samples_of a source))
  /\ StronglySorted (desc sample_timestamp) recent
  /\ exists older,
       Permutation (recent ++ older) (samples_of a source)
       /\ forall x y, In x recent -> In y older ->
            sample_timestamp y <= sample_timestamp x.
Proof.
  unfold get_recent_data, samples_of.
  destruct (Dict.get (data_sources a) source) as [[|s l]|]; cbn [default].
  - cbn. rewrite Nat.min_0_r. split; [reflexivity|]. split; [constructor|].
    exists []. split; [constructor|]. intros x y [].
  - set (samples := s :: l).
    set (sorted := sorted_desc sample_timestamp samples).
    cbv zeta.
    pose proof (sorted_desc_sorted sample_timestamp samples) as Hs.
    pose proof (sorted_desc_perm sample_timestamp samples) as Hp.
    pose proof (sorted_desc_length sample_timestamp samples) as Hl.
    fold sorted in Hs, Hp, Hl.
    set (n := Nat.min count (List.length sorted)).
    rewrite <- (firstn_skipn n sorted) in Hs, Hp.
    apply StronglySorted_app_inv in Hs. destruct Hs as (S1 & _ & C).
    split; [|split; [exact S1|]].
    + rewrite length_firstn. unfold n. rewrite Hl. lia.
    + exists (skipn n sorted). split; [exact Hp|].
      intros x y Hx Hy. exact (C x y Hx Hy).
  - cbn. rewrite Nat.min_0_r. split; [reflexivity|]. split; [constructor|].
    exists []. split; [constructor|]. intros x y [].
Qed.

(** ** Registration *)

Lemma mem_set {V} (d : dict V) (k k' : string) (v : V) :
  Dict.mem (Dict.set d k v) k' = (String.eqb k' k || Dict.mem d k')%bool.
Proof.
  unfold Dict.mem. destruct (String.eqb k' k) eqn:E.
  - apply String.eqb_eq in E. subst. now rewrite get_set_same.
  - apply String.eqb_neq in E. now rewrite get_set_other.
Qed.

Lemma register_volunteer_agent_ids (vol : Volunteer) (v : VolunteerCoordinationAgent)
    (s : string) :
  ids_with_skill (skills_registry (register_volunteer_agent vol v)) s
  = ids_with_skill (skills_registry v) s
    ++ repeat (vol_id vol) (count_occ string_dec (skills vol) s).
Proof. apply register_skills_ids. Qed.

Lemma register_keeps_registry_within_roster (vol : Volunteer)
    (v : VolunteerCoordinationAgent) :
  registry_within_roster v -> registry_within_roster (register_volunteer_agent vol v).
Proof.
  intros H skill id Hin. rewrite register_volunteer_agent_ids in Hin.
  cbn [register_volunteer_agent available_volunteers]. rewrite mem_set.
  apply in_app_or in Hin. destruct Hin as [Hin|Hin].
  - rewrite (H skill id Hin). apply orb_true_r.
  - apply repeat_spec in Hin. subst. now rewrite String.eqb_refl.
Qed.

Lemma register_all_within_roster (vols : list Volunteer) : forall v,
  registry_within_roster v -> registry_within_roster (register_all vols v).
Proof.
  unfold register_all.
  induction vols as [|vol vols IH]; intros v H; cbn [fold_left]; [exact H|].
  apply IH. now apply register_keeps_registry_within_roster.
Qed.

(** [register_volunteer] keeps the skill index within the roster: if
    every id listed under a skill has a roster entry, this is still so
    after any number of registrations, whatever the ids and skills. *)
Theorem registrations_keep_registry_within_roster (vols : list Volunteer)
    (v : VolunteerCoordinationAgent) :
  registry_within_roster v -> registry_within_roster (register_all vols v).
Proof. apply register_all_within_roster. Qed.

Lemma registrations_keep_registry_within_roster_witness :
  registry_within_roster
    (register_all [mkVolunteer "vol_1" "Volunteer 1" ["medical"; "rescue"] "Base Camp" true;
                   mkVolunteer "vol_2" "Volunteer 2" ["rescue"] "Base Camp" true]
                  empty_volunteer_agent).
Proof.
  apply registrations_keep_registry_within_roster.
  intros skill id H. cbn in H. contradiction.
Defined.

(** [register_volunteer] makes the volunteer retrievable: the roster holds
    the record under its id, the id is listed under each declared skill
    (once per mention), the lists of the other skills are as before, and
    ids listed earlier keep their places in front; the roster entries of
    other ids are untouched. *)
Theorem register_volunteer_lookup (vol : Volunteer) (v : VolunteerCoordinationAgent) :
  let v' := register_volunteer_agent vol v in
  Dict.get (available_volunteers v') (vol_id vol) = Some vol
  /\ (forall id, id <> vol_id vol ->
        Dict.get (available_volunteers v') id = Dict.get (available_volunteers v) id)
  /\ (forall s, In s (skills vol) ->
        In (vol_id vol) (ids_with_skill (skills_registry v') s))
  /\ (forall s, ~ In s (skills vol) ->
        ids_with_skill (skills_registry v') s = ids_with_skill (skills_registry v) s)
  /\ (forall s, exists added,
        ids_with_skill (skills_registry v') s
        = ids_with_skill (skills_registry v) s ++ added
        /\ List.length added = count_occ string_dec (skills vol) s
        /\ Forall (eq (vol_id vol)) added).
Proof.
  cbv zeta. split; [apply get_set_same|].
  split; [intros id N; now apply get_set_other|].
  split; [|split].
  - intros s Hs. rewrite register_volunteer_agent_ids. apply in_or_app. right.
    apply (count_occ_In string_dec) in Hs.
    destruct (count_occ string_dec (skills vol) s); [lia|]. now left.
  - intros s Hs. rewrite register_volunteer_agent_ids.
    apply (count_occ_not_In string_dec) in Hs. rewrite Hs. apply app_nil_r.
  - intros s. eexists. split; [apply register_volunteer_agent_ids|].
    split; [apply repeat_length|].
    apply Forall_forall. intros x Hx. apply repeat_spec in Hx. now subst.
Qed.

(** ** What the plan hands out and what it leaves *)

Section AnyShare.
Variable share : Z -> Z -> Z -> option Z.

Lemma share_out_keys (total : Z) (a : AreaDemand) (remaining : dict Z) :
  forall row remaining',
  Scheme.share_out share total a remaining = Some (row, remaining') ->
  Dict.keys remaining' = Dict.keys remaining
  /\ (forall k, In k (Dict.keys row) -> In k (Dict.keys remaining))
  /\ (NoDup (Dict.keys remaining) -> NoDup (Dict.keys row)).
Proof.
  induction remaining as [|[k q] rest IH]; intros row remaining' S.
  - injection S as <- <-. split; [reflexivity|]. split; [intros k []|intros _; constructor].
  - cbn [Scheme.share_out] in S.
    destruct (Scheme.area_share share total a q) as [n|]; cbn [bind] in S; [|discriminate].
    destruct (Scheme.share_out share total a rest) as [[row1 rest1]|] eqn:S1;
      cbn [bind] in S; [|discriminate].
    injection S as <- <-.
    destruct (IH row1 rest1 eq_refl) as (K & I & N).
    split; [change (k :: Dict.keys rest1 = k :: Dict.keys rest); now rewrite K|].
    split.
    + intros k'. destruct (n =? 0); cbn; intros H.
      * right. now apply I.
      * destruct H as [H|H]; [now left|right; now apply I].
    + intros ND. cbn in ND. apply NoDup_cons_iff in ND. destruct ND as [Nk ND].
      destruct (n =? 0); [now apply N|].
      cbn. constructor; [|now apply N]. intros H. apply Nk. now apply I.
Qed.

Lemma single_pass_rows (total : Z) (l : list AreaDemand) :
  forall remaining rows final,
  Scheme.single_pass share total l remaining = Some (rows, final) ->
  map fst rows = map name l
  /\ (Dict.wf remaining -> wf_rows rows).
Proof.
  induction l as [|a l IH]; intros remaining rows final S.
  - injection S as <- <-. split; [reflexivity|intros _; constructor].
  - cbn [Scheme.single_pass] in S.
    destruct (Scheme.share_out share total a remaining) as [[row remaining']|] eqn:S1;
      cbn [bind] in S; [|discriminate].
    destruct (Scheme.single_pass share total l remaining') as [[rows1 final1]|] eqn:S2;
      cbn [bind] in S; [|discriminate].
    injection S as <- <-.
    destruct (share_out_keys total a remaining row remaining' S1) as (K & _ & N).
    destruct (IH remaining' rows1 final1 S2) as (M & W).
    split; [cbn; now rewrite M|].
    intros Hwf. constructor; [exact (N Hwf)|].
    apply W. unfold Dict.wf. now rewrite K.
Qed.
End AnyShare.

Lemma fold_set_fresh {V} (rows : dict V) : forall p : dict V,
  NoDup (Dict.keys p ++ Dict.keys rows) ->
  fold_left (fun p r => Dict.set p (fst r) (snd r)) rows p = p ++ rows.
Proof.
  induction rows as [|[k v] rows IH]; intros p ND; cbn [fold_left fst snd].
  - now rewrite app_nil_r.
  - cbn [Dict.keys map fst] in ND. fold (Dict.keys rows) in ND.
    rewrite set_fresh.
    + rewrite IH; [now rewrite <- app_assoc|].
      unfold Dict.keys in *. rewrite map_app, <- app_assoc. exact ND.
    + apply NoDup_remove_2 in ND. intros H. apply ND, in_or_app. now left.
Qed.

Lemma wf_rows_set (p : plan) (area : string) (row : dict Z) :
  wf_rows p -> Dict.wf row -> wf_rows (Dict.set p area row).
Proof.
  intros P R. induction p as [|[area' row'] p IH]; cbn [Dict.set].
  - constructor; [exact R|constructor].
  - inversion P as [|? ? Prow' Pp]; subst. cbn [snd] in Prow'.
    destruct (String.eqb area area').
    + constructor; [exact R|exact Pp].
    + constructor; [exact Prow'|exact (IH Pp)].
Qed.

Lemma wf_rows_fold (rows : list (string * dict Z)) : forall p : plan,
  wf_rows rows -> wf_rows p ->
  wf_rows (fold_left (fun p r => Dict.set p (fst r) (snd r)) rows p).
Proof.
  induction rows as [|[area row] rows IH]; intros p R P; cbn [fold_left]; [exact P|].
  inversion R as [|? ? Hrow Hrows]; subst.
  apply IH; [exact Hrows|]. now apply wf_rows_set.
Qed.

Lemma rows_total_nonneg (p : list (string * dict Z)) (kind : string) :
  positive_rows p -> 0 <= rows_total p kind.
Proof.
  induction 1 as [|[area row] p Hrow Hp IH]; [cbn; lia|].
  cbn [rows_total fold_right snd]. fold (rows_total p kind).
  pose proof (stock_nonneg_of_positive row kind Hrow). lia.
Qed.

(** The loop of [optimize_resource_allocation] on areas of positive
    priority and a stock below 2^53, with everything that is used about
    its result. *)
Lemma allocation_loop_result (areas : list AreaDemand) (inventory : dict Z) :
  Forall positive_area areas -> stock_ok inventory ->
  exists rows final,
    allocation_loop areas inventory
    = Some (fold_left (fun p r => Dict.set p (fst r) (snd r)) rows [], final)
    /\ map fst rows = map name areas
    /\ wf_rows rows /\ positive_rows rows /\ stock_ok final
    /\ forall kind, stock final kind + rows_total rows kind = stock inventory kind.
Proof.
  intros Hpos Hs.
  destruct (priority_le_total areas Hpos) as [H0 Hle].
  rewrite total_weight_eq in *.
  destruct areas as [|a l].
  { exists [], inventory. split; [reflexivity|]. split; [reflexivity|].
    split; [constructor|]. split; [constructor|]. split; [exact Hs|].
    intros kind. cbn. lia. }
  set (areas := a :: l) in *.
  assert (Ht : 0 < total_priority_weight areas) by (inversion Hle; subst; lia).
  destruct (outer_loop_is_single_pass areas _ eq_refl Ht areas [] inventory Hle Hs)
    as (rows & final & S & F & Hfin).
  destruct (single_pass_conserves _ Ht areas inventory rows final Hle Hs S)
    as (C & P & _).
  destruct (single_pass_rows _ _ areas inventory rows final S) as (M & W).
  exists rows, final. split; [exact F|]. split; [exact M|].
  split; [exact (W (proj1 Hs))|]. split; [exact P|]. split; [exact Hfin|exact C].
Qed.

(** The plan and the remaining inventory account for the stock.  For
    areas with positive severity and population and an inventory of
    distinct kinds with quantities from 0 up to, but not including, 2^53,
    the loop of [optimize_resource_allocation] returns; every quantity in
    the plan is positive; for every kind the quantities of the plan and
    what remains sum to at most the inventory; and when the areas have
    distinct names the plan has one row per area, in the order of the
    areas, and plan and remainder sum to the inventory exactly. *)
Theorem allocation_accounts_for_stock (areas : list AreaDemand) (inventory : dict Z) :
  Forall positive_area areas -> stock_ok inventory ->
  exists p final,
    allocation_loop areas inventory = Some (p, final)
    /\ positive_rows p /\ wf_rows p /\ stock_ok final
    /\ (forall kind,
          0 <= rows_total p kind
          /\ rows_total p kind + stock final kind <= stock inventory kind)
    /\ (NoDup (map name areas) ->
          Dict.keys p = map name areas
          /\ forall kind, rows_total p kind + stock final kind = stock inventory kind).
Proof.
  intros Hpos Hs.
  destruct (allocation_loop_result areas inventory Hpos Hs)
    as (rows & final & F & M & W & P & Hfin & C).
  assert (Pnil : positive_rows []) by constructor.
  eexists _, final. split; [exact F|].
  split; [exact (proj1 (plan_of_rows_total rows "" P [] Pnil))|].
  split; [apply wf_rows_fold; [exact W|constructor]|].
  split; [exact Hfin|]. split.
  - intros kind.
    destruct (plan_of_rows_total rows kind P [] Pnil) as [P' T]. cbv zeta in T.
    change (rows_total [] kind) with 0 in T.
    pose proof (rows_total_nonneg _ kind P'). specialize (C kind). lia.
  - intros ND. rewrite fold_set_fresh by (cbn [Dict.keys map app]; unfold Dict.keys;
                                           now rewrite M).
    cbn [app]. split; [exact M|]. intros kind. specialize (C kind). lia.
Qed.

Lemma allocation_accounts_for_stock_witness :
  exists p final,
    allocation_loop [area_A; area_B] [("food", 1000); ("water", 5000)] = Some (p, final)
    /\ positive_rows p /\ wf_rows p /\ stock_ok final
    /\ (forall kind,
          0 <= rows_total p kind
          /\ rows_total p kind + stock final kind
             <= stock [("food", 1000); ("water", 5000)] kind)
    /\ (NoDup (map name [area_A; area_B]) ->
          Dict.keys p = map name [area_A; area_B]
          /\ forall kind, rows_total p kind + stock final kind
                          = stock [("food", 1000); ("water", 5000)] kind).
Proof.
  apply (allocation_accounts_for_stock [area_A; area_B]).
  - repeat constructor.
  - split.
    + unfold Dict.wf. cbn. repeat constructor; cbn; intuition discriminate.
    + repeat constructor; cbn; lia.
Defined.

(** ** Distribution tasks *)

Lemma tasks_from_app env (l1 l2 : list (string * string * Z)) : forall k,
  tasks_from env k (l1 ++ l2)
  = tasks_from env k l1 ++ tasks_from env (List.length l1 + k) l2.
Proof.
  induction l1 as [|[[area kind] q] l1 IH]; intros k; [reflexivity|].
  cbn [app tasks_from List.length]. rewrite IH. cbn [app].
  now rewrite <- plus_n_Sm.
Qed.

Lemma tasks_total_app (t1 t2 : list Task) (kind : string) :
  tasks_total (t1 ++ t2) kind = tasks_total t1 kind + tasks_total t2 kind.
Proof.
  unfold tasks_total. induction t1 as [|t t1 IH]; cbn [app fold_right]; [lia|].
  rewrite IH. lia.
Qed.

Lemma tasks_from_length env (l : list (string * string * Z)) : forall k,
  List.length (tasks_from env k l) = List.length l.
Proof.
  induction l as [|[[area kind] q] l IH]; intros k; cbn; [reflexivity|].
  now rewrite IH.
Qed.

Lemma tasks_from_fields env (l : list (string * string * Z)) : forall k,
  map (fun t => (location t, resources t)) (tasks_from env k l)
  = map (fun tr => (fst (fst tr), [(snd (fst tr), snd tr)])) l
  /\ Forall is_distribution_task (tasks_from env k l).
Proof.
  induction l as [|[[area kind] q] l IH]; intros k; cbn [tasks_from map].
  - split; [reflexivity|constructor].
  - destruct (IH (S k)) as [M F]. split.
    + cbn. now rewrite M.
    + constructor; [repeat split|exact F].
Qed.

Lemma plan_triples_length (p : plan) :
  List.length (plan_triples p) = plan_entries p.
Proof.
  unfold plan_triples. induction p as [|[area row] p IH]; [reflexivity|].
  cbn [flat_map plan_entries fold_right fst snd].
  rewrite length_app, length_map. fold (plan_entries p). now rewrite IH.
Qed.

Lemma tasks_total_row env (area : string) (row : dict Z) (kind : string) : forall k,
  Dict.wf row ->
  tasks_total (tasks_from env k (map (fun rq => (area, fst rq, snd rq)) row)) kind
  = stock row kind.
Proof.
  induction row as [|[k0 q] row IH]; intros k W; [reflexivity|].
  cbn [map tasks_from fst snd]. unfold tasks_total. cbn [fold_right].
  fold (tasks_total (tasks_from env (S k) (map (fun rq => (area, fst rq, snd rq)) row))
          kind).
  unfold Dict.wf in W. cbn in W. apply NoDup_cons_iff in W. destruct W as [N W].
  rewrite (IH (S k) W). cbn [distribution_task resources].
  rewrite !stock_cons. destruct (String.eqb kind k0) eqn:E.
  - apply String.eqb_eq in E. subst. rewrite stock_fresh by exact N. lia.
  - unfold stock. cbn. lia.
Qed.

Lemma tasks_total_plan env (p : plan) (kind : string) : forall k,
  wf_rows p ->
  tasks_total (tasks_from env k (plan_triples p)) kind = rows_total p kind.
Proof.
  unfold plan_triples. induction p as [|[area row] p IH]; intros k W; [reflexivity|].
  inversion W as [|? ? Hrow Hp]; subst. cbn [snd] in Hrow.
  cbn [flat_map fst snd]. rewrite tasks_from_app, tasks_total_app.
  rewrite tasks_total_row by exact Hrow. rewrite IH by exact Hp.
  reflexivity.
Qed.

(** [generate_distribution_tasks] appends one task per (area, kind) entry
    of the plan, in the order of the plan, behind the tasks already
    pending; each task names its area as location and carries the entry's
    quantity of its kind, with type resource_distribution, the skill
    logistics and priority 3; when no row repeats a kind the tasks
    distribute of every kind exactly what the plan allocates.  One clock
    read is made per task. *)
Theorem generate_distribution_tasks_one_per_entry (env : Env) (p : plan) (w : World) :
  let w' := generate_distribution_tasks env p w in
  exists new,
    pending_tasks (volunteer w') = pending_tasks (volunteer w) ++ new
    /\ List.length new = plan_entries p
    /\ map (fun t => (location t, resources t)) new
       = map (fun tr => (fst (fst tr), [(snd (fst tr), snd tr)])) (plan_triples p)
    /\ Forall is_distribution_task new
    /\ (wf_rows p -> forall kind, tasks_total new kind = rows_total p kind)
    /\ reads w' = (plan_entries p + reads w)%nat.
Proof.
  cbv zeta. destruct (generate_distribution_tasks_pending env p w) as (P & R & _).
  exists (tasks_from env (reads w) (plan_triples p)).
  split; [exact P|]. split; [now rewrite tasks_from_length, plan_triples_length|].
  destruct (tasks_from_fields env (plan_triples p) (reads w)) as [M F].
  split; [exact M|]. split; [exact F|].
  split; [intros W kind; now apply tasks_total_plan|].
  now rewrite R, plan_triples_length.
Qed.

(** ** From a need assessment to the tasks *)

Lemma update_priority_areas_positive (areas : list AreaDemand) :
  Forall positive_area areas -> Forall positive_area (update_priority_areas areas).
Proof.
  intros H. eapply Permutation_Forall; [|exact H].
  apply Permutation_sym, sorted_desc_perm.
Qed.

(** A need assessment handled by the relief coordinator, in a system where
    the volunteer coordinator is subscribed under its name: for areas
    with positive severity and population and a stock of distinct kinds
    below 2^53 the handler returns, the coordinator holds the areas in
    priority order and the plan it sent, and the tasks queued behind the
    pending ones distribute of every kind what the plan allocates, which
    is at most the inventory of that kind. *)
Theorem need_assessment_tasks_within_inventory (env : Env) (fuel : nat) (w : World)
    (m : Message) (areas : list AreaDemand) :
  content m = NeedAssessment areas ->
  Forall positive_area areas ->
  stock_ok (ctx_resources (context w)) ->
  Dict.get (subscribers w) "volunteer_coordinator" = Some VolunteerCoordinator ->
  exists w' new,
    receive_message env (publish_message env (S fuel)) Relief m w = Done w'
    /\ priority_areas (relief w') = update_priority_areas areas
    /\ allocation_plan_of (update_priority_areas areas) (ctx_resources (context w))
       = Some (resource_allocation_plan (relief w'))
    /\ pending_tasks (volunteer w') = pending_tasks (volunteer w) ++ new
    /\ (forall kind,
          tasks_total new kind = rows_total (resource_allocation_plan (relief w')) kind
          /\ 0 <= tasks_total new kind <= stock (ctx_resources (context w)) kind).
Proof.
  intros C Hpos Hs Hsub.
  destruct (allocation_loop_result _ _ (update_priority_areas_positive areas Hpos) Hs)
    as (rows & final & F & _ & W & P & Hfin & Cv).
  set (p := fold_left (fun p r => Dict.set p (fst r) (snd r)) rows []) in *.
  assert (Pnil : positive_rows []) by constructor.
  assert (Wp : wf_rows p) by (apply wf_rows_fold; [exact W|constructor]).
  unfold receive_message, process_message, relief_process_message.
  rewrite C. cbv zeta. unfold optimize_resource_allocation.
  cbn [relief set_relief context record_message priority_areas].
  unfold allocation_plan_of. rewrite F. cbn [bind lift obind].
  unfold send_message. rewrite publish_message_S.
  cbn [msg_to subscribers tick record_message set_relief relief].
  rewrite Hsub.
  unfold receive_message, process_message, volunteer_process_message.
  cbn [content obind].
  match goal with |- context [generate_distribution_tasks env p ?v] =>
    set (w3 := v) end.
  destruct (generate_distribution_tasks_pending env p w3) as (Q & _ & R).
  eexists. exists (tasks_from env (reads w3) (plan_triples p)).
  split; [reflexivity|].
  cbn [log_event relief volunteer]. rewrite R, Q.
  split; [reflexivity|]. split; [reflexivity|]. split; [reflexivity|].
  intros kind. change (resource_allocation_plan (relief w3)) with p.
  rewrite tasks_total_plan by exact Wp.
  split; [reflexivity|].
  destruct (plan_of_rows_total rows kind P [] Pnil) as [P' T]. cbv zeta in T.
  fold p in P', T. change (rows_total [] kind) with 0 in T.
  pose proof (rows_total_nonneg p kind P').
  pose proof (stock_bounded final kind (proj2 Hfin)).
  specialize (Cv kind). lia.
Qed.

Lemma need_assessment_tasks_within_inventory_witness :
  exists w' new,
    receive_message (sample_env 0) (publish_message (sample_env 0) 1) Relief
      (need_assessment [area_B; area_A]) scenario_world = Done w'
    /\ priority_areas (relief w') = update_priority_areas [area_B; area_A]
    /\ allocation_plan_of (update_priority_areas [area_B; area_A])
         (ctx_resources (context scenario_world))
       = Some (resource_allocation_plan (relief w'))
    /\ pending_tasks (volunteer w') = pending_tasks (volunteer scenario_world) ++ new
    /\ (forall kind,
          tasks_total new kind = rows_total (resource_allocation_plan (relief w')) kind
          /\ 0 <= tasks_total new kind
             <= stock (ctx_resources (context scenario_world)) kind).
Proof.
  apply (need_assessment_tasks_within_inventory (sample_env 0) 0 scenario_world
           (need_assessment [area_B; area_A]) [area_B; area_A]).
  - reflexivity.
  - repeat constructor.
  - split.
    + unfold Dict.wf. cbn. repeat constructor; cbn; intuition discriminate.
    + repeat constructor; cbn; lia.
  - reflexivity.
Defined.

(** ** Messages that are only logged *)

Lemma without_logs_record (a : AgentRef) (m : Message) (w : World) :
  without_logs (record_message a m w) = without_logs w.
Proof. destruct a; reflexivity. Qed.

Lemma publish_inert env fuel w m :
  inert (content m) ->
  exists w' e,
    publish_message env (S fuel) w m = Done w'
    /\ without_logs w' = without_logs w
    /\ bus_log w' = bus_log w ++ [e]
    /\ event_message e = m
    /\ reads w' = reads w
    /\ (is_delivery e <-> Dict.mem (subscribers w) (msg_to m) = true).
Proof.
  intros I. rewrite publish_message_S. unfold Dict.mem.
  destruct (Dict.get (subscribers w) (msg_to m)) as [cb|].
  - unfold receive_message, process_message, relief_process_message,
      volunteer_process_message, communication_process_message,
      analytics_process_message.
    destruct cb; destruct (content m); try contradiction; cbn [obind];
      eexists; eexists; (split; [reflexivity|]); repeat split.
  - eexists. eexists. split; [reflexivity|]. repeat split; try contradiction.
    discriminate.
Qed.

Lemma send_inert env fuel self to c w :
  inert c ->
  exists w' e,
    send_message env (publish_message env (S fuel)) self to c w = Done w'
    /\ without_logs w' = without_logs w
    /\ bus_log w' = bus_log w ++ [e]
    /\ event_message e = mkMessage (agent_id w self) to (now_us env (reads w)) c
    /\ reads w' = S (reads w)
    /\ (is_delivery e <-> Dict.mem (subscribers w) to = true).
Proof.
  intros I. unfold send_message.
  match goal with |- context [publish_message _ _ ?v ?msg] =>
    destruct (publish_inert env fuel v msg I) as (w' & e & H & L & B & E & R & D) end.
  exists w', e. split; [exact H|]. rewrite L, B, E, R.
  split; [now rewrite without_logs_record|].
  split; [destruct self; reflexivity|].
  split; [destruct self; reflexivity|].
  split; [destruct self; reflexivity|].
  rewrite D. cbn [msg_to]. destruct self; reflexivity.
Qed.

Lemma agent_id_without_logs (w w' : World) (a : AgentRef) :
  without_logs w' = without_logs w -> agent_id w' a = agent_id w a.
Proof.
  intros H. destruct a.
  - exact (f_equal (fun x => relief_id (relief x)) H).
  - exact (f_equal (fun x => volunteer_agent_id (volunteer x)) H).
  - exact (f_equal (fun x => comm_id (communication x)) H).
  - exact (f_equal (fun x => analytics_id (analytics x)) H).
Qed.

Lemma for_each_send_inert env fuel (f : string -> string) c (l : list string) :
  inert c ->
  forall w, exists w' events,
    for_each_o (fun w t => send_message env (publish_message env (S fuel))
                             Communication (f t) c w) l w = Done w'
    /\ without_logs w' = without_logs w
    /\ bus_log w' = bus_log w ++ events
    /\ recipients events = map f l
    /\ Forall (fun e => content (event_message e) = c
                        /\ msg_from (event_message e) = comm_id (communication w)
                        /\ routed w e)
              events
    /\ reads w' = (List.length l + reads w)%nat.
Proof.
  intros I. induction l as [|t l IH]; intros w; cbn [for_each_o].
  - exists w, []. split; [reflexivity|]. split; [reflexivity|].
    split; [now rewrite app_nil_r|]. split; [reflexivity|]. split; [constructor|reflexivity].
  - destruct (send_inert env fuel Communication (f t) c w I)
      as (w1 & e & H & L & B & E & R & D).
    rewrite H. cbn [obind].
    destruct (IH w1) as (w2 & events & H2 & L2 & B2 & T2 & F2 & R2).
    exists w2, (e :: events). split; [exact H2|].
    split; [congruence|].
    split; [rewrite B2, B, <- app_assoc; reflexivity|].
    split; [cbn [recipients map]; rewrite E; cbn [msg_to]; f_equal; exact T2|].
    split.
    + constructor.
      * rewrite E. split; [reflexivity|]. split; [reflexivity|].
        unfold routed. rewrite E. exact D.
      * pose proof (agent_id_without_logs w w1 Communication L) as Id. cbn in Id.
        pose proof (f_equal subscribers L) as Sb. cbn in Sb.
        unfold routed. rewrite <- Id, <- Sb. exact F2.
    + rewrite R2, R. cbn [List.length]. lia.
Qed.

Lemma broadcast_alert_events env fuel t msg areas actions w :
  exists w' events,
    broadcast_alert env (publish_message env (S fuel)) t msg areas actions w = Done w'
    /\ bus_log w' = bus_log w ++ events
    /\ recipients events
       = map (fun team_id => ("rescue_team_" ++ team_id)%string)
             (Dict.keys (rescue_team_locations (communication w)))
         ++ ["volunteer_coordinator"]
    /\ Forall (fun e =>
                 content (event_message e) = EmergencyAlert t msg areas actions
                 /\ msg_from (event_message e) = comm_id (communication w)
                 /\ routed w e) events
    /\ without_logs w' = without_logs w.
Proof.
  unfold broadcast_alert.
  destruct (for_each_send_inert env fuel
              (fun team_id => ("rescue_team_" ++ team_id)%string)
              (EmergencyAlert t msg areas actions)
              (Dict.keys (rescue_team_locations (communication w))) I w)
    as (w1 & events & H1 & L1 & B1 & T1 & F1 & _).
  rewrite H1. cbn [obind].
  destruct (send_inert env fuel Communication "volunteer_coordinator"
              (EmergencyAlert t msg areas actions) w1 I)
    as (w2 & e & H2 & L2 & B2 & E2 & _ & D2).
  exists w2, (events ++ [e]). split; [exact H2|].
  split; [rewrite B2, B1, <- app_assoc; reflexivity|].
  split; [unfold recipients in *; rewrite map_app, T1; cbn [map]; now rewrite E2|].
  split; [|congruence].
  apply Forall_app. split; [exact F1|].
  constructor; [|constructor]. rewrite E2. split; [reflexivity|].
  split; [exact (agent_id_without_logs w w1 Communication L1)|].
  unfold routed. rewrite E2. cbn [msg_to].
  pose proof (f_equal subscribers L1) as Sb. cbn in Sb. rewrite <- Sb. exact D2.
Qed.

Lemma broadcast_alert_result env fuel t msg areas actions w :
  exists w',
    broadcast_alert env (publish_message env (S fuel)) t msg areas actions w = Done w'
    /\ without_logs w' = without_logs w.
Proof.
  destruct (broadcast_alert_events env fuel t msg areas actions w)
    as (w' & events & H & _ & _ & _ & L).
  exists w'. split; assumption.
Qed.

(** [broadcast_alert] addresses one emergency alert to every rescue team
    whose location is held, in the order the teams were first reported,
    and then one to the volunteer coordinator; each is handed to the bus
    with the communication agent as sender and the alert's type, text,
    areas and actions, and is delivered exactly when its addressee is
    subscribed.  No agent reacts to an emergency alert: whoever receives
    it, the call returns and changes nothing but the logs. *)
Theorem broadcast_alert_reaches_every_team (env : Env) (fuel : nat)
    (alert_type message : string) (areas actions : list string) (w : World) :
  exists w' events,
    broadcast_alert env (publish_message env (S fuel)) alert_type message areas
      actions w = Done w'
    /\ bus_log w' = bus_log w ++ events
    /\ recipients events
       = map (fun team_id => ("rescue_team_" ++ team_id)%string)
             (Dict.keys (rescue_team_locations (communication w)))
         ++ ["volunteer_coordinator"]
    /\ Forall (fun e =>
                 content (event_message e)
                 = EmergencyAlert alert_type message areas actions
                 /\ msg_from (event_message e) = comm_id (communication w)
                 /\ routed w e) events
    /\ without_logs w' = without_logs w.
Proof. apply broadcast_alert_events. Qed.

Lemma publish_alert_logs_only env fuel w m t msg areas actions :
  content m = Alert t msg areas actions ->
  exists w', publish_message env (S (S fuel)) w m = Done w'
             /\ without_logs w' = without_logs w.
Proof.
  intros C. rewrite publish_message_S.
  destruct (Dict.get (subscribers w) (msg_to m)) as [cb|].
  - unfold receive_message, process_message, relief_process_message,
      volunteer_process_message, communication_process_message,
      analytics_process_message.
    rewrite C.
    destruct cb; cbn [obind];
      try (eexists; split; [reflexivity|]; apply (without_logs_record _ m w)).
    destruct (broadcast_alert_result env fuel t msg areas actions
                (record_message Communication m w)) as (w1 & H1 & L1).
    rewrite H1. cbn [obind]. eexists. split; [reflexivity|].
    change (without_logs w1 = without_logs w).
    now rewrite L1, without_logs_record.
  - eexists. split; reflexivity.
Qed.

(** ** New data *)

Lemma samples_of_with_sample env (source : string) (data : dict Z) (w : World) :
  samples_of (with_sample env source data w) source
  = samples_of (analytics w) source ++ [mkSample (now_us env (reads w)) data]
  /\ forall s, s <> source ->
       Dict.get (data_sources (with_sample env source data w)) s
       = Dict.get (data_sources (analytics w)) s.
Proof.
  unfold samples_of, with_sample, Dict.mem. cbn [data_sources].
  destruct (Dict.get (data_sources (analytics w)) source) as [l|] eqn:G.
  - rewrite G. cbn [default]. split; [now rewrite get_set_same|].
    intros s N. now rewrite get_set_other.
  - rewrite get_set_same. cbn [default]. split; [now rewrite get_set_same|].
    intros s N. now rewrite !get_set_other.
Qed.

Lemma generate_prediction_stores env source w p w' :
  generate_prediction env source w = Done (p, w') ->
  let a := analytics w in
  w' = set_analytics (tick w)
         (mkAnalytics (analytics_id a) (analytics_messages a) (data_sources a)
            (Dict.set (predictions a) (pred_id p) p))
  /\ pred_id p = ("pred_" ++ str_of_int (time_s env (reads w)))%string.
Proof.
  unfold generate_prediction. intros H. obind_inv H. injection H as <- <-.
  split; [reflexivity|].
  destruct (String.eqb source "weather").
  - repeat match type of E with
           | obind (lift ?x) _ = Done _ => destruct x; cbn [lift obind] in E;
                                           [|discriminate E]
           end.
    now injection E as <-.
  - now injection E as <-.
Qed.

(** [process_new_data] keeps every sample: whenever it returns, the
    sample, stamped with the time of arrival, is the last of its source's
    list, behind the samples held before, and the lists of the other
    sources are untouched; when the source is not the weather, or the wind
    speed is not above 50, nothing else happens: no prediction is stored
    and nothing is handed to the bus. *)
Theorem process_new_data_appends_sample (env : Env) (fuel : nat) (source : string)
    (data : dict Z) (w w' : World) :
  process_new_data env (publish_message env (S (S fuel))) source data w = Done w' ->
  samples_of (analytics w') source
  = samples_of (analytics w) source ++ [mkSample (now_us env (reads w)) data]
  /\ (forall s, s <> source ->
        Dict.get (data_sources (analytics w')) s
        = Dict.get (data_sources (analytics w)) s)
  /\ (source <> "weather" \/ field data "wind_speed" <= 50 ->
        predictions (analytics w') = predictions (analytics w)
        /\ bus_log w' = bus_log w).
Proof.
  rewrite process_new_data_unfold. cbv zeta.
  set (w1 := set_analytics (tick w) (with_sample env source data w)).
  destruct (samples_of_with_sample env source data w) as [S1 S2].
  intros H.
  assert (D : data_sources (analytics w') = data_sources (with_sample env source data w)
              /\ (detect_significant_change source data = false -> w' = w1)).
  { destruct (detect_significant_change source data).
    - obind_inv H. destruct a as [p w2].
      apply generate_prediction_stores in E. destruct E as [E _]. cbv zeta in E.
      split; [|discriminate].
      destruct (7 <=? risk_level p).
      + unfold send_alert, send_message in H.
        match type of H with publish_message _ _ ?v ?msg = _ =>
          destruct (publish_alert_logs_only env fuel v msg _ _ _ _ eq_refl)
            as (w3 & H3 & L3) end.
        rewrite H3 in H. injection H as <-.
        apply (f_equal (fun x => data_sources (analytics x))) in L3.
        cbn [without_logs analytics data_sources] in L3. rewrite L3.
        rewrite E. reflexivity.
      + injection H as <-. rewrite E. reflexivity.
    - injection H as <-. split; reflexivity. }
  destruct D as [D Q].
  split; [unfold samples_of in *; rewrite D; exact S1|].
  split; [intros s N; rewrite D; now apply S2|].
  intros Hq. rewrite Q; [split; reflexivity|].
  unfold detect_significant_change. destruct Hq as [Hq|Hq].
  - apply String.eqb_neq in Hq. now rewrite Hq.
  - apply Z.ltb_ge in Hq. rewrite Hq. apply andb_false_r.
Qed.

Lemma process_new_data_appends_sample_witness :
  let data := [("wind_speed", 80); ("rainfall", 5)] in
  let w' := result_of (process_new_data (sample_env 0) (publish_message (sample_env 0) 2)
                         "weather" data initial_world) initial_world in
  samples_of (analytics w') "weather"
  = samples_of (analytics initial_world) "weather"
    ++ [mkSample (now_us (sample_env 0) (reads initial_world)) data]
  /\ (forall s, s <> "weather"%string ->
        Dict.get (data_sources (analytics w')) s
        = Dict.get (data_sources (analytics initial_world)) s)
  /\ ("weather"%string <> "weather"%string \/ field data "wind_speed" <= 50 ->
        predictions (analytics w') = predictions (analytics initial_world)
        /\ bus_log w' = bus_log initial_world).
Proof.
  intros data w'.
  apply (process_new_data_appends_sample (sample_env 0) 0 "weather" data initial_world w').
  vm_compute. reflexivity.
Defined.

(** ** Assessed areas *)

Lemma append_inj_l (s a b : string) : (s ++ a)%string = (s ++ b)%string -> a = b.
Proof. induction s as [|c s IH]; cbn; intros H; [exact H|]. injection H as H. auto. Qed.

Lemma randint_range env k lo hi : lo <= hi -> lo <= randint env k lo hi <= hi.
Proof.
  intros H. unfold randint.
  pose proof (Z.mod_pos_bound (rand env k) (hi - lo + 1)). lia.
Qed.

Lemma assessed_area_in_range env loc k i : assessed_in_range (assessed_area env loc k i).
Proof.
  unfold assessed_in_range, assessed_area. cbn [severity population needs].
  pose proof (randint_range env k 1 10). pose proof (randint_range env (S k) 100 10000).
  repeat split; lia.
Qed.

Lemma assessed_in_range_positive (a : AreaDemand) :
  assessed_in_range a -> positive_area a.
Proof. intros (S & P & _). split; lia. Qed.

(** [assess_affected_areas] reports three areas, named after the location
    with the suffixes _Area_1, _Area_2 and _Area_3 and so distinct, each
    with a severity from 1 to 10, a population from 100 to 10000 and the
    needs food, water and medical supplies, whatever the random source
    draws; it makes six draws and changes nothing else. *)
Theorem assess_affected_areas_in_range (env : Env) (loc : string) (w : World) :
  let areas := fst (assess_affected_areas env loc w) in
  let w' := snd (assess_affected_areas env loc w) in
  map name areas
  = [(loc ++ "_Area_1")%string; (loc ++ "_Area_2")%string; (loc ++ "_Area_3")%string]
  /\ NoDup (map name areas)
  /\ Forall assessed_in_range areas
  /\ Forall (fun a => 100 <= priority a <= 100000) areas
  /\ reads w' = (6 + reads w)%nat
  /\ without_logs w' = without_logs w.
Proof.
  cbn [assess_affected_areas fst snd map name assessed_area].
  split; [reflexivity|]. split.
  - repeat constructor; cbn [In]; intros H;
      repeat match type of H with
             | _ \/ _ => destruct H as [H|H]
             | (loc ++ _)%string = (loc ++ _)%string =>
                 apply append_inj_l in H; discriminate H
             | False => contradiction
             end.
  - split; [repeat constructor; apply assessed_area_in_range|].
    split; [|split; reflexivity].
    assert (R : forall k i, 100 <= priority (assessed_area env loc k i) <= 100000).
    { intros k i. unfold priority, assessed_area. cbn [severity population].
      pose proof (randint_range env k 1 10).
      pose proof (randint_range env (S k) 100 10000). nia. }
    apply Forall_cons; [apply R|]. apply Forall_cons; [apply R|].
    apply Forall_cons; [apply R|]. apply Forall_nil.
Qed.

(** ** Predictions *)

Lemma keys_set_held {V} (d : dict V) (k : string) (v v' : V) :
  Dict.get d k = Some v' -> Dict.keys (Dict.set d k v) = Dict.keys d.
Proof.
  induction d as [|[k0 v0] d IH]; cbn; intros H; [discriminate|].
  destruct (String.eqb k k0); [reflexivity|]. cbn. f_equal. now apply IH.
Qed.

(** [generate_prediction] files the prediction under pred_ followed by the
    clock's second.  A prediction made in a second for which one is
    already stored takes its place: the stored predictions are as many as
    before, under the same ids, and the earlier one is gone. *)
Theorem generate_prediction_overwrites_within_second (env : Env) (source : string)
    (w w' : World) (p earlier : Prediction) :
  generate_prediction env source w = Done (p, w') ->
  Dict.get (predictions (analytics w))
    ("pred_" ++ str_of_int (time_s env (reads w)))%string = Some earlier ->
  pred_id p = ("pred_" ++ str_of_int (time_s env (reads w)))%string
  /\ Dict.get (predictions (analytics w')) (pred_id p) = Some p
  /\ Dict.keys (predictions (analytics w')) = Dict.keys (predictions (analytics w))
  /\ forall id, id <> pred_id p ->
       Dict.get (predictions (analytics w')) id = Dict.get (predictions (analytics w)) id.
Proof.
  intros H G. apply generate_prediction_stores in H. destruct H as [-> Id].
  cbn [analytics set_analytics predictions]. split; [exact Id|].
  split; [apply get_set_same|].
  split; [rewrite Id; now apply (keys_set_held _ _ _ earlier)|].
  intros id N. now apply get_set_other.
Qed.

Lemma generate_prediction_overwrites_within_second_witness :
  exists p1 w1 p2 w2,
    generate_prediction (sample_env 0) "all" initial_world = Done (p1, w1)
    /\ generate_prediction (sample_env 0) "weather" w1 = Done (p2, w2)
    /\ p1 <> p2
    /\ pred_id p2 = "pred_0"%string
    /\ Dict.get (predictions (analytics w2)) (pred_id p2) = Some p2
    /\ Dict.keys (predictions (analytics w2)) = Dict.keys (predictions (analytics w1)).
Proof.
  eexists. eexists. eexists. eexists.
  split; [vm_compute; reflexivity|].
  split; [vm_compute; reflexivity|].
  split; [discriminate|].
  match goal with |- pred_id ?p2 = _ /\ Dict.get (predictions (analytics ?w2)) _ = _ /\ _ =>
    match goal with |- context [Dict.keys (predictions (analytics ?w1))] =>
      lazymatch w1 with
      | w2 => fail
      | _ =>
        destruct (generate_prediction_overwrites_within_second (sample_env 0) "weather"
                    w1 w2 p2
                    (mkPrediction "pred_0" "general" 8 [] []))
          as (A & B & C & _)
      end
    end
  end.
  - vm_compute. reflexivity.
  - vm_compute. reflexivity.
  - split; [exact A|]. split; [exact B|exact C].
Defined.

(** A weather prediction made when no weather sample is held does not
    fail on the empty window: the averages are taken over a count of at
    least one, and the risk level is 0. *)
Theorem generate_prediction_without_samples (env : Env) (w : World) :
  samples_of (analytics w) "weather" = [] ->
  exists p w',
    generate_prediction env "weather" w = Done (p, w')
    /\ risk_level p = 0
    /\ pred_type p = "weather_impact"%string
    /\ Dict.get (predictions (analytics w')) (pred_id p) = Some p.
Proof.
  intros H.
  assert (R : get_recent_data (analytics w) "weather" 5 = []).
  { unfold get_recent_data. unfold samples_of in H.
    destruct (Dict.get (data_sources (analytics w)) "weather") as [[|s l]|];
      [reflexivity|discriminate H|reflexivity]. }
  unfold generate_prediction.
  change (String.eqb "weather" "weather") with true. cbv iota. rewrite R.
  cbn [average map fold_left List.length]. cbn [lift obind].
  eexists. eexists. split; [reflexivity|].
  split; [vm_compute; reflexivity|]. split; [reflexivity|].
  cbn [analytics set_analytics predictions pred_id]. apply get_set_same.
Qed.

Lemma generate_prediction_without_samples_witness :
  exists p w',
    generate_prediction (sample_env 0) "weather" initial_world = Done (p, w')
    /\ risk_level p = 0
    /\ pred_type p = "weather_impact"%string
    /\ Dict.get (predictions (analytics w')) (pred_id p) = Some p.
Proof. apply generate_prediction_without_samples. reflexivity. Defined.

(** ** Resource levels *)

Lemma get_fresh {V} (d : dict V) (k : string) :
  ~ In k (Dict.keys d) -> Dict.get d k = None.
Proof.
  induction d as [|[k0 v0] d IH]; cbn; intros N; [reflexivity|].
  destruct (String.eqb k k0) eqn:E.
  - apply String.eqb_eq in E. subst. exfalso. apply N. now left.
  - apply IH. intros H. apply N. now right.
Qed.

Lemma get_update {V} (other : dict V) : forall (d : dict V) (k : string),
  Dict.wf other ->
  Dict.get (Dict.update d other) k
  = match Dict.get other k with Some v => Some v | None => Dict.get d k end.
Proof.
  unfold Dict.update, Dict.wf.
  induction other as [|[k0 v0] other IH]; intros d k W; [reflexivity|].
  cbn [fold_left fst snd Dict.get]. cbn in W. apply NoDup_cons_iff in W.
  destruct W as [N W]. rewrite IH by exact W.
  destruct (String.eqb k k0) eqn:E.
  - apply String.eqb_eq in E. subst.
    rewrite get_fresh by exact N. apply get_set_same.
  - apply String.eqb_neq in E. destruct (Dict.get other k); [reflexivity|].
    now apply get_set_other.
Qed.

Lemma keys_set {V} (d : dict V) (k : string) (v : V) :
  Dict.keys (Dict.set d k v)
  = Dict.keys d ++ (if Dict.mem d k then [] else [k]).
Proof.
  unfold Dict.mem, Dict.keys.
  induction d as [|[k0 v0] d IH]; cbn [Dict.set Dict.get map fst app]; [reflexivity|].
  destruct (String.eqb k k0); cbn [map fst app]; [now rewrite app_nil_r|].
  now rewrite IH.
Qed.

Lemma wf_set {V} (d : dict V) (k : string) (v : V) :
  Dict.wf d -> Dict.wf (Dict.set d k v).
Proof.
  unfold Dict.wf. rewrite keys_set. unfold Dict.mem.
  destruct (Dict.get d k) eqn:G; [now rewrite app_nil_r|].
  intros W. apply NoDup_app; [exact W|repeat constructor; intros []|].
  intros x Hx [E|[]]. subst x.
  assert (Dict.get d k <> None); [|contradiction].
  clear - Hx. induction d as [|[k0 v0] d IH]; [contradiction|].
  cbn in *. destruct (String.eqb k k0) eqn:E; [discriminate|].
  destruct Hx as [->|Hx]; [now rewrite String.eqb_refl in E|now apply IH].
Qed.

Lemma wf_update {V} (other d : dict V) : Dict.wf d -> Dict.wf (Dict.update d other).
Proof.
  unfold Dict.update. revert d.
  induction other as [|[k0 v0] other IH]; intros d W; [exact W|].
  cbn [fold_left]. apply IH. now apply wf_set.
Qed.

(** [update_resources] sets levels, it does not add to them: a kind named
    in the update gets the level given there, whatever level was held;
    the other kinds keep theirs; an inventory that holds each kind once
    still does; the agents, the registry of the bus and the logs are left
    alone. *)
Theorem update_resources_overrides (rs : dict Z) (w : World) :
  Dict.wf rs ->
  let w' := update_resources rs w in
  (forall kind,
      Dict.get (ctx_resources (context w')) kind
      = match Dict.get rs kind with
        | Some level => Some level
        | None => Dict.get (ctx_resources (context w)) kind
        end)
  /\ (Dict.wf (ctx_resources (context w)) -> Dict.wf (ctx_resources (context w')))
  /\ set_context w' (context w) = set_context w (context w).
Proof.
  intros W. cbv zeta. unfold update_resources.
  cbn [context set_context ctx_resources].
  split; [intros kind; now apply get_update|].
  split; [apply wf_update|reflexivity].
Qed.

Lemma update_resources_overrides_witness :
  let w' := update_resources [("food", 10); ("tents", 4)] scenario_world in
  (forall kind,
      Dict.get (ctx_resources (context w')) kind
      = match Dict.get [("food", 10); ("tents", 4)] kind with
        | Some level => Some level
        | None => Dict.get (ctx_resources (context scenario_world)) kind
        end)
  /\ (Dict.wf (ctx_resources (context scenario_world)) ->
      Dict.wf (ctx_resources (context w')))
  /\ set_context w' (context scenario_world)
     = set_context scenario_world (context scenario_world).
Proof.
  apply (update_resources_overrides [("food", 10); ("tents", 4)] scenario_world).
  unfold Dict.wf. cbn. repeat constructor; cbn; intuition discriminate.
Defined.

(** ** The depth of a cascade *)

Section DeeperPublish.
Variable env : Env.
Variables shallow deep : World -> Message -> Outcome World.
Hypothesis deep_agrees :
  forall w m, shallow w m <> OutOfFuel -> deep w m = shallow w m.

Lemma obind_returns {A B} (x : Outcome A) (f : A -> Outcome B) :
  obind x f <> OutOfFuel -> x <> OutOfFuel.
Proof. destruct x; cbn; congruence. Qed.

Lemma send_message_deeper self to c w :
  send_message env shallow self to c w <> OutOfFuel ->
  send_message env deep self to c w = send_message env shallow self to c w.
Proof. unfold send_message. apply deep_agrees. Qed.

Lemma for_each_send_deeper (f : string -> string) c l : forall w,
  for_each_o (fun w t => send_message env shallow Communication (f t) c w) l w
    <> OutOfFuel ->
  for_each_o (fun w t => send_message env deep Communication (f t) c w) l w
  = for_each_o (fun w t => send_message env shallow Communication (f t) c w) l w.
Proof.
  induction l as [|t l IH]; intros w H; cbn [for_each_o] in *; [reflexivity|].
  rewrite send_message_deeper by (now apply obind_returns in H).
  destruct (send_message env shallow Communication (f t) c w); cbn [obind] in *;
    [now apply IH|reflexivity|reflexivity].
Qed.

Lemma receive_message_deeper a m w :
  receive_message env shallow a m w <> OutOfFuel ->
  receive_message env deep a m w = receive_message env shallow a m w.
Proof.
  unfold receive_message, process_message.
  generalize (record_message a m w). clear w. intros w.
  destruct a.
  - unfold relief_process_message. destruct (content m); try reflexivity.
    unfold optimize_resource_allocation.
    destruct (lift (allocation_plan_of _ _)); cbn [obind]; try reflexivity.
    apply send_message_deeper.
  - reflexivity.
  - unfold communication_process_message. destruct (content m); try reflexivity.
    unfold broadcast_alert. intros H.
    rewrite for_each_send_deeper by (now apply obind_returns in H).
    destruct (for_each_o _ _ _); cbn [obind] in *; try reflexivity.
    now apply send_message_deeper.
  - unfold analytics_process_message. destruct (content m); try reflexivity.
    + unfold process_new_data.
      destruct (detect_significant_change source data); [|reflexivity].
      destruct (generate_prediction env source _) as [[p w1]| |]; cbn [obind];
        try reflexivity.
      destruct (7 <=? risk_level p); [|reflexivity].
      apply send_message_deeper.
    + destruct (assess_affected_areas env loc w) as [areas w1].
      apply send_message_deeper.
Qed.
End DeeperPublish.

Lemma publish_message_deeper env : forall fuel w m,
  publish_message env fuel w m <> OutOfFuel ->
  publish_message env (S fuel) w m = publish_message env fuel w m.
Proof.
  induction fuel as [|fuel IH]; intros w m H; [now elim H|].
  rewrite (publish_message_S env (S fuel)). rewrite publish_message_S in H |- *.
  destruct (Dict.get (subscribers w) (msg_to m)) as [cb|]; [|reflexivity].
  rewrite (receive_message_deeper env (publish_message env fuel)
             (publish_message env (S fuel)) IH)
    by (now apply obind_returns in H).
  reflexivity.
Qed.

(** Cascades end.  Whatever the subscriptions and whatever the message, a
    delivery sets off at most two further levels of deliveries: a call
    depth of three is never exceeded, and any larger bound gives the very
    same outcome. *)
Theorem publish_message_depth_three (env : Env) (fuel : nat) (w : World) (m : Message) :
  (3 <= fuel)%nat ->
  publish_message env fuel w m <> OutOfFuel
  /\ publish_message env fuel w m = publish_message env 3 w m.
Proof.
  intros H. split; [now apply publish_message_returns|].
  induction H as [|fuel H IH]; [reflexivity|].
  rewrite publish_message_deeper; [exact IH|].
  now apply publish_message_returns.
Qed.

Lemma publish_message_depth_three_witness :
  publish_message (sample_env 0) 5 scenario_world
    (mkMessage "relief_coordinator" "analytics" 0
       (RequestAreaAssessment "earthquake" "Los Angeles")) <> OutOfFuel
  /\ publish_message (sample_env 0) 5 scenario_world
       (mkMessage "relief_coordinator" "analytics" 0
          (RequestAreaAssessment "earthquake" "Los Angeles"))
     = publish_message (sample_env 0) 3 scenario_world
         (mkMessage "relief_coordinator" "analytics" 0
            (RequestAreaAssessment "earthquake" "Los Angeles")).
Proof. apply publish_message_depth_three. lia. Defined.

(** ** Sampling without replacement *)

Lemma distinct_NoDup (l : list string) : distinct l = true -> NoDup l.
Proof.
  induction l as [|x l IH]; cbn; intros H; [constructor|].
  apply andb_true_iff in H. destruct H as [N D].
  constructor; [|now apply IH].
  intros Hin. apply negb_true_iff in N.
  assert (existsb (String.eqb x) l = true); [|congruence].
  apply existsb_exists. exists x. split; [exact Hin|apply String.eqb_refl].
Qed.

Lemma list_set_length (l : list string) : forall j v,
  List.length (list_set l j v) = List.length l.
Proof.
  induction l as [|x l IH]; intros [|j] v; cbn; try reflexivity. now rewrite IH.
Qed.

Lemma list_set_app_l (l1 l2 : list string) : forall j v,
  (j < List.length l1)%nat -> list_set (l1 ++ l2) j v = list_set l1 j v ++ l2.
Proof.
  induction l1 as [|x l1 IH]; intros [|j] v H; cbn in *; try lia; [reflexivity|].
  rewrite IH by lia. reflexivity.
Qed.

Lemma list_set_app_r (l1 : list string) (x v : string) :
  list_set (l1 ++ [x]) (List.length l1) v = l1 ++ [v].
Proof. induction l1 as [|y l1 IH]; cbn; [reflexivity|]. now rewrite IH. Qed.

Lemma list_set_perm (l : list string) : forall j v,
  (j < List.length l)%nat -> Permutation (nth j l "" :: list_set l j v) (v :: l).
Proof.
  induction l as [|x l IH]; intros [|j] v H; cbn in *; try lia.
  - apply perm_swap.
  - eapply perm_trans; [apply perm_swap|].
    eapply perm_trans; [apply perm_skip, IH; lia|]. apply perm_swap.
Qed.

Lemma refill_perm (pool : list string) (j : nat) :
  (j < List.length pool)%nat ->
  Permutation (nth j pool "" :: refill pool j) pool.
Proof.
  intros H. unfold refill.
  assert (N : pool <> []) by (destruct pool; [cbn in H; lia|discriminate]).
  destruct (exists_last N) as (init & lst & ->).
  rewrite last_last. rewrite length_app in H. cbn in H.
  destruct (Nat.eq_dec j (List.length init)) as [->|Nj].
  - rewrite list_set_app_r, removelast_last, nth_middle.
    apply Permutation_cons_append.
  - rewrite list_set_app_l by lia. rewrite removelast_last.
    rewrite app_nth1 by lia.
    eapply perm_trans; [apply list_set_perm; lia|]. apply Permutation_cons_append.
Qed.

Lemma draws_perm env (count : nat) : forall (k : nat) (pool : list string),
  (count <= List.length pool)%nat ->
  List.length (draws env k pool count) = count
  /\ exists rest, Permutation (draws env k pool count ++ rest) pool.
Proof.
  induction count as [|count IH]; intros k pool H; cbn [draws].
  - split; [reflexivity|]. exists pool. apply Permutation_refl.
  - set (j := Z.to_nat (rand env k mod Z.of_nat (List.length pool))).
    assert (Hj : (j < List.length pool)%nat).
    { unfold j. pose proof (Z.mod_pos_bound (rand env k) (Z.of_nat (List.length pool))).
      lia. }
    pose proof (refill_perm pool j Hj) as P.
    assert (L : List.length (refill pool j) = (List.length pool - 1)%nat).
    { apply Permutation_length in P. cbn in P. lia. }
    destruct (IH (S k) (refill pool j)) as (Len & rest & Q); [lia|].
    split; [cbn; now rewrite Len|].
    exists rest. cbn [app]. eapply perm_trans; [apply perm_skip, Q|exact P].
Qed.

(** [random.sample] of a population without repetitions: as many items as
    asked for, all from the population, none twice; an error only when
    more are asked for than there are. *)
Lemma sample_spec env (k : nat) (population : list string) (count : nat) :
  NoDup population -> (count <= List.length population)%nat ->
  exists l, sample env k population count = Some l
            /\ List.length l = count /\ NoDup l /\ incl l population.
Proof.
  intros ND H. unfold sample.
  assert (E : (List.length population <? count)%nat = false) by (apply Nat.ltb_ge; lia).
  rewrite E. eexists. split; [reflexivity|].
  destruct (draws_perm env count k population H) as (Len & rest & P).
  split; [exact Len|].
  assert (ND' : NoDup (draws env k population count ++ rest))
    by (eapply Permutation_NoDup; [apply Permutation_sym; exact P|exact ND]).
  split; [now apply NoDup_app_remove_r in ND'|].
  intros x Hx. eapply Permutation_in; [exact P|]. apply in_or_app. now left.
Qed.

(** ** VolunteerCoordinationAgent.run *)

Lemma demo_volunteer_spec env (k : nat) (i : Z) :
  exists vol k',
    demo_volunteer env k i = Some (vol, k')
    /\ vol_id vol = ("vol_" ++ str_of_int i)%string
    /\ vol_name vol = ("Volunteer " ++ str_of_int i)%string
    /\ demo_volunteer_ok vol.
Proof.
  unfold demo_volunteer.
  pose proof (randint_range env k 1 3 ltac:(lia)) as R.
  set (count := Z.to_nat (randint env k 1 3)).
  destruct (sample_spec env (S k) skill_pool count) as (l & S & Len & ND & I).
  - apply distinct_NoDup. reflexivity.
  - cbn. unfold count. lia.
  - rewrite S. cbn [bind]. eexists. eexists. split; [reflexivity|].
    split; [reflexivity|]. split; [reflexivity|].
    unfold demo_volunteer_ok. cbn [skills vol_location available].
    rewrite Len. unfold count. repeat split; try assumption; lia.
Qed.

Lemma demo_volunteers_spec env (indices : list Z) : forall k,
  exists vols k',
    demo_volunteers env indices k = Some (vols, k')
    /\ map vol_id vols = map (fun i => ("vol_" ++ str_of_int i)%string) indices
    /\ map vol_name vols = map (fun i => ("Volunteer " ++ str_of_int i)%string) indices
    /\ Forall demo_volunteer_ok vols.
Proof.
  induction indices as [|i indices IH]; intros k; cbn [demo_volunteers].
  - exists [], k. repeat split. constructor.
  - destruct (demo_volunteer_spec env k i) as (vol & k1 & D & Id & Nm & Ok).
    rewrite D. cbn [bind].
    destruct (IH k1) as (vols & k2 & Ds & Ids & Nms & Oks).
    rewrite Ds. cbn [bind].
    exists (vol :: vols), k2. split; [reflexivity|].
    cbn [map]. rewrite Id, Ids, Nm, Nms.
    split; [reflexivity|]. split; [reflexivity|]. now constructor.
Qed.

Lemma register_volunteers_world (vols : list Volunteer) : forall w,
  fold_left (fun w vol => register_volunteer vol w) vols w
  = set_volunteer w (register_all vols (volunteer w)).
Proof.
  unfold register_all.
  induction vols as [|vol vols IH]; intros w; cbn [fold_left].
  - now destruct w.
  - rewrite IH. reflexivity.
Qed.

Lemma register_all_roster (vols : list Volunteer) : forall v,
  NoDup (Dict.keys (available_volunteers v) ++ map vol_id vols) ->
  available_volunteers (register_all vols v)
  = available_volunteers v ++ map (fun vol => (vol_id vol, vol)) vols.
Proof.
  unfold register_all.
  induction vols as [|vol vols IH]; intros v ND; cbn [fold_left map].
  - now rewrite app_nil_r.
  - cbn [map] in ND. rewrite IH.
    + cbn [register_volunteer_agent available_volunteers].
      rewrite set_fresh; [now rewrite <- app_assoc|].
      apply NoDup_remove_2 in ND. intros H. apply ND, in_or_app. now left.
    + cbn [register_volunteer_agent available_volunteers].
      rewrite keys_set.
      assert (M : Dict.mem (available_volunteers v) (vol_id vol) = false).
      { apply NoDup_remove_2 in ND. unfold Dict.mem.
        rewrite get_fresh; [reflexivity|].
        intros H. apply ND, in_or_app. now left. }
      rewrite M, <- app_assoc. exact ND.
Qed.

Lemma register_all_pending (vols : list Volunteer) : forall v,
  pending_tasks (register_all vols v) = pending_tasks v
  /\ volunteer_agent_id (register_all vols v) = volunteer_agent_id v.
Proof.
  unfold register_all.
  induction vols as [|vol vols IH]; intros v; cbn [fold_left]; [split; reflexivity|].
  destruct (IH (register_volunteer_agent vol v)) as [P I]. now rewrite P, I.
Qed.

(** [VolunteerCoordinationAgent.run] registers twenty volunteers, vol_1
    to vol_20, each with one to three skills out of the five, no skill
    twice, based at Base Camp and available, whatever the random source
    draws; it then reports the size of the roster to the communication
    agent in one volunteer_status message and returns.  On an empty
    roster the report says 20. *)
Theorem volunteer_run_registers_twenty (env : Env) (fuel : nat) (w : World) :
  exists w' demo,
    volunteer_run env (S fuel) w = Done w'
    /\ map vol_id demo = map (fun i => ("vol_" ++ str_of_int i)%string) (py_range 1 21)
    /\ Forall demo_volunteer_ok demo
    /\ available_volunteers (volunteer w')
       = available_volunteers (register_all demo (volunteer w))
    /\ skills_registry (volunteer w')
       = skills_registry (register_all demo (volunteer w))
    /\ pending_tasks (volunteer w') = pending_tasks (volunteer w)
    /\ (exists e,
          bus_log w' = bus_log w ++ [e]
          /\ msg_to (event_message e) = "communication"%string
          /\ content (event_message e)
             = VolunteerStatus
                 (Z.of_nat (List.length (available_volunteers (volunteer w')))))
    /\ (available_volunteers (volunteer w) = [] ->
        Dict.keys (available_volunteers (volunteer w'))
        = map (fun i => ("vol_" ++ str_of_int i)%string) (py_range 1 21)
        /\ List.length (available_volunteers (volunteer w')) = 20%nat).
Proof.
  unfold volunteer_run.
  destruct (demo_volunteers_spec env (py_range 1 21) (reads w))
    as (demo & k & D & Ids & _ & Oks).
  rewrite D. cbn [lift obind]. rewrite register_volunteers_world.
  match goal with |- context [send_message _ _ _ _ ?c ?v] =>
    destruct (send_inert env fuel VolunteerCoordinator "communication" c v I)
      as (w' & e & H & L & B & E & _) end.
  exists w', demo. split; [exact H|]. split; [exact Ids|]. split; [exact Oks|].
  pose proof (f_equal (fun x => available_volunteers (volunteer x)) L) as La.
  pose proof (f_equal (fun x => skills_registry (volunteer x)) L) as Ls.
  pose proof (f_equal (fun x => pending_tasks (volunteer x)) L) as Lp.
  cbn [without_logs volunteer available_volunteers skills_registry pending_tasks
       set_volunteer with_reads] in La, Ls, Lp.
  split; [exact La|]. split; [exact Ls|].
  split; [rewrite Lp; apply register_all_pending|].
  split.
  - exists e. split; [exact B|]. rewrite E. cbn [msg_to content].
    split; [reflexivity|]. now rewrite La.
  - intros Empty. rewrite La.
    rewrite register_all_roster.
    + rewrite Empty. cbn [app]. unfold Dict.keys. rewrite map_map. cbn [fst].
      rewrite length_map. split; [exact Ids|].
      rewrite <- (length_map vol_id), Ids, length_map. reflexivity.
    + rewrite Empty, Ids. cbn [Dict.keys map app]. apply distinct_NoDup.
      vm_compute. reflexivity.
Qed.

(** ** CommunicationAgent.run *)

Lemma demo_teams_keys env (indices : list Z) : forall k teams,
  NoDup (Dict.keys teams ++ map (fun i => ("team_" ++ str_of_int i)%string) indices) ->
  Dict.keys (fst (demo_teams env indices k teams))
  = Dict.keys teams ++ map (fun i => ("team_" ++ str_of_int i)%string) indices
  /\ snd (demo_teams env indices k teams) = (2 * List.length indices + k)%nat.
Proof.
  induction indices as [|i indices IH]; intros k teams ND; cbn [demo_teams map].
  - cbn. now rewrite app_nil_r.
  - cbn [map] in ND.
    assert (M : Dict.mem teams ("team_" ++ str_of_int i)%string = false).
    { apply NoDup_remove_2 in ND. unfold Dict.mem.
      rewrite get_fresh; [reflexivity|].
      intros H. apply ND, in_or_app. now left. }
    match goal with |- context [demo_teams env indices ?k' ?t'] =>
      destruct (IH k' t') as [K R] end.
    + rewrite keys_set, M, <- app_assoc. exact ND.
    + rewrite K, R, keys_set, M, <- app_assoc. split; [reflexivity|].
      cbn [List.length]. lia.
Qed.

Lemma update_team_locations_world (teams : dict (PyNum.float * PyNum.float)) :
  forall w,
  fold_left (fun w tl => update_team_location (fst tl) (snd tl) w) teams w
  = let c := communication w in
    set_communication w
      (mkComm (comm_id c) (comm_messages c) (victim_requests c)
         (Dict.update (rescue_team_locations c) teams)
         (message_log c) (priority_messages c)).
Proof.
  unfold Dict.update.
  induction teams as [|[team loc] teams IH]; intros w; cbn [fold_left].
  - now destruct w as [? ? ? ? [] ? ? ?].
  - rewrite IH. reflexivity.
Qed.

(** [CommunicationAgent.run] reports a location for each of the teams
    team_1 to team_5, on top of the locations held (a team already known
    under one of these ids gets the new location), then tells the
    analytics agent in one communication_system_status message that it is
    operational and how many teams it holds, and returns.  With no team
    held before, the teams are these five, in this order. *)
Theorem communication_run_connects_five (env : Env) (fuel : nat) (w : World) :
  exists w' teams,
    communication_run env (S fuel) w = Done w'
    /\ Dict.keys teams = ["team_1"; "team_2"; "team_3"; "team_4"; "team_5"]%string
    /\ rescue_team_locations (communication w')
       = Dict.update (rescue_team_locations (communication w)) teams
    /\ (forall team,
          Dict.get (rescue_team_locations (communication w')) team
          = match Dict.get teams team with
            | Some l => Some l
            | None => Dict.get (rescue_team_locations (communication w)) team
            end)
    /\ (exists e,
          bus_log w' = bus_log w ++ [e]
          /\ msg_to (event_message e) = "analytics"%string
          /\ content (event_message e)
             = CommunicationSystemStatus "operational"
                 (Z.of_nat (List.length (rescue_team_locations (communication w')))))
    /\ (rescue_team_locations (communication w) = [] ->
        rescue_team_locations (communication w') = teams).
Proof.
  unfold communication_run.
  destruct (demo_teams_keys env (py_range 1 6) (reads w) []) as [K _].
  { apply distinct_NoDup. vm_compute. reflexivity. }
  destruct (demo_teams env (py_range 1 6) (reads w) []) as [teams k].
  cbn [fst] in K. rewrite update_team_locations_world. cbv zeta.
  match goal with |- context [send_message _ _ _ _ ?c ?v] =>
    destruct (send_inert env fuel Communication "analytics" c v I)
      as (w' & e & H & L & B & E & _) end.
  exists w', teams. split; [exact H|]. split; [exact K|].
  pose proof (f_equal (fun x => rescue_team_locations (communication x)) L) as Ll.
  cbn [without_logs communication rescue_team_locations set_communication with_reads]
    in Ll.
  assert (W : Dict.wf teams).
  { unfold Dict.wf. rewrite K. apply distinct_NoDup. reflexivity. }
  split; [exact Ll|].
  split; [intros team; rewrite Ll; now apply get_update|].
  split.
  - exists e. split; [exact B|]. rewrite E. cbn [msg_to content].
    split; [reflexivity|]. now rewrite Ll.
  - intros Empty. rewrite Ll, Empty. unfold Dict.update.
    rewrite fold_set_fresh; [reflexivity|exact W].
Qed.

(** ** ReliefCoordinatorAgent.run *)

Lemma generate_distribution_tasks_eq env (p : plan) (w : World) :
  generate_distribution_tasks env p w
  = let v := volunteer w in
    with_reads
      (set_volunteer w
         (mkVolunteerAgent (volunteer_agent_id v) (volunteer_messages v)
            (available_volunteers v) (skills_registry v) (task_assignments v)
            (pending_tasks v ++ tasks_from env (reads w) (plan_triples p))))
      (List.length (plan_triples p) + reads w).
Proof.
  unfold generate_distribution_tasks. rewrite fold_append_task. reflexivity.
Qed.

Lemma send_delivered env fuel self to c w cb :
  Dict.get (subscribers w) to = Some cb ->
  let m := mkMessage (agent_id w self) to (now_us env (reads w)) c in
  send_message env (publish_message env (S fuel)) self to c w
  = (w' <~ receive_message env (publish_message env fuel) cb m
             (record_message self m (tick w)) ;;
     Done (log_event w' (Delivered m))).
Proof.
  intros G. cbv zeta. unfold send_message. rewrite publish_message_S.
  cbn [msg_to].
  replace (subscribers (record_message self _ (tick w))) with (subscribers w)
    by (destruct self; reflexivity).
  now rewrite G.
Qed.

Lemma receive_inert env publish a m w :
  inert (content m) ->
  receive_message env publish a m w = Done (record_message a m w).
Proof.
  intros I. unfold receive_message, process_message, relief_process_message,
    volunteer_process_message, communication_process_message,
    analytics_process_message.
  destruct a; destruct (content m); try contradiction; reflexivity.
Qed.

(** The relief coordinator's reaction to a need assessment, when the plan
    is known. *)
Lemma relief_receives_need env fuel (w : World) (m : Message)
    (areas : list AreaDemand) (p : plan) :
  content m = NeedAssessment areas ->
  allocation_plan_of (update_priority_areas areas) (ctx_resources (context w)) = Some p ->
  Dict.get (subscribers w) "volunteer_coordinator" = Some VolunteerCoordinator ->
  exists w' m3,
    receive_message env (publish_message env (S fuel)) Relief m w = Done w'
    /\ without_logs w'
       = without_logs (with_plan w (update_priority_areas areas) p
                         (tasks_from env (S (reads w)) (plan_triples p)))
    /\ bus_log w' = bus_log w ++ [Delivered m3]
    /\ msg_to m3 = "volunteer_coordinator"%string
    /\ content m3 = NewAllocationPlan p.
Proof.
  intros C A G.
  unfold receive_message, process_message, relief_process_message.
  rewrite C. cbv zeta. unfold optimize_resource_allocation.
  cbn [relief set_relief context record_message priority_areas].
  rewrite A. cbn [lift obind].
  erewrite send_delivered by exact G. cbv zeta.
  unfold receive_message, process_message, volunteer_process_message.
  cbn [content obind]. rewrite generate_distribution_tasks_eq.
  eexists. eexists. split; [reflexivity|]. repeat split.
Qed.

(** [ReliefCoordinatorAgent.run] in a system wired as [main] wires it,
    when the plan for the areas assessed is known. *)
Lemma relief_run_result env fuel (w : World) (p : plan) :
  wired w ->
  let w0 := update_resources initial_resources w in
  let areas := assessed_areas env (ctx_location (context w)) (S (reads w)) in
  allocation_plan_of (update_priority_areas areas) (ctx_resources (context w0)) = Some p ->
  exists w' m1 m2 m3,
    relief_run env (S (S (S fuel))) w = Done w'
    /\ without_logs w'
       = without_logs (with_plan w0 (update_priority_areas areas) p
                         (tasks_from env (9 + reads w) (plan_triples p)))
    /\ bus_log w' = bus_log w ++ [Delivered m3; Delivered m2; Delivered m1]
    /\ (msg_to m3 = "volunteer_coordinator"%string /\ content m3 = NewAllocationPlan p)
    /\ (msg_to m2 = "relief_coordinator"%string /\ content m2 = NeedAssessment areas)
    /\ (msg_to m1 = "analytics"%string
        /\ content m1 = RequestAreaAssessment (disaster_type (context w))
                          (ctx_location (context w))).
Proof.
  intros (Ws & Wr & Wv & Wc & Wa). cbv zeta. intros A.
  unfold relief_run.
  erewrite send_delivered
    by (cbn [update_resources subscribers set_context]; rewrite Ws; reflexivity).
  cbv zeta.
  unfold receive_message at 1, process_message, analytics_process_message.
  cbn [content]. cbn [assess_affected_areas].
  erewrite send_delivered
    by (cbn [msg_from agent_id update_resources relief set_context tick record_message
             set_analytics set_relief subscribers];
        rewrite Wr, Ws; reflexivity).
  cbv zeta.
  match goal with |- context [receive_message env _ Relief ?m ?v] =>
    destruct (relief_receives_need env fuel v m _ p eq_refl) as (w' & m3 & H & L & B & T & C)
  end.
  - exact A.
  - cbn [subscribers tick record_message set_analytics set_relief update_resources
         set_context]. rewrite Ws. reflexivity.
  - rewrite H. cbn [obind]. eexists. eexists. eexists. exists m3.
    split; [reflexivity|].
    split; [change (without_logs w' = without_logs
                      (with_plan (update_resources initial_resources w)
                         (update_priority_areas
                            (assessed_areas env (ctx_location (context w)) (S (reads w))))
                         p (tasks_from env (9 + reads w) (plan_triples p))));
            rewrite L; reflexivity|].
    cbn [bus_log log_event]. rewrite B.
    split; [cbn; rewrite <- !app_assoc; reflexivity|].
    split; [split; assumption|].
    split; [split; [cbn; exact Wr|reflexivity]|split; reflexivity].
Qed.

Lemma allocation_plan_exists (areas : list AreaDemand) (inventory : dict Z) :
  Forall positive_area areas -> stock_ok inventory ->
  exists p,
    allocation_plan_of areas inventory = Some p
    /\ wf_rows p /\ positive_rows p
    /\ forall kind, 0 <= rows_total p kind <= stock inventory kind.
Proof.
  intros Hpos Hs.
  destruct (allocation_loop_result areas inventory Hpos Hs)
    as (rows & final & F & _ & W & P & Hfin & C).
  assert (Pnil : positive_rows []) by constructor.
  eexists. unfold allocation_plan_of. rewrite F. cbn [bind].
  split; [reflexivity|].
  split; [apply wf_rows_fold; [exact W|constructor]|].
  split; [exact (proj1 (plan_of_rows_total rows "" P [] Pnil))|].
  intros kind.
  destruct (plan_of_rows_total rows kind P [] Pnil) as [P' T]. cbv zeta in T.
  change (rows_total [] kind) with 0 in T.
  pose proof (rows_total_nonneg _ kind P').
  pose proof (stock_bounded final kind (proj2 Hfin)).
  specialize (C kind). lia.
Qed.

Lemma assessed_areas_in_range env loc k :
  Forall assessed_in_range (assessed_areas env loc k)
  /\ map name (assessed_areas env loc k)
     = [(loc ++ "_Area_1")%string; (loc ++ "_Area_2")%string; (loc ++ "_Area_3")%string].
Proof.
  split; [|reflexivity]. repeat constructor; apply assessed_area_in_range.
Qed.

Lemma assessed_areas_positive env loc k :
  Forall positive_area (update_priority_areas (assessed_areas env loc k)).
Proof.
  apply update_priority_areas_positive.
  eapply Forall_impl; [apply assessed_in_range_positive|].
  apply assessed_areas_in_range.
Qed.

(** [ReliefCoordinatorAgent.run], in a system wired as [main] wires it
    and with a stock that stays below 2^53 once the initial levels are
    set: the levels are set, the analytics agent is asked for an
    assessment and answers with three areas, the coordinator ranks them
    and plans, and the volunteer coordinator queues the tasks of the
    plan.  Three messages are delivered, the innermost first; the tasks
    distribute of every kind what the plan allocates, at most the stock;
    and the call returns whatever the random source draws. *)
Theorem relief_run_plans_assessed_areas (env : Env) (fuel : nat) (w : World) :
  wired w ->
  stock_ok (Dict.update (ctx_resources (context w)) initial_resources) ->
  exists w' areas new events,
    relief_run env (S (S (S fuel))) w = Done w'
    /\ Forall assessed_in_range areas
    /\ ctx_resources (context w')
       = Dict.update (ctx_resources (context w)) initial_resources
    /\ priority_areas (relief w') = update_priority_areas areas
    /\ allocation_plan_of (update_priority_areas areas) (ctx_resources (context w'))
       = Some (resource_allocation_plan (relief w'))
    /\ pending_tasks (volunteer w') = pending_tasks (volunteer w) ++ new
    /\ (forall kind,
          tasks_total new kind = rows_total (resource_allocation_plan (relief w')) kind
          /\ 0 <= tasks_total new kind <= stock (ctx_resources (context w')) kind)
    /\ bus_log w' = bus_log w ++ events
    /\ recipients events = ["volunteer_coordinator"; "relief_coordinator"; "analytics"]
    /\ Forall is_delivery events.
Proof.
  intros Hw Hs.
  set (areas := assessed_areas env (ctx_location (context w)) (S (reads w))).
  destruct (allocation_plan_exists (update_priority_areas areas)
              (Dict.update (ctx_resources (context w)) initial_resources))
    as (p & A & Wp & Pp & T).
  { apply assessed_areas_positive. }
  { exact Hs. }
  destruct (relief_run_result env fuel w p Hw A)
    as (w' & m1 & m2 & m3 & H & L & B & (T3 & _) & (T2 & _) & (T1 & _)).
  exists w', areas, (tasks_from env (9 + reads w) (plan_triples p)),
    [Delivered m3; Delivered m2; Delivered m1].
  split; [exact H|].
  split; [apply assessed_areas_in_range|].
  pose proof (f_equal (fun x => ctx_resources (context x)) L) as Lc.
  pose proof (f_equal (fun x => priority_areas (relief x)) L) as La.
  pose proof (f_equal (fun x => resource_allocation_plan (relief x)) L) as Lp.
  pose proof (f_equal (fun x => pending_tasks (volunteer x)) L) as Lt.
  cbn in Lc, La, Lp, Lt.
  split; [exact Lc|]. split; [exact La|].
  split; [rewrite Lc, Lp; exact A|]. split; [exact Lt|].
  split.
  - intros kind. rewrite Lc, Lp. rewrite tasks_total_plan by exact Wp.
    split; [reflexivity|apply T].
  - split; [exact B|]. split; [cbn; now rewrite T1, T2, T3|].
    repeat constructor.
Qed.

Lemma relief_run_plans_assessed_areas_witness :
  exists w' areas new events,
    relief_run (sample_env 0) 3 initial_world = Done w'
    /\ Forall assessed_in_range areas
    /\ ctx_resources (context w')
       = Dict.update (ctx_resources (context initial_world)) initial_resources
    /\ priority_areas (relief w') = update_priority_areas areas
    /\ allocation_plan_of (update_priority_areas areas) (ctx_resources (context w'))
       = Some (resource_allocation_plan (relief w'))
    /\ pending_tasks (volunteer w') = pending_tasks (volunteer initial_world) ++ new
    /\ (forall kind,
          tasks_total new kind = rows_total (resource_allocation_plan (relief w')) kind
          /\ 0 <= tasks_total new kind <= stock (ctx_resources (context w')) kind)
    /\ bus_log w' = bus_log initial_world ++ events
    /\ recipients events = ["volunteer_coordinator"; "relief_coordinator"; "analytics"]
    /\ Forall is_delivery events.
Proof.
  apply (relief_run_plans_assessed_areas (sample_env 0) 0 initial_world).
  - repeat split.
  - split.
    + unfold Dict.wf. cbn. repeat constructor; cbn; intuition discriminate.
    + repeat constructor; cbn; lia.
Defined.

(** ** main *)

Lemma wired_without_logs (w w' : World) :
  without_logs w' = without_logs w -> wired w -> wired w'.
Proof.
  intros L (Ws & Wr & Wv & Wc & Wa).
  pose proof (f_equal subscribers L) as Ls.
  pose proof (agent_id_without_logs w w' Relief L) as Lr.
  pose proof (agent_id_without_logs w w' VolunteerCoordinator L) as Lv.
  pose proof (agent_id_without_logs w w' Communication L) as Lc.
  pose proof (agent_id_without_logs w w' Analytics L) as La.
  cbn in Ls, Lr, Lv, Lc, La. repeat split; congruence.
Qed.

Lemma register_all_fields (vols : list Volunteer) : forall v v',
  volunteer_agent_id v = volunteer_agent_id v' ->
  available_volunteers v = available_volunteers v' ->
  skills_registry v = skills_registry v' ->
  task_assignments v = task_assignments v' ->
  pending_tasks v = pending_tasks v' ->
  volunteer_agent_id (register_all vols v) = volunteer_agent_id (register_all vols v')
  /\ available_volunteers (register_all vols v)
     = available_volunteers (register_all vols v')
  /\ skills_registry (register_all vols v) = skills_registry (register_all vols v')
  /\ task_assignments (register_all vols v) = task_assignments (register_all vols v')
  /\ pending_tasks (register_all vols v) = pending_tasks (register_all vols v').
Proof.
  unfold register_all.
  induction vols as [|vol vols IH]; intros v v' I A S T P; cbn [fold_left].
  - repeat split; assumption.
  - apply IH; cbn [register_volunteer_agent volunteer_agent_id available_volunteers
                   skills_registry task_assignments pending_tasks]; congruence.
Qed.

Lemma without_logs_with_volunteers (w x : World) (vols : list Volunteer) :
  without_logs w = without_logs x ->
  without_logs (with_volunteers w vols) = without_logs (with_volunteers x vols).
Proof.
  intros L. unfold with_volunteers.
  destruct (register_all_fields vols (volunteer w) (volunteer x)) as (A & B & C & D & E).
  - exact (f_equal (fun y => volunteer_agent_id (volunteer y)) L).
  - exact (f_equal (fun y => available_volunteers (volunteer y)) L).
  - exact (f_equal (fun y => skills_registry (volunteer y)) L).
  - exact (f_equal (fun y => task_assignments (volunteer y)) L).
  - exact (f_equal (fun y => pending_tasks (volunteer y)) L).
  - unfold without_logs in *. cbn [set_volunteer subscribers context relief volunteer
                                   communication analytics].
    injection L as L1 L2 L3 L4 L5 L6 L7 L8 L9 L10 L11 L12 L13 L14 L15 L16 L17 L18.
    congruence.
Qed.

Lemma without_logs_with_teams (w x : World) teams :
  without_logs w = without_logs x ->
  without_logs (with_teams w teams) = without_logs (with_teams x teams).
Proof.
  intros L. unfold with_teams, without_logs in *.
  cbn [set_communication subscribers context relief volunteer communication analytics
       comm_id victim_requests rescue_team_locations message_log priority_messages].
  injection L as L1 L2 L3 L4 L5 L6 L7 L8 L9 L10 L11 L12 L13 L14 L15 L16 L17 L18.
  congruence.
Qed.

Lemma without_logs_with_analysis (w x : World) sources preds :
  without_logs w = without_logs x ->
  without_logs (with_analysis w sources preds)
  = without_logs (with_analysis x sources preds).
Proof.
  intros L. unfold with_analysis, without_logs in *.
  cbn [set_analytics subscribers context relief volunteer communication analytics
       analytics_id data_sources predictions].
  injection L as L1 L2 L3 L4 L5 L6 L7 L8 L9 L10 L11 L12 L13 L14 L15 L16 L17 L18.
  congruence.
Qed.

Lemma wired_routes (w : World) :
  wired w ->
  Dict.get (subscribers w) "relief_coordinator" = Some Relief
  /\ Dict.get (subscribers w) "volunteer_coordinator" = Some VolunteerCoordinator
  /\ Dict.get (subscribers w) "communication" = Some Communication
  /\ Dict.get (subscribers w) "analytics" = Some Analytics.
Proof. intros (-> & _). repeat split. Qed.

(** [VolunteerCoordinationAgent.run] in a wired system. *)
Lemma volunteer_run_result env fuel (w : World) :
  wired w ->
  exists w' demo m,
    volunteer_run env (S fuel) w = Done w'
    /\ map vol_id demo = map (fun i => ("vol_" ++ str_of_int i)%string) (py_range 1 21)
    /\ Forall demo_volunteer_ok demo
    /\ without_logs w' = without_logs (with_volunteers w demo)
    /\ bus_log w' = bus_log w ++ [Delivered m]
    /\ msg_to m = "communication"%string
    /\ content m
       = VolunteerStatus
           (Z.of_nat (List.length (available_volunteers
                                     (register_all demo (volunteer w))))).
Proof.
  intros Hw. destruct (wired_routes w Hw) as (_ & _ & Gc & _).
  unfold volunteer_run.
  destruct (demo_volunteers_spec env (py_range 1 21) (reads w))
    as (demo & k & D & Ids & _ & Oks).
  rewrite D. cbn [lift obind]. rewrite register_volunteers_world.
  erewrite send_delivered by exact Gc. cbv zeta.
  rewrite receive_inert by exact I. cbn [obind].
  eexists. exists demo. eexists. split; [reflexivity|].
  split; [exact Ids|]. split; [exact Oks|]. repeat split.
Qed.

(** [CommunicationAgent.run] in a wired system. *)
Lemma communication_run_result env fuel (w : World) :
  wired w ->
  exists w' teams m,
    communication_run env (S fuel) w = Done w'
    /\ Dict.keys teams = ["team_1"; "team_2"; "team_3"; "team_4"; "team_5"]%string
    /\ without_logs w' = without_logs (with_teams w teams)
    /\ bus_log w' = bus_log w ++ [Delivered m]
    /\ msg_to m = "analytics"%string
    /\ content m
       = CommunicationSystemStatus "operational"
           (Z.of_nat (List.length
                        (Dict.update (rescue_team_locations (communication w)) teams))).
Proof.
  intros Hw. destruct (wired_routes w Hw) as (_ & _ & _ & Ga).
  unfold communication_run.
  destruct (demo_teams_keys env (py_range 1 6) (reads w) []) as [K _].
  { apply distinct_NoDup. vm_compute. reflexivity. }
  destruct (demo_teams env (py_range 1 6) (reads w) []) as [teams k].
  cbn [fst] in K. rewrite update_team_locations_world. cbv zeta.
  erewrite send_delivered by exact Ga. cbv zeta.
  rewrite receive_inert by exact I. cbn [obind].
  eexists. exists teams. eexists. split; [reflexivity|].
  split; [exact K|]. repeat split.
Qed.

(** The weather reading of [main], arriving at an analytics agent that
    holds no sample and no prediction yet. *)
Lemma last_reading_result env fuel (w : World) :
  wired w ->
  data_sources (analytics w) = [] -> predictions (analytics w) = [] ->
  exists w' m pr ts,
    send_message env (publish_message env (S fuel)) Communication "analytics"
      (NewData "weather" last_reading) w = Done w'
    /\ without_logs w'
       = without_logs (with_analysis w [("weather", [mkSample ts last_reading])]
                         [(pred_id pr, pr)])
    /\ bus_log w' = bus_log w ++ [Delivered m]
    /\ msg_to m = "analytics"%string
    /\ content m = NewData "weather" last_reading
    /\ risk_level pr = 6
    /\ pred_type pr = "weather_impact"%string.
Proof.
  intros Hw Hd Hp. destruct (wired_routes w Hw) as (_ & _ & _ & Ga).
  erewrite send_delivered by exact Ga. cbv zeta.
  unfold receive_message, process_message, analytics_process_message.
  cbn [content]. rewrite process_new_data_unfold. cbv zeta.
  change (detect_significant_change "weather" last_reading) with true. cbv iota.
  match goal with |- context [generate_prediction env "weather" ?v] =>
    set (w1 := v) end.
  assert (D1 : data_sources (analytics w1)
               = [("weather", [mkSample (now_us env (S (reads w))) last_reading])]).
  { unfold w1, with_sample.
    cbn [analytics set_analytics set_communication data_sources record_message tick
         reads communication analytics_id analytics_messages predictions].
    rewrite Hd. reflexivity. }
  assert (R : prediction_risk (analytics w1) = Some 6).
  { unfold prediction_risk, get_recent_data. rewrite D1. vm_compute. reflexivity. }
  pose proof (generate_prediction_weather env w1) as G. rewrite R in G.
  destruct G as (pr & w2 & G & Risk & _).
  rewrite G. cbn [obind]. rewrite Risk. change (7 <=? 6) with false. cbv iota.
  cbn [obind].
  pose proof (generate_prediction_stores env "weather" w1 pr w2 G) as [E _].
  cbv zeta in E.
  assert (T : pred_type pr = "weather_impact"%string).
  { unfold generate_prediction in G.
    change (String.eqb "weather" "weather") with true in G. cbv iota in G.
    repeat match type of G with
           | obind (obind (lift ?x) _) _ = Done _ =>
               destruct x; cbn [lift obind] in G; [|discriminate G]
           end.
    now injection G as <- _. }
  subst w2.
  eexists. eexists. exists pr. eexists. split; [reflexivity|].
  split.
  - unfold with_analysis, without_logs.
    cbn [log_event set_analytics tick analytics data_sources predictions analytics_id
         subscribers context relief volunteer communication].
    rewrite D1. unfold w1.
    cbn [analytics set_analytics predictions record_message tick with_sample
         analytics_id subscribers context relief volunteer communication
         set_communication comm_id victim_requests rescue_team_locations message_log
         priority_messages].
    rewrite Hp. reflexivity.
  - split; [reflexivity|]. split; [reflexivity|]. split; [reflexivity|].
    split; [exact Risk|exact T].
Qed.

Lemma stock_ok_initial_resources : stock_ok initial_resources.
Proof.
  split.
  - unfold Dict.wf. apply distinct_NoDup. reflexivity.
  - repeat constructor; cbn; lia.
Qed.

Lemma wired_initial_world : wired initial_world.
Proof. repeat split. Qed.

(** [main], whatever the clock and the random source do. *)
Lemma main_result env fuel :
  let areas := assessed_areas env "Los Angeles" 1 in
  exists w p demo teams ts pr,
    main env (S (S (S fuel))) = Done w
    /\ (allocation_plan_of (update_priority_areas areas) initial_resources = Some p
        /\ wf_rows p
        /\ forall kind, 0 <= rows_total p kind <= stock initial_resources kind)
    /\ (map vol_id demo
        = map (fun i => ("vol_" ++ str_of_int i)%string) (py_range 1 21)
        /\ Forall demo_volunteer_ok demo)
    /\ Dict.keys teams = ["team_1"; "team_2"; "team_3"; "team_4"; "team_5"]%string
    /\ (risk_level pr = 6 /\ pred_type pr = "weather_impact"%string)
    /\ without_logs w = without_logs (main_state env areas p demo teams ts pr)
    /\ recipients (bus_log w)
       = ["volunteer_coordinator"; "relief_coordinator"; "analytics";
          "communication"; "analytics"; "analytics"]%string
    /\ content_types (bus_log w)
       = [Some "new_allocation_plan"; Some "need_assessment";
          Some "request_area_assessment"; Some "volunteer_status";
          Some "communication_system_status"; Some "new_data"]%string
    /\ Forall is_delivery (bus_log w).
Proof.
  intros areas.
  destruct (allocation_plan_exists (update_priority_areas areas) initial_resources)
    as (p & A & Wp & _ & T).
  { apply assessed_areas_positive. }
  { apply stock_ok_initial_resources. }
  destruct (relief_run_result env fuel initial_world p wired_initial_world A)
    as (w1 & m1 & m2 & m3 & H1 & L1 & B1 & (T3 & C3) & (T2 & C2) & (T1 & C1)).
  fold areas in L1.
  set (x1 := with_plan (update_resources initial_resources initial_world)
               (update_priority_areas areas) p (tasks_from env 9 (plan_triples p))).
  change (without_logs w1 = without_logs x1) in L1.
  assert (W1 : wired w1) by (apply (wired_without_logs x1 w1 L1); repeat split).
  destruct (volunteer_run_result env (S (S fuel)) w1 W1)
    as (w2 & demo & m4 & H2 & Ids & Oks & L2 & B2 & T4 & C4).
  rewrite (without_logs_with_volunteers w1 x1 demo L1) in L2.
  assert (W2 : wired w2).
  { apply (wired_without_logs _ w2 L2). repeat split.
    exact (proj2 (register_all_pending demo (volunteer x1))). }
  destruct (communication_run_result env (S (S fuel)) w2 W2)
    as (w3 & teams & m5 & H3 & K & L3 & B3 & T5 & C5).
  rewrite (without_logs_with_teams w2 _ teams L2) in L3.
  assert (W3 : wired w3).
  { apply (wired_without_logs _ w3 L3). repeat split.
    exact (proj2 (register_all_pending demo (volunteer x1))). }
  assert (D3 : data_sources (analytics w3) = [])
    by exact (f_equal (fun y => data_sources (analytics y)) L3).
  assert (P3 : predictions (analytics w3) = [])
    by exact (f_equal (fun y => predictions (analytics y)) L3).
  destruct (last_reading_result env (S (S fuel)) w3 W3 D3 P3)
    as (w5 & m6 & pr & ts & H5 & L5 & B5 & T6 & C6 & Risk & Ty).
  rewrite (without_logs_with_analysis w3 _ _ _ L3) in L5.
  exists w5, p, demo, teams, ts, pr.
  split.
  { unfold main. rewrite H1. cbn [obind]. rewrite H2. cbn [obind].
    rewrite H3. cbn [obind]. unfold analytics_run. cbn [obind]. exact H5. }
  split; [split; [exact A|split; [exact Wp|exact T]]|].
  split; [split; assumption|]. split; [exact K|]. split; [split; assumption|].
  split; [exact L5|].
  rewrite B5, B3, B2, B1. cbn [bus_log initial_world subscribe set_subscribers app].
  unfold recipients, content_types. cbn [map event_message].
  rewrite T1, T2, T3, T4, T5, T6, C1, C2, C3, C4, C5, C6.
  split; [reflexivity|]. split; [reflexivity|]. repeat constructor.
Qed.

Lemma no_alert_among (events : list BusEvent) :
  Forall (fun e => content_type (content (event_message e)) <> Some "alert"%string)
         events ->
  List.length (filter (fun e => is_alert_to_communication (event_message e)) events)
  = 0%nat.
Proof.
  induction 1 as [|e events He _ IH]; [reflexivity|].
  cbn [filter]. unfold is_alert_to_communication at 1.
  destruct (content (event_message e)); try exact IH.
  now elim He.
Qed.

(** [main] always runs to its end, whatever the clock and the random
    source do: six messages go over the bus, each is delivered to a
    subscriber, and the deliveries end in this order: the allocation
    plan, the need assessment, the request for an assessment, the
    volunteer status, the communication system status, the weather
    reading.  No alert is raised: the one weather sample, wind speed 60,
    yields the one stored prediction, of risk level 6, below the
    threshold of 7. *)
Theorem main_delivers_six_messages_without_alert (env : Env) (fuel : nat) :
  (3 <= fuel)%nat ->
  exists w,
    main env fuel = Done w
    /\ recipients (bus_log w)
       = ["volunteer_coordinator"; "relief_coordinator"; "analytics";
          "communication"; "analytics"; "analytics"]%string
    /\ content_types (bus_log w)
       = [Some "new_allocation_plan"; Some "need_assessment";
          Some "request_area_assessment"; Some "volunteer_status";
          Some "communication_system_status"; Some "new_data"]%string
    /\ Forall is_delivery (bus_log w)
    /\ alerts_published w = 0%nat
    /\ (exists ts, data_sources (analytics w)
                   = [("weather", [mkSample ts last_reading])])
    /\ (exists pr, predictions (analytics w) = [(pred_id pr, pr)]
                   /\ risk_level pr = 6
                   /\ pred_type pr = "weather_impact"%string).
Proof.
  intros Hf.
  destruct fuel as [|[|[|fuel]]]; try lia.
  destruct (main_result env fuel)
    as (w & p & demo & teams & ts & pr & H & _ & _ & _ & (Risk & Ty) & L & R & C & D).
  exists w. split; [exact H|]. split; [exact R|]. split; [exact C|].
  split; [exact D|]. split.
  - unfold alerts_published. apply no_alert_among.
    apply Forall_forall. intros e He Ha.
    assert (In (Some "alert"%string) (content_types (bus_log w))).
    { rewrite <- Ha. unfold content_types.
      apply (in_map (fun e => content_type (content (event_message e)))), He. }
    rewrite C in H0. cbn in H0. intuition discriminate.
  - split.
    + exists ts. exact (f_equal (fun y => data_sources (analytics y)) L).
    + exists pr. split; [|split; assumption].
      exact (f_equal (fun y => predictions (analytics y)) L).
Qed.

Lemma main_delivers_six_messages_without_alert_witness :
  exists w,
    main (sample_env 0) 3 = Done w
    /\ recipients (bus_log w)
       = ["volunteer_coordinator"; "relief_coordinator"; "analytics";
          "communication"; "analytics"; "analytics"]%string
    /\ content_types (bus_log w)
       = [Some "new_allocation_plan"; Some "need_assessment";
          Some "request_area_assessment"; Some "volunteer_status";
          Some "communication_system_status"; Some "new_data"]%string
    /\ Forall is_delivery (bus_log w)
    /\ alerts_published w = 0%nat
    /\ (exists ts, data_sources (analytics w)
                   = [("weather", [mkSample ts last_reading])])
    /\ (exists pr, predictions (analytics w) = [(pred_id pr, pr)]
                   /\ risk_level pr = 6
                   /\ pred_type pr = "weather_impact"%string).
Proof. apply main_delivers_six_messages_without_alert. lia. Defined.

(** The state [main] ends in, whatever the clock and the random source
    do: the inventory is the initial one; the relief coordinator holds
    the three assessed areas of Los Angeles in priority order and the
    plan that the allocation gives for them; the pending tasks distribute
    of every kind what the plan allocates, at most the inventory; the
    roster holds the twenty volunteers vol_1 to vol_20, each with one to
    three distinct skills, and every id in the skill index is in the
    roster; the teams located are team_1 to team_5. *)
Theorem main_final_state (env : Env) (fuel : nat) :
  (3 <= fuel)%nat ->
  exists w areas demo,
    main env fuel = Done w
    /\ ctx_resources (context w) = initial_resources
    /\ (map name areas
        = ["Los Angeles_Area_1"; "Los Angeles_Area_2"; "Los Angeles_Area_3"]%string
        /\ Forall assessed_in_range areas
        /\ priority_areas (relief w) = update_priority_areas areas)
    /\ allocation_plan_of (priority_areas (relief w)) initial_resources
       = Some (resource_allocation_plan (relief w))
    /\ (forall kind,
          tasks_total (pending_tasks (volunteer w)) kind
          = rows_total (resource_allocation_plan (relief w)) kind
          /\ 0 <= tasks_total (pending_tasks (volunteer w)) kind
             <= stock initial_resources kind)
    /\ (map vol_id demo = map (fun i => ("vol_" ++ str_of_int i)%string) (py_range 1 21)
        /\ Forall demo_volunteer_ok demo
        /\ available_volunteers (volunteer w) = map (fun v => (vol_id v, v)) demo)
    /\ registry_within_roster (volunteer w)
    /\ Dict.keys (rescue_team_locations (communication w))
       = ["team_1"; "team_2"; "team_3"; "team_4"; "team_5"]%string.
Proof.
  intros Hf.
  destruct fuel as [|[|[|fuel]]]; try lia.
  destruct (main_result env fuel)
    as (w & p & demo & teams & ts & pr & H & (A & Wp & T) & (Ids & Oks) & K & _ & L & _).
  set (areas := assessed_areas env "Los Angeles" 1) in *.
  exists w, areas, demo. split; [exact H|].
  pose proof (f_equal (fun y => ctx_resources (context y)) L) as Lc.
  pose proof (f_equal (fun y => priority_areas (relief y)) L) as La.
  pose proof (f_equal (fun y => resource_allocation_plan (relief y)) L) as Lp.
  pose proof (f_equal (fun y => pending_tasks (volunteer y)) L) as Lt.
  pose proof (f_equal (fun y => available_volunteers (volunteer y)) L) as Lr.
  pose proof (f_equal (fun y => skills_registry (volunteer y)) L) as Ls.
  pose proof (f_equal (fun y => rescue_team_locations (communication y)) L) as Ll.
  cbn [without_logs main_state with_analysis with_teams with_volunteers with_plan
       set_analytics set_communication set_volunteer set_relief context relief volunteer
       communication analytics priority_areas resource_allocation_plan pending_tasks
       available_volunteers skills_registry rescue_team_locations
       update_resources set_context initial_world subscribe set_subscribers
       ctx_resources volunteer_agent_id volunteer_messages task_assignments app]
    in Lc, La, Lp, Lt, Lr, Ls, Ll.
  split; [exact Lc|].
  split; [split; [reflexivity|split; [apply assessed_areas_in_range|exact La]]|].
  split; [rewrite La, Lp; exact A|].
  split.
  { intros kind. rewrite Lt, Lp.
    rewrite (proj1 (register_all_pending demo _)). cbn [pending_tasks].
    rewrite tasks_total_plan by exact Wp. split; [reflexivity|apply T]. }
  split.
  { split; [exact Ids|]. split; [exact Oks|]. rewrite Lr.
    rewrite register_all_roster; [reflexivity|].
    cbn [available_volunteers Dict.keys map app]. rewrite Ids.
    apply distinct_NoDup. vm_compute. reflexivity. }
  split.
  { intros skill id. rewrite Ls, Lr. apply register_all_within_roster.
    intros s i Hin. cbn in Hin. contradiction. }
  rewrite Ll. unfold Dict.update. rewrite fold_set_fresh; [exact K|].
  cbn [Dict.keys map app]. fold (Dict.keys teams). rewrite K.
  apply distinct_NoDup. reflexivity.
Qed.

Lemma main_final_state_witness :
  exists w areas demo,
    main (sample_env 0) 3 = Done w
    /\ ctx_resources (context w) = initial_resources
    /\ (map name areas
        = ["Los Angeles_Area_1"; "Los Angeles_Area_2"; "Los Angeles_Area_3"]%string
        /\ Forall assessed_in_range areas
        /\ priority_areas (relief w) = update_priority_areas areas)
    /\ allocation_plan_of (priority_areas (relief w)) initial_resources
       = Some (resource_allocation_plan (relief w))
    /\ (forall kind,
          tasks_total (pending_tasks (volunteer w)) kind
          = rows_total (resource_allocation_plan (relief w)) kind
          /\ 0 <= tasks_total (pending_tasks (volunteer w)) kind
             <= stock initial_resources kind)
    /\ (map vol_id demo = map (fun i => ("vol_" ++ str_of_int i)%string) (py_range 1 21)
        /\ Forall demo_volunteer_ok demo
        /\ available_volunteers (volunteer w) = map (fun v => (vol_id v, v)) demo)
    /\ registry_within_roster (volunteer w)
    /\ Dict.keys (rescue_team_locations (communication w))
       = ["team_1"; "team_2"; "team_3"; "team_4"; "team_5"]%string.
Proof. apply main_final_state. lia. Defined.

(** ** What no message changes *)

Lemma standing_record (a : AgentRef) (m : Message) (w : World) :
  standing (record_message a m w) = standing w.
Proof. destruct a; reflexivity. Qed.

Section StandingAgents.
Variable env : Env.
Variable publish : World -> Message -> Outcome World.
Hypothesis publish_standing :
  forall w m w', publish w m = Done w' -> standing w' = standing w.

Lemma send_message_standing self to c w w' :
  send_message env publish self to c w = Done w' -> standing w' = standing w.
Proof.
  unfold send_message. intros H. apply publish_standing in H.
  rewrite H, standing_record. reflexivity.
Qed.

Lemma for_each_send_standing (f : string -> string) c l : forall w w',
  for_each_o (fun w t => send_message env publish Communication (f t) c w) l w
    = Done w' -> standing w' = standing w.
Proof.
  induction l as [|t l IH]; intros w w' H; cbn [for_each_o] in H.
  - now injection H as <-.
  - obind_inv H. apply send_message_standing in E. apply IH in H. congruence.
Qed.

Lemma receive_message_standing a m w w' :
  receive_message env publish a m w = Done w' -> standing w' = standing w.
Proof.
  unfold receive_message, process_message. intros H.
  rewrite <- (standing_record a m w).
  revert H. generalize (record_message a m w). clear w. intros w H.
  destruct a.
  - unfold relief_process_message in H.
    destruct (content m); try (now injection H as <-).
    unfold optimize_resource_allocation in H. obind_inv H.
    apply send_message_standing in H. rewrite H. reflexivity.
  - unfold volunteer_process_message in H.
    destruct (content m); injection H as <-; try reflexivity.
    rewrite generate_distribution_tasks_eq. reflexivity.
  - unfold communication_process_message in H.
    destruct (content m); try (now injection H as <-).
    unfold broadcast_alert in H. obind_inv H.
    apply (for_each_send_standing
             (fun team_id => ("rescue_team_" ++ team_id)%string)) in E.
    apply send_message_standing in H. congruence.
  - unfold analytics_process_message in H.
    destruct (content m); try (now injection H as <-).
    + rewrite process_new_data_unfold in H. cbv zeta in H.
      destruct (detect_significant_change source data).
      * obind_inv H. destruct a as [p w1].
        apply generate_prediction_stores in E. destruct E as [E _]. cbv zeta in E.
        assert (S1 : standing w1 = standing w) by (rewrite E; reflexivity).
        destruct (7 <=? risk_level p).
        -- apply send_message_standing in H. congruence.
        -- now injection H as <-.
      * now injection H as <-.
    + cbn [assess_affected_areas] in H. apply send_message_standing in H.
      rewrite H. reflexivity.
Qed.
End StandingAgents.

Lemma publish_message_standing env fuel : forall w m w',
  publish_message env fuel w m = Done w' -> standing w' = standing w.
Proof.
  induction fuel as [|fuel IH]; intros w m w' H; cbn [publish_message] in H.
  - discriminate.
  - destruct (Dict.get (subscribers w) (msg_to m)) as [cb|].
    + obind_inv H. injection H as <-.
      apply (receive_message_standing env _ IH) in E.
      rewrite <- E. reflexivity.
    + now injection H as <-.
Qed.

(** No message, whatever it says and whoever receives it, changes the
    subscriptions, the shared context, the ids of the agents, the roster
    of volunteers, the skill index, the task assignments, the victim
    requests, the locations of the rescue teams or the message lists of
    the communication agent: a delivery and all that follows from it can
    only add to the logs, replace the coordinator's areas and plan, queue
    tasks, and store samples and predictions. *)
Theorem messages_leave_standing_state (env : Env) (fuel : nat) (w w' : World)
    (m : Message) :
  publish_message env fuel w m = Done w' -> standing w' = standing w.
Proof. apply publish_message_standing. Qed.

Lemma messages_leave_standing_state_witness :
  let m := mkMessage "communication" "analytics" 0
             (NewData "weather" [("wind_speed", 80); ("rainfall", 5)]) in
  standing (result_of (publish_message (sample_env 0) 3 scenario_world m) scenario_world)
  = standing scenario_world.
Proof.
  intros m.
  apply (messages_leave_standing_state (sample_env 0) 3 scenario_world _ m).
  vm_compute. reflexivity.
Defined.

(** ** More on need assessments *)

(** A need assessment without areas is not an error, whoever is
    subscribed as volunteer coordinator: the relief coordinator drops the
    areas and the plan it held, hands an empty plan to the bus, and no
    task is queued. *)
Theorem empty_assessment_clears_plan (env : Env) (fuel : nat) (w : World)
    (from to : string) (ts : Z) :
  exists w' e,
    receive_message env (publish_message env (S fuel)) Relief
      (mkMessage from to ts (NeedAssessment [])) w = Done w'
    /\ priority_areas (relief w') = []
    /\ resource_allocation_plan (relief w') = []
    /\ pending_tasks (volunteer w') = pending_tasks (volunteer w)
    /\ bus_log w' = bus_log w ++ [e]
    /\ msg_to (event_message e) = "volunteer_coordinator"%string
    /\ content (event_message e) = NewAllocationPlan [].
Proof.
  unfold receive_message, process_message, relief_process_message.
  cbn [content]. unfold optimize_resource_allocation.
  cbn [relief set_relief priority_areas update_priority_areas sorted_desc
       allocation_plan_of allocation_loop for_each bind lift obind].
  unfold send_message. rewrite publish_message_S.
  destruct (Dict.get _ _) as [[]|];
    unfold receive_message, process_message, relief_process_message,
      volunteer_process_message, communication_process_message,
      analytics_process_message;
    cbn [content obind]; rewrite ?generate_distribution_tasks_eq;
    eexists; eexists; (split; [reflexivity|]); repeat split.
  cbn. now rewrite app_nil_r.
Qed.

(** Tasks of a superseded plan stay queued.  Of two need assessments
    handled one after the other, each queues the tasks of its plan behind
    the tasks pending; the coordinator keeps the second plan only, and
    the queue distributes what both plans allocate: twice the plan when
    the two assessments name the same areas. *)
Theorem superseded_plan_tasks_stay_queued (env : Env) (fuel : nat) (w : World)
    (m1 m2 : Message) (areas1 areas2 : list AreaDemand) :
  content m1 = NeedAssessment areas1 ->
  content m2 = NeedAssessment areas2 ->
  Forall positive_area areas1 -> Forall positive_area areas2 ->
  stock_ok (ctx_resources (context w)) ->
  Dict.get (subscribers w) "volunteer_coordinator" = Some VolunteerCoordinator ->
  exists w1 w2 new1 new2,
    receive_message env (publish_message env (S fuel)) Relief m1 w = Done w1
    /\ receive_message env (publish_message env (S fuel)) Relief m2 w1 = Done w2
    /\ pending_tasks (volunteer w2) = pending_tasks (volunteer w) ++ new1 ++ new2
    /\ (forall kind,
          tasks_total new1 kind = rows_total (resource_allocation_plan (relief w1)) kind
          /\ tasks_total new2 kind
             = rows_total (resource_allocation_plan (relief w2)) kind)
    /\ (areas1 = areas2 ->
        forall kind,
          tasks_total (new1 ++ new2) kind
          = 2 * rows_total (resource_allocation_plan (relief w2)) kind).
Proof.
  intros C1 C2 P1 P2 Hs G.
  destruct (allocation_plan_exists _ _ (update_priority_areas_positive areas1 P1) Hs)
    as (p1 & A1 & W1 & _).
  destruct (allocation_plan_exists _ _ (update_priority_areas_positive areas2 P2) Hs)
    as (p2 & A2 & W2 & _).
  destruct (relief_receives_need env fuel w m1 areas1 p1 C1 A1 G)
    as (w1 & m3 & H1 & L1 & _).
  assert (Ctx : context w1 = context w) by exact (f_equal context L1).
  assert (Sub : subscribers w1 = subscribers w) by exact (f_equal subscribers L1).
  rewrite <- Ctx in A2. rewrite <- Sub in G.
  destruct (relief_receives_need env fuel w1 m2 areas2 p2 C2 A2 G)
    as (w2 & m4 & H2 & L2 & _).
  exists w1, w2, (tasks_from env (S (reads w)) (plan_triples p1)),
    (tasks_from env (S (reads w1)) (plan_triples p2)).
  split; [exact H1|]. split; [exact H2|].
  pose proof (f_equal (fun y => pending_tasks (volunteer y)) L1) as T1.
  pose proof (f_equal (fun y => pending_tasks (volunteer y)) L2) as T2.
  pose proof (f_equal (fun y => resource_allocation_plan (relief y)) L1) as R1.
  pose proof (f_equal (fun y => resource_allocation_plan (relief y)) L2) as R2.
  cbn in T1, T2, R1, R2.
  split; [rewrite T2, T1, <- app_assoc; reflexivity|].
  split.
  - intros kind. rewrite R1, R2, !tasks_total_plan by assumption. split; reflexivity.
  - intros E kind. subst areas2. rewrite Ctx in A2.
    assert (E12 : p2 = p1) by congruence.
    rewrite tasks_total_app, R2, E12, !tasks_total_plan by assumption. lia.
Qed.

Lemma superseded_plan_tasks_stay_queued_witness :
  let m := need_assessment [area_A; area_B] in
  exists w1 w2 new1 new2,
    receive_message (sample_env 0) (publish_message (sample_env 0) 1) Relief m
      scenario_world = Done w1
    /\ receive_message (sample_env 0) (publish_message (sample_env 0) 1) Relief m w1
       = Done w2
    /\ pending_tasks (volunteer w2)
       = pending_tasks (volunteer scenario_world) ++ new1 ++ new2
    /\ (forall kind,
          tasks_total new1 kind = rows_total (resource_allocation_plan (relief w1)) kind
          /\ tasks_total new2 kind
             = rows_total (resource_allocation_plan (relief w2)) kind)
    /\ ([area_A; area_B] = [area_A; area_B] ->
        forall kind,
          tasks_total (new1 ++ new2) kind
          = 2 * rows_total (resource_allocation_plan (relief w2)) kind).
Proof.
  intros m.
  apply (superseded_plan_tasks_stay_queued (sample_env 0) 0 scenario_world m m
           [area_A; area_B] [area_A; area_B]).
  - reflexivity.
  - reflexivity.
  - repeat constructor.
  - repeat constructor.
  - split.
    + unfold Dict.wf. cbn. repeat constructor; cbn; intuition discriminate.
    + repeat constructor; cbn; lia.
  - reflexivity.
Defined.

(** ** From a weather reading to the emergency alerts *)

Lemma generate_prediction_weather_fields env w p w' :
  generate_prediction env "weather" w = Done (p, w') ->
  pred_type p = "weather_impact"%string
  /\ areas_affected p = ["Area A"; "Area B"]%string
  /\ recommended_actions p
     = ["Evacuate high-risk areas"; "Deploy additional rescue teams"]%string.
Proof.
  unfold generate_prediction. intros G.
  change (String.eqb "weather" "weather") with true in G. cbv iota in G.
  repeat match type of G with
         | obind (obind (lift ?x) _) _ = Done _ =>
             destruct x; cbn [lift obind] in G; [|discriminate G]
         end.
  injection G as <- _. repeat split.
Qed.

(** A weather reading with a wind speed above 50 whose window of recent
    samples has a risk level [r] of at least 7, in a system where the
    communication agent is subscribed under its name: the analytics agent
    sends one alert of type weather_impact with the text
    High risk detected: r/10, the areas Area A and Area B and the two
    recommended actions; the communication agent turns it into one
    emergency alert per located team and one for the volunteer
    coordinator, each delivered exactly when its addressee is subscribed;
    the fan-out is logged before the alert itself, and the handler
    returns. *)
Theorem high_wind_alert_is_broadcast (env : Env) (fuel : nat) (w : World)
    (m : Message) (data : dict Z) (r : Z) :
  content m = NewData "weather" data ->
  50 < field data "wind_speed" ->
  prediction_risk (with_sample env "weather" data (record_message Analytics m w))
  = Some r ->
  7 <= r ->
  Dict.get (subscribers w) "communication" = Some Communication ->
  let text := ("High risk detected: " ++ str_of_int r ++ "/10")%string in
  let areas := ["Area A"; "Area B"]%string in
  let actions := ["Evacuate high-risk areas"; "Deploy additional rescue teams"]%string in
  exists w' events alert,
    receive_message env (publish_message env (S (S fuel))) Analytics m w = Done w'
    /\ bus_log w' = bus_log w ++ events ++ [Delivered alert]
    /\ msg_to alert = "communication"%string
    /\ content alert = Alert "weather_impact" text areas actions
    /\ recipients events
       = map (fun team_id => ("rescue_team_" ++ team_id)%string)
             (Dict.keys (rescue_team_locations (communication w)))
         ++ ["volunteer_coordinator"]
    /\ Forall (fun e =>
                 content (event_message e)
                 = EmergencyAlert "weather_impact" text areas actions
                 /\ msg_from (event_message e) = comm_id (communication w)
                 /\ routed w e) events.
Proof.
  intros C Hw R H7 G. cbv zeta.
  unfold receive_message, process_message, analytics_process_message.
  rewrite C, process_new_data_unfold. cbv zeta.
  unfold detect_significant_change.
  change (String.eqb "weather" "weather") with true. cbn [andb].
  assert (E50 : (50 <? field data "wind_speed") = true) by (apply Z.ltb_lt; lia).
  rewrite E50.
  match goal with |- context [generate_prediction env "weather" ?v] =>
    set (w1 := v) end.
  pose proof (generate_prediction_weather env w1) as P.
  change (analytics w1)
    with (with_sample env "weather" data (record_message Analytics m w)) in P.
  rewrite R in P. destruct P as (p & w2 & P & Risk & _).
  destruct (generate_prediction_weather_fields env w1 p w2 P) as (Ty & Ar & Ac).
  pose proof (generate_prediction_stores env "weather" w1 p w2 P) as [E _].
  cbv zeta in E.
  rewrite P. cbn [obind]. rewrite Risk.
  assert (E7 : (7 <=? r) = true) by (apply Z.leb_le; lia).
  rewrite E7. unfold send_alert. rewrite Risk, Ty, Ar, Ac.
  assert (G2 : Dict.get (subscribers w2) "communication" = Some Communication).
  { rewrite E. exact G. }
  erewrite send_delivered by exact G2. cbv zeta.
  unfold receive_message, process_message, communication_process_message.
  cbn [content].
  match goal with |- context [broadcast_alert env _ ?t ?msg ?ar ?ac ?v] =>
    destruct (broadcast_alert_events env fuel t msg ar ac v)
      as (w3 & events & H3 & B3 & T3 & F3 & _) end.
  rewrite H3. cbn [obind].
  eexists. exists events. eexists. split; [reflexivity|].
  split.
  { cbn [bus_log log_event]. rewrite B3, E. cbn. now rewrite <- app_assoc. }
  split; [reflexivity|]. split; [reflexivity|].
  split.
  { rewrite T3, E. reflexivity. }
  eapply Forall_impl; [|exact F3]. cbv beta. intros e (Ce & Fe & Re).
  split; [exact Ce|]. rewrite E in Fe, Re. split; [exact Fe|exact Re].
Qed.

Lemma high_wind_alert_is_broadcast_witness :
  let m := mkMessage "communication" "analytics" 0
             (NewData "weather" [("wind_speed", 80); ("rainfall", 5)]) in
  let w := update_team_location "team_1" (float_literal 340522 10000,
                                          SFopp (float_literal 1182437 10000))
             initial_world in
  exists w' events alert,
    receive_message (sample_env 0) (publish_message (sample_env 0) 2) Analytics m w
    = Done w'
    /\ bus_log w' = bus_log w ++ events ++ [Delivered alert]
    /\ msg_to alert = "communication"%string
    /\ content alert
       = Alert "weather_impact" "High risk detected: 8/10" ["Area A"; "Area B"]
           ["Evacuate high-risk areas"; "Deploy additional rescue teams"]
    /\ recipients events = ["rescue_team_team_1"; "volunteer_coordinator"]%string
    /\ Forall (fun e =>
                 content (event_message e)
                 = EmergencyAlert "weather_impact" "High risk detected: 8/10"
                     ["Area A"; "Area B"]
                     ["Evacuate high-risk areas"; "Deploy additional rescue teams"]
                 /\ msg_from (event_message e) = comm_id (communication w)
                 /\ routed w e) events.
Proof.
  intros m w.
  apply (high_wind_alert_is_broadcast (sample_env 0) 0 w m
           [("wind_speed", 80); ("rainfall", 5)] 8).
  - reflexivity.
  - vm_compute. reflexivity.
  - vm_compute. reflexivity.
  - lia.
  - reflexivity.
Defined.

(** ** Binary64 rounding between representable bounds *)

Lemma dge_pos m e q : dge m e q -> 0 <= e -> q <= m * 2 ^ e.
Proof.
  intros (a & b & Ha & Hb & -> & H) He.
  replace a with ((a - b) + b) in H by lia.
  rewrite Z.pow_add_r, Z.mul_assoc in H by lia.
  apply Z.mul_le_mono_pos_r in H; [exact H|now apply pow2_pos].
Qed.

Lemma dge_neg m e q : dge m e q -> e <= 0 -> q * 2 ^ (- e) <= m.
Proof.
  intros (a & b & Ha & Hb & -> & H) He.
  replace b with (- (a - b) + a) in H by lia.
  rewrite Z.pow_add_r, Z.mul_assoc in H by lia.
  apply Z.mul_le_mono_pos_r in H; [exact H|now apply pow2_pos].
Qed.

Lemma dge_of_pos m e q : 0 <= e -> q <= m * 2 ^ e -> dge m e q.
Proof.
  intros He H. exists e, 0. repeat split; try lia.
  all: rewrite Z.mul_1_r; assumption.
Qed.

Lemma dge_of_neg m e q : e <= 0 -> q * 2 ^ (- e) <= m -> dge m e q.
Proof.
  intros He H. exists 0, (- e). repeat split; try lia.
  all: rewrite Z.mul_1_r; assumption.
Qed.

Lemma dge_mono m m' e q : m <= m' -> dge m e q -> dge m' e q.
Proof.
  intros Hm (a & b & Ha & Hb & E & H). exists a, b. repeat split; try lia.
  pose proof (pow2_pos a Ha). nia.
Qed.

Lemma dge_positive m e q : 0 < q -> dge m e q -> 0 < m.
Proof.
  intros Hq (a & b & Ha & Hb & _ & H).
  pose proof (pow2_pos a Ha). pose proof (pow2_pos b Hb). nia.
Qed.

Lemma digits2_upper (p : positive) : Zpos p < 2 ^ Zpos (digits2_pos p).
Proof.
  induction p as [p IH|p IH|]; cbn [digits2_pos].
  - rewrite Pos2Z.inj_succ, Z.pow_succ_r by lia. lia.
  - rewrite Pos2Z.inj_succ, Z.pow_succ_r by lia. lia.
  - cbn. lia.
Qed.

Lemma fexp_eq (x : Z) : fexp PyNum.prec PyNum.emax x = Z.max (x - 53) (-1074).
Proof. reflexivity. Qed.

(** Dropping low bits keeps the value above a representable bound. *)
Lemma trunc_at_least (M E Q : Z) (l : SpecFloat.location) :
  0 <= M -> 0 < Q < 2 ^ 53 -> dge M E Q ->
  let '(x, e') := shr_fexp PyNum.prec PyNum.emax M E l in
  dge (shr_m x) e' Q.
Proof.
  intros HM HQ Hge.
  pose proof (shr_fexp_spec M E l HM) as S. cbv zeta in S.
  destruct (shr_fexp PyNum.prec PyNum.emax M E l) as [x e'].
  destruct S as (_ & [(_ & -> & -> & _) | (Hn & -> & Ee & _)]); [exact Hge|].
  set (n := fexp PyNum.prec PyNum.emax (Zdigits2 M + E) - E) in *.
  assert (Pn : 0 < 2 ^ n) by (apply pow2_pos; lia).
  pose proof (dge_positive M E Q (proj1 HQ) Hge) as Mpos.
  destruct (Z.le_gt_cases e' 0) as [He|He].
  - apply dge_of_neg; [exact He|].
    assert (HE : E <= 0) by lia.
    pose proof (dge_neg _ _ _ Hge HE) as H.
    replace (- E) with (- e' + n) in H by lia.
    rewrite Z.pow_add_r, Z.mul_assoc in H by lia.
    apply Z.div_le_lower_bound; [exact Pn|]. lia.
  - destruct M as [|p|p]; [lia| |lia].
    cbn [Zdigits2] in n. pose proof (digits2_lower p) as D.
    set (d := Zpos (digits2_pos p)) in *.
    assert (Hf : fexp PyNum.prec PyNum.emax (d + E) = d + E - 53).
    { rewrite fexp_eq. unfold n in Ee. rewrite fexp_eq in Ee. lia. }
    assert (Nn : n = d - 53) by (unfold n; rewrite Hf; lia).
    assert (L : 2 ^ 52 <= Zpos p / 2 ^ n).
    { apply Z.div_le_lower_bound; [exact Pn|].
      rewrite <- Z.pow_add_r by lia. replace (n + 52) with (d - 1) by lia. exact D. }
    apply dge_of_pos; [lia|].
    assert (2 <= 2 ^ e').
    { change 2 with (2 ^ 1) at 1. apply Z.pow_le_mono_r; lia. }
    change (2 ^ 53) with (2 ^ 52 * 2) in HQ. nia.
Qed.

(** Rounding stays above a representable bound. *)
Lemma round_at_least (M E Q : Z) (l : SpecFloat.location) :
  0 <= M -> 0 < Q < 2 ^ 53 -> dge M E Q ->
  at_least (binary_round_aux PyNum.prec PyNum.emax false M E l) Q.
Proof.
  intros HM HQ Hge. unfold binary_round_aux.
  pose proof (trunc_at_least M E Q l HM HQ Hge) as T1.
  pose proof (shr_fexp_spec M E l HM) as S1. cbv zeta in S1.
  destruct (shr_fexp PyNum.prec PyNum.emax M E l) as [x1 e1].
  destruct S1 as (P1 & _).
  destruct (round_nearest_even_bounds (shr_m x1) (loc_of_shr_record x1)) as (B2 & _).
  set (m2 := round_nearest_even (shr_m x1) (loc_of_shr_record x1)) in *.
  assert (P2 : 0 <= m2) by lia.
  assert (D2 : dge m2 e1 Q) by (apply (dge_mono (shr_m x1)); [lia|exact T1]).
  pose proof (trunc_at_least m2 e1 Q loc_Exact P2 HQ D2) as T2.
  destruct (shr_fexp PyNum.prec PyNum.emax m2 e1 loc_Exact) as [x2 e2].
  pose proof (dge_positive (shr_m x2) e2 Q (proj1 HQ) T2) as Pos.
  destruct (shr_m x2) as [|m|m]; [lia| |lia].
  destruct (e2 <=? PyNum.emax - PyNum.prec); [exact T2|exact I].
Qed.

Lemma fexp_scaled (j M E Q : Z) :
  0 <= j <= 1000 -> 0 <= M -> 0 < Q < 2 ^ 53 -> dle M (E + j) Q ->
  (M = 0 -> E + j <= 0) ->
  fexp PyNum.prec PyNum.emax (Zdigits2 M + E) + j <= 0.
Proof.
  intros Hj HM HQ Hle H0.
  pose proof (fexp_not_positive M (E + j) Q HM HQ Hle H0) as F.
  rewrite fexp_eq in *. lia.
Qed.

(** Rounding never exceeds a representable bound, also one that is a
    multiple of a negative power of two. *)
Lemma round_at_most_scaled (j M E Q : Z) (l : SpecFloat.location) :
  0 <= j <= 1000 -> 0 <= M -> 0 < Q < 2 ^ 53 ->
  dle M (E + j) Q -> (l <> loc_Exact -> dlt M (E + j) Q) ->
  (l = loc_Exact \/ E + j <= 0) ->
  at_most_scaled j (binary_round_aux PyNum.prec PyNum.emax false M E l) Q.
Proof.
  intros Hj HM HQ Hle Hlt Hex. unfold binary_round_aux.
  pose proof (shr_fexp_spec M E l HM) as S1. cbv zeta in S1.
  destruct (shr_fexp PyNum.prec PyNum.emax M E l) as [x1 e1].
  destruct S1 as (P1 & S1).
  destruct (round_nearest_even_bounds (shr_m x1) (loc_of_shr_record x1)) as (B2 & X2).
  set (m2 := round_nearest_even (shr_m x1) (loc_of_shr_record x1)) in *.
  assert (D2 : dle m2 (e1 + j) Q).
  { destruct S1 as [(Hn & Mx & Ee & Ll) | (Hn & Mx & Ee & Lx)].
    - rewrite Ll in X2. rewrite Mx in B2, X2. subst e1.
      destruct l as [|c].
      + rewrite X2 by reflexivity. exact Hle.
      + destruct Hex as [Hex|Hex]; [discriminate|].
        assert (Hs : dlt M (E + j) Q) by (apply Hlt; discriminate).
        apply dlt_neg in Hs; [|exact Hex].
        apply dle_of_neg; [exact Hex|lia].
    - set (n := fexp PyNum.prec PyNum.emax (Zdigits2 M + E) - E) in *.
      assert (Pn : 0 < 2 ^ n) by (apply pow2_pos; lia).
      destruct (Z.eq_dec (M mod 2 ^ n) 0) as [Hmod|Hmod].
      + destruct l as [|c].
        * rewrite (Lx eq_refl Hmod) in X2. rewrite X2 by reflexivity.
          rewrite Mx, Ee. replace (E + n + j) with (E + j + n) by lia.
          apply dle_shift; [lia|exact HM|exact Hle].
        * destruct Hex as [Hex|Hex]; [discriminate|].
          assert (He1 : e1 + j <= 0).
          { rewrite Ee. unfold n. ring_simplify.
            apply (fexp_scaled j M E Q); auto. }
          assert (Hs : dlt M (E + j) Q) by (apply Hlt; discriminate).
          apply dlt_neg in Hs; [|exact Hex].
          replace (- (E + j)) with (- (e1 + j) + n) in Hs by lia.
          rewrite Z.pow_add_r in Hs by lia.
          pose proof (Z.mul_div_le M (2 ^ n) Pn) as Hd. rewrite <- Mx in Hd.
          assert (0 < 2 ^ (- (e1 + j))) by (apply pow2_pos; lia).
          apply dle_of_neg; [exact He1|]. nia.
      + assert (HM0 : M <> 0) by (intros ->; apply Hmod; apply Z.mod_0_l; lia).
        assert (He1 : e1 + j <= 0).
        { rewrite Ee. unfold n. ring_simplify.
          apply (fexp_scaled j M E Q); auto. intros; contradiction. }
        assert (HE : E + j <= 0) by lia.
        pose proof (dle_neg _ _ _ Hle HE) as Hs.
        replace (- (E + j)) with (- (e1 + j) + n) in Hs by lia.
        rewrite Z.pow_add_r in Hs by lia.
        pose proof (Z.div_mod M (2 ^ n) ltac:(lia)) as Hdm.
        pose proof (Z.mod_pos_bound M (2 ^ n) Pn) as Hb.
        rewrite <- Mx in Hdm.
        assert (0 < 2 ^ (- (e1 + j))) by (apply pow2_pos; lia).
        apply dle_of_neg; [exact He1|]. nia. }
  assert (P2 : 0 <= m2) by lia.
  pose proof (shr_fexp_spec m2 e1 loc_Exact P2) as S2. cbv zeta in S2.
  destruct (shr_fexp PyNum.prec PyNum.emax m2 e1 loc_Exact) as [x2 e2].
  destruct S2 as (P3 & S2).
  assert (D3 : dle (shr_m x2) (e2 + j) Q).
  { destruct S2 as [(_ & -> & -> & _) | (Hn & -> & -> & _)]; [exact D2|].
    match goal with |- dle _ (?a + ?n + j) _ =>
      replace (a + n + j) with (a + j + n) by lia end.
    apply dle_shift; [lia|exact P2|exact D2]. }
  destruct (shr_m x2) as [|m|m]; [exact I| |lia].
  destruct (Z.leb_spec e2 (PyNum.emax - PyNum.prec)) as [He|He]; [exact D3|].
  exfalso. unfold PyNum.emax, PyNum.prec in He.
  apply dle_pos in D3; [|lia].
  assert (2 ^ 53 <= 2 ^ (e2 + j)) by (apply Z.pow_le_mono_r; lia).
  nia.
Qed.

(** *** Division of two positive floats *)

Lemma SFdiv_core_spec (m1 m2 : positive) (e1 e2 : Z) :
  exists q e' r,
    SFdiv_core_binary PyNum.prec PyNum.emax (Zpos m1) e1 (Zpos m2) e2
    = (q, e', new_location (Zpos m2) r)
    /\ e' = Z.min (fexp PyNum.prec PyNum.emax
                     (Zdigits2 (Zpos m1) + e1 - (Zdigits2 (Zpos m2) + e2))) (e1 - e2)
    /\ 0 <= r < Zpos m2
    /\ Zpos m1 * 2 ^ (e1 - e2 - e') = q * Zpos m2 + r
    /\ 0 <= q.
Proof.
  unfold SFdiv_core_binary.
  set (e' := Z.min (fexp PyNum.prec PyNum.emax
                      (Zdigits2 (Zpos m1) + e1 - (Zdigits2 (Zpos m2) + e2))) (e1 - e2)).
  assert (He : 0 <= e1 - e2 - e') by (unfold e'; lia).
  set (m' := match e1 - e2 - e' with
             | Zpos _ => Z.shiftl (Zpos m1) (e1 - e2 - e')
             | Z0 => Zpos m1
             | Zneg _ => Z0
             end).
  assert (Hm : m' = Zpos m1 * 2 ^ (e1 - e2 - e')).
  { unfold m'. destruct (e1 - e2 - e') as [|s|s] eqn:Es; [cbn; lia| |lia].
    now rewrite Z.shiftl_mul_pow2 by lia. }
  clearbody m'.
  pose proof (Z.div_eucl_eq m' (Zpos m2) ltac:(lia)) as Hd.
  pose proof (Z.mod_pos_bound m' (Zpos m2) ltac:(lia)) as Hr.
  unfold Z.modulo in Hr.
  destruct (Z.div_eucl m' (Zpos m2)) as [q r].
  exists q, e', r. split; [reflexivity|]. split; [reflexivity|].
  split; [exact Hr|]. split; [lia|].
  assert (0 < 2 ^ (e1 - e2 - e')) by (apply pow2_pos; lia). nia.
Qed.

Lemma SFdiv_exponent (j U : Z) (m1 m2 : positive) (e1 e2 : Z) :
  0 <= j <= 1000 -> 0 < U < 2 ^ 53 ->
  dle (Zpos m1) (e1 - e2 + j) (U * Zpos m2) ->
  Z.min (fexp PyNum.prec PyNum.emax
           (Zdigits2 (Zpos m1) + e1 - (Zdigits2 (Zpos m2) + e2))) (e1 - e2) + j <= 0.
Proof.
  intros Hj HU (a & b & Ha & Hb & E & H).
  rewrite fexp_eq. cbn [Zdigits2].
  pose proof (digits2_lower m1) as L1. pose proof (digits2_upper m2) as U2.
  set (d1 := Zpos (digits2_pos m1)) in *. set (d2 := Zpos (digits2_pos m2)) in *.
  assert (Hd1 : 1 <= d1) by (unfold d1; lia).
  assert (Hd2 : 1 <= d2) by (unfold d2; lia).
  assert (P : 2 ^ (d1 - 1 + a) < 2 ^ (53 + d2 + b)).
  { rewrite !Z.pow_add_r by lia.
    pose proof (pow2_pos a Ha). pose proof (pow2_pos b Hb).
    pose proof (pow2_pos (d1 - 1) ltac:(lia)). pose proof (pow2_pos d2 ltac:(lia)).
    assert (2 ^ (d1 - 1) * 2 ^ a <= U * Zpos m2 * 2 ^ b) by nia.
    assert (U * Zpos m2 < 2 ^ 53 * 2 ^ d2) by nia.
    nia. }
  apply Z.pow_lt_mono_r_iff in P; lia.
Qed.

(** The quotient of two positive floats, rounded, stays within
    representable bounds of the exact quotient. *)
Lemma SFdiv_at_most_scaled (j U : Z) (m1 m2 : positive) (e1 e2 : Z) :
  0 <= j <= 1000 -> 0 < U < 2 ^ 53 ->
  dle (Zpos m1) (e1 - e2 + j) (U * Zpos m2) ->
  at_most_scaled j
    (SFdiv PyNum.prec PyNum.emax (S754_finite false m1 e1) (S754_finite false m2 e2)) U.
Proof.
  intros Hj HU Hle. cbn [SFdiv xorb].
  destruct (SFdiv_core_spec m1 m2 e1 e2) as (q & e' & r & -> & Ee & Hr & Hd & Hq).
  pose proof (SFdiv_exponent j U m1 m2 e1 e2 Hj HU Hle) as He.
  rewrite <- Ee in He.
  assert (Hs : 0 <= e1 - e2 - e') by (rewrite Ee; lia).
  set (s := e1 - e2 - e') in *.
  pose proof (pow2_pos s Hs) as Ps.
  destruct Hle as (a & b & Ha & Hb & E & H).
  pose proof (pow2_pos a Ha) as Pa. pose proof (pow2_pos b Hb) as Pb.
  assert (Pe : 0 < 2 ^ (- (e' + j))) by (apply pow2_pos; lia).
  assert (Ex : 2 ^ s * 2 ^ b = 2 ^ a * 2 ^ (- (e' + j))).
  { rewrite <- !Z.pow_add_r by lia. f_equal. unfold s. lia. }
  assert (K : Zpos m1 * 2 ^ s <= U * 2 ^ (- (e' + j)) * Zpos m2).
  { apply (Z.mul_le_mono_pos_r _ _ (2 ^ b)); [exact Pb|]. nia. }
  apply round_at_most_scaled; [exact Hj|exact Hq|exact HU| | |right; exact He].
  - apply dle_of_neg; [exact He|]. nia.
  - intros Hl. apply new_location_inexact in Hl.
    exists 0, (- (e' + j)). split; [lia|]. split; [lia|]. split; [lia|].
    rewrite Z.pow_0_r. nia.
Qed.

Lemma SFdiv_at_least (L U : Z) (m1 m2 : positive) (e1 e2 : Z) :
  0 < L < 2 ^ 53 -> 0 < U < 2 ^ 53 ->
  dge (Zpos m1) (e1 - e2) (L * Zpos m2) ->
  dle (Zpos m1) (e1 - e2 + 0) (U * Zpos m2) ->
  at_least
    (SFdiv PyNum.prec PyNum.emax (S754_finite false m1 e1) (S754_finite false m2 e2)) L.
Proof.
  intros HL HU Hge Hle. cbn [SFdiv xorb].
  destruct (SFdiv_core_spec m1 m2 e1 e2) as (q & e' & r & -> & Ee & Hr & Hd & Hq).
  pose proof (SFdiv_exponent 0 U m1 m2 e1 e2 ltac:(lia) HU Hle) as He.
  rewrite <- Ee in He.
  assert (Hs : 0 <= e1 - e2 - e') by (rewrite Ee; lia).
  set (s := e1 - e2 - e') in *.
  pose proof (pow2_pos s Hs) as Ps.
  apply round_at_least; [exact Hq|exact HL|].
  apply dge_of_neg; [lia|].
  destruct Hge as (a & b & Ha & Hb & E & H).
  pose proof (pow2_pos a Ha) as Pa. pose proof (pow2_pos b Hb) as Pb.
  assert (Pe : 0 < 2 ^ (- e')) by (apply pow2_pos; lia).
  assert (Ex : 2 ^ s * 2 ^ b = 2 ^ a * 2 ^ (- e')).
  { rewrite <- !Z.pow_add_r by lia. f_equal. unfold s. lia. }
  assert (K : L * 2 ^ (- e') * Zpos m2 <= Zpos m1 * 2 ^ s).
  { apply (Z.mul_le_mono_pos_r _ _ (2 ^ b)); [exact Pb|]. nia. }
  nia.
Qed.

(** *** The risk level in integers *)

Lemma at_most_scaled_weaken (j : Z) (f : PyNum.float) (U : Z) :
  0 <= j -> at_most_scaled j f U -> at_most_scaled 0 f U.
Proof.
  intros Hj. destruct f as [[]|[]| |[] m e]; cbn [at_most_scaled]; try tauto.
  intros (a & b & Ha & Hb & E & H). exists a, (b + j).
  split; [lia|]. split; [lia|]. split; [lia|].
  rewrite Z.pow_add_r by lia.
  pose proof (pow2_pos b Hb). pose proof (pow2_pos a Ha).
  assert (1 <= 2 ^ j) by (pose proof (pow2_pos j Hj); lia).
  assert (0 <= U) by nia. nia.
Qed.

(** [total / n] for a positive total and window. *)
Lemma int_truediv_between (j L U total n : Z) :
  0 < total -> 0 < n -> 0 <= j <= 1000 -> 0 < U < 2 ^ 53 ->
  total * 2 ^ j <= U * n ->
  exists f,
    PyNum.int_truediv total n = Some f
    /\ at_most_scaled j f U
    /\ (0 < L < 2 ^ 53 -> L * n <= total -> at_least f L).
Proof.
  intros Ht Hn Hj HU Hle.
  destruct total as [|p|p]; [lia| |lia]. destruct n as [|q|q]; [lia| |lia].
  unfold PyNum.int_truediv.
  assert (A : at_most_scaled j
                (SFdiv PyNum.prec PyNum.emax (S754_finite false p 0)
                   (S754_finite false q 0)) U).
  { apply SFdiv_at_most_scaled; [exact Hj|exact HU|].
    apply dle_of_pos; [lia|]. replace (0 - 0 + j) with j by lia. exact Hle. }
  assert (B : 0 < L < 2 ^ 53 -> L * Zpos q <= Zpos p ->
              at_least (SFdiv PyNum.prec PyNum.emax (S754_finite false p 0)
                          (S754_finite false q 0)) L).
  { intros HL Hge.
    apply (at_most_scaled_weaken j) in A; [|lia].
    assert (Hle0 : Zpos p * 2 ^ 0 <= U * Zpos q).
    { pose proof (pow2_pos j ltac:(lia)). rewrite Z.pow_0_r. nia. }
    apply (SFdiv_at_least L U); [exact HL|exact HU| |].
    - apply dge_of_pos; [lia|]. change (0 - 0) with 0. rewrite Z.pow_0_r. lia.
    - apply dle_of_pos; [lia|]. exact Hle0. }
  destruct (SFdiv _ _ _ _) as [[]|[]| |[] m e];
    cbn [at_most_scaled] in A; try contradiction;
    eexists; (split; [reflexivity|]); (split; [exact A|exact B]).
Qed.

(** [x / 10] for a float [x] that is not negative. *)
Lemma div_ten_between (j1 j2 L U1 U2 : Z) (x : PyNum.float) :
  0 <= j1 <= j2 -> j2 <= 1000 -> 0 < U1 -> 0 < U2 < 2 ^ 53 ->
  U1 * 2 ^ (j2 - j1) <= 10 * U2 ->
  at_most_scaled j1 x U1 ->
  let y := SFdiv PyNum.prec PyNum.emax x (S754_finite false 5629499534213120 (-49)) in
  at_most_scaled j2 y U2
  /\ (0 < L < 2 ^ 53 -> at_least x (10 * L) -> at_least y L).
Proof.
  intros Hj1 Hj2 HU1 HU2 HU Hx. cbv zeta.
  destruct x as [[]|[]| |[] m e]; cbn [at_most_scaled] in Hx; try contradiction.
  - cbn. split; [exact I|]. intros _ [].
  - assert (A : dle (Zpos m) (e - -49 + j2) (U2 * 5629499534213120)).
    { destruct Hx as (a & b & Ha & Hb & E & H).
      exists (a + 49 + (j2 - j1)), b.
      split; [lia|]. split; [lia|]. split; [lia|].
      rewrite !Z.pow_add_r by lia.
      pose proof (pow2_pos a Ha). pose proof (pow2_pos b Hb).
      pose proof (pow2_pos (j2 - j1) ltac:(lia)).
      change 5629499534213120 with (10 * 2 ^ 49).
      assert (Zpos m * 2 ^ a * 2 ^ (j2 - j1) <= U1 * 2 ^ (j2 - j1) * 2 ^ b) by nia.
      nia. }
    split.
    + apply SFdiv_at_most_scaled; [lia|exact HU2|exact A].
    + intros HL Hge. cbn [at_least] in Hge.
      apply (SFdiv_at_least L U2); [exact HL|exact HU2| |].
      * destruct Hge as (a & b & Ha & Hb & E & H).
        exists (a + 49), b. split; [lia|]. split; [lia|]. split; [lia|].
        rewrite Z.pow_add_r by lia.
        pose proof (pow2_pos a Ha). pose proof (pow2_pos b Hb).
        change 5629499534213120 with (10 * 2 ^ 49). nia.
      * destruct A as (a & b & Ha & Hb & E & H).
        exists a, (b + j2). split; [lia|]. split; [lia|]. split; [lia|].
        rewrite Z.pow_add_r by lia.
        pose proof (pow2_pos a Ha). pose proof (pow2_pos b Hb).
        assert (1 <= 2 ^ j2) by (pose proof (pow2_pos j2 ltac:(lia)); lia).
        nia.
Qed.

(** [int(y)] for a float [y] that is not negative. *)
Lemma int_of_float_between (j L U : Z) (y : PyNum.float) :
  0 <= j -> at_most_scaled j y U ->
  exists r,
    PyNum.int_of_float y = Some r
    /\ 0 <= r /\ r * 2 ^ j <= Z.max U 0
    /\ (at_least y L -> L <= r).
Proof.
  intros Hj Hy. pose proof (pow2_pos j Hj) as Pj.
  destruct y as [[]|[]| |[] m e]; cbn [at_most_scaled] in Hy; try contradiction.
  - exists 0. split; [reflexivity|]. split; [lia|]. split; [lia|]. intros [].
  - cbn [PyNum.int_of_float at_least]. eexists. split; [reflexivity|].
    destruct e as [|p|p].
    + rewrite Z.shiftl_0_r. apply dle_pos in Hy; [|lia].
      replace (0 + j) with j in Hy by lia.
      split; [lia|]. split; [lia|].
      intros G. apply dge_pos in G; [|lia]. rewrite Z.pow_0_r in G. lia.
    + rewrite Z.shiftl_mul_pow2 by lia.
      pose proof (pow2_pos (Zpos p) ltac:(lia)) as Pp.
      apply dle_pos in Hy; [|lia]. rewrite Z.pow_add_r in Hy by lia.
      split; [nia|]. split; [nia|].
      intros G. apply dge_pos in G; [|lia]. exact G.
    + rewrite Z.shiftr_div_pow2 by lia.
      pose proof (pow2_pos (Zpos p) ltac:(lia)) as Pp.
      pose proof (Z.mul_div_le (Zpos m) (2 ^ Zpos p) Pp) as D.
      split; [apply Z.div_pos; lia|]. split.
      * destruct (Z.le_gt_cases 0 (Zneg p + j)) as [C|C].
        -- apply dle_pos in Hy; [|exact C].
           assert (Ex : 2 ^ j = 2 ^ Zpos p * 2 ^ (Zneg p + j)).
           { rewrite <- Z.pow_add_r by lia. f_equal. lia. }
           pose proof (pow2_pos (Zneg p + j) C). rewrite Ex. nia.
        -- apply dle_neg in Hy; [|lia].
           assert (Ex : 2 ^ Zpos p = 2 ^ j * 2 ^ (- (Zneg p + j))).
           { rewrite <- Z.pow_add_r by lia. f_equal. lia. }
           pose proof (pow2_pos (- (Zneg p + j)) ltac:(lia)).
           rewrite Ex in D.
           assert (0 <= U) by nia.
           assert (Zpos m / (2 ^ j * 2 ^ (- (Zneg p + j)))
                   * 2 ^ j * 2 ^ (- (Zneg p + j))
                   <= U * 2 ^ (- (Zneg p + j))) by nia.
           rewrite Ex. nia.
      * intros G. apply dge_neg in G; [|lia].
        change (- Zneg p) with (Zpos p) in G.
        apply Z.div_le_lower_bound; [exact Pp|]. lia.
Qed.

(** The float arithmetic of the risk level is exact on integer readings:
    for a total below 2^53 over a window of at most eight samples,
    [min(10, int((total / n) / 10))] is the integer
    [min(10, total // (10 * n))]. *)
Lemma scaled_average_exact (total n : Z) :
  0 <= total < 2 ^ 53 -> 1 <= n <= 8 ->
  exists avg,
    PyNum.int_truediv total n = Some avg
    /\ scaled_risk avg = Some (Z.min 10 (total / (10 * n))).
Proof.
  intros Ht Hn. unfold scaled_risk.
  change (PyNum.float_of_int 10)
    with (Some (S754_finite false 5629499534213120 (-49))).
  cbn [bind].
  destruct (Z.eq_dec total 0) as [->|T0].
  - destruct n as [|q|q]; try lia. eexists. split; [reflexivity|]. reflexivity.
  - set (k := total / (10 * n)).
    assert (K1 : 10 * n * k <= total) by (apply Z.mul_div_le; lia).
    assert (K2 : total < 10 * n * (k + 1)).
    { pose proof (Z.mul_succ_div_gt total (10 * n) ltac:(lia)). unfold k. lia. }
    assert (K0 : 0 <= k) by (apply Z.div_pos; lia).
    destruct (Z.le_gt_cases 10 k) as [Hk|Hk].
    + assert (C0 : total * 2 ^ 0 <= total * n) by (rewrite Z.pow_0_r; nia).
      destruct (int_truediv_between 0 100 total total n ltac:(lia) ltac:(lia)
                  ltac:(lia) ltac:(lia) C0) as (avg & A & Ua & La).
      exists avg. split; [exact A|].
      assert (C1 : total * 2 ^ (0 - 0) <= 10 * total)
        by (rewrite Z.sub_diag, Z.pow_0_r; lia).
      destruct (div_ten_between 0 0 10 total total avg ltac:(lia) ltac:(lia)
                  ltac:(lia) ltac:(lia) C1 Ua) as (Uy & Ly).
      destruct (int_of_float_between 0 10 total _ ltac:(lia) Uy) as (r & -> & R0 & _ & Rl).
      cbn [bind]. f_equal.
      assert (10 <= r).
      { apply Rl, Ly; [lia|]. apply La; [lia|nia]. }
      lia.
    + assert (C0 : total * 2 ^ 3 <= (80 * (k + 1) - 1) * n)
        by (change (2 ^ 3) with 8; nia).
      destruct (int_truediv_between 3 (10 * k) (80 * (k + 1) - 1) total n ltac:(lia)
                  ltac:(lia) ltac:(lia) ltac:(lia) C0) as (avg & A & Ua & La).
      exists avg. split; [exact A|].
      assert (C1 : (80 * (k + 1) - 1) * 2 ^ (7 - 3) <= 10 * (128 * (k + 1) - 1))
        by (change (2 ^ (7 - 3)) with 16; lia).
      destruct (div_ten_between 3 7 k (80 * (k + 1) - 1) (128 * (k + 1) - 1) avg
                  ltac:(lia) ltac:(lia) ltac:(lia) ltac:(lia) C1 Ua) as (Uy & Ly).
      destruct (int_of_float_between 7 k (128 * (k + 1) - 1) _ ltac:(lia) Uy)
        as (r & -> & R0 & Ru & Rl).
      cbn [bind]. f_equal. change (2 ^ 7) with 128 in Ru.
      assert (r <= k) by lia.
      assert (k <= r).
      { destruct (Z.eq_dec k 0) as [->|Kp]; [lia|].
        apply Rl, Ly; [lia|]. apply La; [lia|nia]. }
      lia.
Qed.

Lemma get_recent_data_length (a : AnalyticsPredictionAgent) (source : string)
    (count : nat) :
  (List.length (get_recent_data a source count) <= count)%nat.
Proof.
  unfold get_recent_data.
  destruct (Dict.get (data_sources a) source) as [[|s l]|]; cbn [List.length]; try lia.
  rewrite length_firstn. lia.
Qed.

(** The risk level of a weather prediction, in integers.  When the wind
    speeds of the window of up to five most recent samples sum to a
    total from 0 up to, but not including, 2^53, and so do the rainfall
    readings, [generate_prediction] returns and the risk level is
    min(10, total // (10 * n)) for the window size n (1 when no sample
    is held): the two float divisions and the truncation never change
    it.  So the level reaches the alert threshold of 7 exactly when the
    average wind speed is at least 70. *)
Theorem weather_risk_level_is_exact (env : Env) (w : World) :
  let a := analytics w in
  0 <= wind_total a < 2 ^ 53 ->
  0 <= rain_total a < 2 ^ 53 ->
  exists p w',
    generate_prediction env "weather" w = Done (p, w')
    /\ risk_level p = Z.min 10 (wind_total a / (10 * window_size a))
    /\ (7 <= risk_level p <-> 70 * window_size a <= wind_total a).
Proof.
  intros a Hw Hr.
  pose proof (get_recent_data_length a "weather" 5) as Len.
  assert (Hn : 1 <= window_size a <= 8) by (unfold window_size; lia).
  destruct (scaled_average_exact (wind_total a) (window_size a) Hw Hn)
    as (avg & A & S).
  destruct (scaled_average_exact (rain_total a) (window_size a) Hr Hn)
    as (avr & B & _).
  pose proof (generate_prediction_weather env w) as G.
  assert (R : prediction_risk (analytics w)
              = Some (Z.min 10 (wind_total a / (10 * window_size a)))).
  { unfold prediction_risk, average. fold a.
    fold (wind_total a). fold (rain_total a). fold (window_size a).
    rewrite A, B. cbn [bind]. exact S. }
  rewrite R in G. destruct G as (p & w' & G & Risk & _).
  exists p, w'. split; [exact G|]. split; [exact Risk|].
  rewrite Risk.
  set (n := window_size a) in *. set (t := wind_total a) in *.
  pose proof (Z.mul_div_le t (10 * n) ltac:(lia)).
  pose proof (Z.mul_succ_div_gt t (10 * n) ltac:(lia)).
  split; intros H7; [nia|].
  assert (7 <= t / (10 * n)) by (apply Z.div_le_lower_bound; lia).
  lia.
Qed.

Lemma weather_risk_level_is_exact_witness :
  let w := set_analytics initial_world
             (mkAnalytics "analytics" []
                [("weather", [mkSample 0 [("wind_speed", 80); ("rainfall", 5)];
                              mkSample 1 [("wind_speed", 65); ("rainfall", 0)]])]
                []) in
  exists p w',
    generate_prediction (sample_env 0) "weather" w = Done (p, w')
    /\ risk_level p = Z.min 10 (wind_total (analytics w) / (10 * window_size (analytics w)))
    /\ (7 <= risk_level p <-> 70 * window_size (analytics w) <= wind_total (analytics w)).
Proof.
  intros w. apply (weather_risk_level_is_exact (sample_env 0) w).
  - vm_compute. split; [discriminate|reflexivity].
  - vm_compute. split; [discriminate|reflexivity].
Defined.

(** ** Looking volunteers up by skill *)

Lemma repeat_count_occ_NoDup (id s : string) (l : list string) :
  NoDup l ->
  repeat id (count_occ string_dec l s)
  = if existsb (String.eqb s) l then [id] else [].
Proof.
  induction 1 as [|x l Hx ND IH]; [reflexivity|].
  cbn [count_occ existsb]. destruct (string_dec x s) as [->|N].
  - rewrite String.eqb_refl. cbn [orb].
    rewrite (proj1 (count_occ_not_In string_dec l s) Hx). reflexivity.
  - assert (E : String.eqb s x = false) by (apply String.eqb_neq; congruence).
    rewrite E. cbn [orb]. exact IH.
Qed.

Lemma register_all_ids (vols : list Volunteer) : forall v s,
  ids_with_skill (skills_registry (register_all vols v)) s
  = ids_with_skill (skills_registry v) s
    ++ flat_map (fun vol => repeat (vol_id vol) (count_occ string_dec (skills vol) s))
         vols.
Proof.
  unfold register_all.
  induction vols as [|vol vols IH]; intros v s; cbn [fold_left flat_map].
  - now rewrite app_nil_r.
  - rewrite IH, register_volunteer_agent_ids, <- app_assoc. reflexivity.
Qed.

(** Looking volunteers up by skill is exact when no volunteer declares a
    skill twice: after registrations into an empty index, the list of a
    skill holds the ids of exactly the volunteers registered with that
    skill, in the order of registration, one entry per registration. *)
Theorem skill_index_lists_the_skilled (vols : list Volunteer) (skill : string) :
  Forall (fun vol => NoDup (skills vol)) vols ->
  ids_with_skill (skills_registry (register_all vols empty_volunteer_agent)) skill
  = map vol_id (with_skill skill vols).
Proof.
  intros H. rewrite register_all_ids. cbn [empty_volunteer_agent skills_registry app].
  change (ids_with_skill [] skill) with (@nil string). cbn [app].
  unfold with_skill.
  induction H as [|vol vols Hv _ IH]; [reflexivity|].
  cbn [flat_map filter]. rewrite IH, (repeat_count_occ_NoDup _ _ _ Hv).
  destruct (existsb (String.eqb skill) (skills vol)); reflexivity.
Qed.

Lemma skill_index_lists_the_skilled_witness :
  ids_with_skill
    (skills_registry
       (register_all
          [mkVolunteer "vol_1" "Volunteer 1" ["medical"; "rescue"] "Base Camp" true;
           mkVolunteer "vol_2" "Volunteer 2" ["rescue"] "Base Camp" true]
          empty_volunteer_agent)) "rescue"
  = map vol_id
      (with_skill "rescue"
         [mkVolunteer "vol_1" "Volunteer 1" ["medical"; "rescue"] "Base Camp" true;
          mkVolunteer "vol_2" "Volunteer 2" ["rescue"] "Base Camp" true]).
Proof.
  apply skill_index_lists_the_skilled.
  repeat constructor; cbn; intuition discriminate.
Defined.

(** ** The alert threshold *)








(** ** Two runs on the same inputs *)

Lemma same_outcome_bind {A B} (R : A -> A -> Prop) (Q : B -> B -> Prop)
    (o1 o2 : Outcome A) (f1 f2 : A -> Outcome B) :
  same_outcome R o1 o2 ->
  (forall a1 a2, R a1 a2 -> same_outcome Q (f1 a1) (f2 a2)) ->
  same_outcome Q (obind o1 f1) (obind o2 f2).
Proof.
  intros H F. destruct o1, o2; cbn in *; try contradiction; auto.
Qed.

Lemma Forall2_firstn {A B} (R : A -> B -> Prop) (n : nat) : forall l1 l2,
  Forall2 R l1 l2 -> Forall2 R (firstn n l1) (firstn n l2).
Proof.
  induction n as [|n IH]; intros l1 l2 H; [constructor|].
  destruct H; cbn [firstn]; constructor; auto.
Qed.

Section SameRuns.
Variables env1 env2 : Env.
Variable stamps : Z -> Z -> Prop.
Variable view : Task -> Task.

Hypothesis view_clock : forall area resource_type quantity k,
  view (distribution_task area resource_type quantity (time_s env1 k))
  = view (distribution_task area resource_type quantity (time_s env2 k)).
Hypothesis draws : forall k, rand env1 k = rand env2 k.
Hypothesis clock_stamps : forall k, stamps (now_us env1 k) (now_us env2 k).
Hypothesis order : forall a1 a2 b1 b2,
  stamps a1 a2 -> stamps b1 b2 -> (a1 <? b1) = (a2 <? b2).

Local Abbreviation same := (same_run stamps view).

Lemma tasks_from_view l : forall k,
  map view (tasks_from env1 k l) = map view (tasks_from env2 k l).
Proof.
  induction l as [|[[a r] q] l IH]; intros k; cbn [tasks_from map].
  - reflexivity.
  - now rewrite view_clock, IH.
Qed.

(** *** Samples *)

Lemma insert_desc_same x1 x2 l1 l2 :
  same_sample stamps x1 x2 -> Forall2 (same_sample stamps) l1 l2 ->
  Forall2 (same_sample stamps)
    (insert_desc sample_timestamp x1 l1) (insert_desc sample_timestamp x2 l2).
Proof.
  intros X H. induction H as [|y1 y2 l1 l2 Y H IH]; cbn [insert_desc].
  - constructor; [exact X|constructor].
  - rewrite (order _ _ _ _ (proj1 X) (proj1 Y)).
    destruct (sample_timestamp x2 <? sample_timestamp y2).
    + constructor; assumption.
    + constructor; [exact X|]. constructor; assumption.
Qed.

Lemma sorted_desc_same l1 l2 :
  Forall2 (same_sample stamps) l1 l2 ->
  Forall2 (same_sample stamps)
    (sorted_desc sample_timestamp l1) (sorted_desc sample_timestamp l2).
Proof.
  induction 1 as [|x1 x2 l1 l2 X H IH]; cbn [sorted_desc]; [constructor|].
  now apply insert_desc_same.
Qed.

Lemma get_same d1 d2 k :
  Forall2 (same_source stamps) d1 d2 ->
  match Dict.get d1 k, Dict.get d2 k with
  | Some l1, Some l2 => Forall2 (same_sample stamps) l1 l2
  | None, None => True
  | _, _ => False
  end.
Proof.
  induction 1 as [|[k1 l1] [k2 l2] d1 d2 [K L] H IH]; cbn [Dict.get]; [exact I|].
  cbn [fst snd] in K, L. subst k2.
  destruct (String.eqb k k1); [exact L|exact IH].
Qed.

Lemma set_same d1 d2 k l1 l2 :
  Forall2 (same_source stamps) d1 d2 -> Forall2 (same_sample stamps) l1 l2 ->
  Forall2 (same_source stamps) (Dict.set d1 k l1) (Dict.set d2 k l2).
Proof.
  intros H L. induction H as [|[k1 v1] [k2 v2] d1 d2 [K V] H IH]; cbn [Dict.set].
  - constructor; [split; [reflexivity|exact L]|constructor].
  - cbn [fst snd] in K, V. subst k2.
    destruct (String.eqb k k1).
    + constructor; [split; [reflexivity|exact L]|exact H].
    + constructor; [split; [reflexivity|exact V]|exact IH].
Qed.

Lemma recent_same a1 a2 source count :
  Forall2 (same_source stamps) (data_sources a1) (data_sources a2) ->
  Forall2 (same_sample stamps)
    (get_recent_data a1 source count) (get_recent_data a2 source count).
Proof.
  intros H. unfold get_recent_data.
  pose proof (get_same _ _ source H) as G.
  destruct (Dict.get (data_sources a1) source) as [l1|],
           (Dict.get (data_sources a2) source) as [l2|];
    try contradiction; [|constructor].
  destruct G as [|x1 x2 l1 l2 X G]; [constructor|].
  pose proof (sorted_desc_same _ _ (Forall2_cons _ _ X G)) as S.
  rewrite (Forall2_length S). now apply Forall2_firstn.
Qed.

Lemma average_same f l1 l2 :
  Forall2 (same_sample stamps) l1 l2 -> average f l1 = average f l2.
Proof.
  intros H. unfold average. rewrite (Forall2_length H). f_equal. f_equal.
  induction H as [|x1 x2 l1 l2 [_ X] H IH]; cbn [map]; [reflexivity|].
  now rewrite X, IH.
Qed.

Lemma with_sample_same source data w1 w2 :
  same w1 w2 ->
  Forall2 (same_source stamps)
    (data_sources (with_sample env1 source data w1))
    (data_sources (with_sample env2 source data w2)).
Proof.
  intros S. unfold with_sample, Dict.mem. cbn [data_sources].
  pose proof (sr_sources _ _ _ _ S) as D.
  pose proof (get_same _ _ source D) as G.
  rewrite (sr_reads _ _ _ _ S).
  assert (N : same_sample stamps (mkSample (now_us env1 (reads w2)) data)
                (mkSample (now_us env2 (reads w2)) data))
    by (split; [apply clock_stamps|reflexivity]).
  destruct (Dict.get (data_sources (analytics w1)) source) as [l1|] eqn:G1,
           (Dict.get (data_sources (analytics w2)) source) as [l2|] eqn:G2;
    try contradiction.
  - rewrite G1, G2. cbn [default]. apply set_same; [exact D|].
    apply Forall2_app; [exact G|]. constructor; [exact N|constructor].
  - rewrite !get_set_same. cbn [default app].
    apply set_same; [apply set_same; [exact D|constructor]|].
    constructor; [exact N|constructor].
Qed.

(** *** State changes that keep two runs side by side *)

Lemma same_record a m1 m2 w1 w2 :
  same w1 w2 -> same (record_message a m1 w1) (record_message a m2 w2).
Proof. intros []. destruct a; constructor; assumption. Qed.

Lemma same_log e1 e2 w1 w2 :
  same w1 w2 -> same (log_event w1 e1) (log_event w2 e2).
Proof. intros []. constructor; assumption. Qed.

Lemma same_tick w1 w2 : same w1 w2 -> same (tick w1) (tick w2).
Proof. intros []. constructor; try assumption. cbn [tick reads]. congruence. Qed.

Lemma same_agent_id a w1 w2 : same w1 w2 -> agent_id w1 a = agent_id w2 a.
Proof. intros []. destruct a; assumption. Qed.

Lemma same_tasks p w1 w2 :
  same w1 w2 ->
  same (generate_distribution_tasks env1 p w1) (generate_distribution_tasks env2 p w2).
Proof.
  intros S. rewrite !generate_distribution_tasks_eq. cbv zeta.
  destruct S. constructor; try assumption; cbn.
  - congruence.
  - rewrite !map_app, sr_tasks0, sr_reads0, tasks_from_view. reflexivity.
Qed.

Lemma same_prediction_stored a1 a2 p1 p2 w1 w2 :
  same w1 w2 ->
  Forall2 (same_source stamps) (data_sources a1) (data_sources a2) ->
  analytics_id a1 = analytics_id a2 ->
  same (set_analytics (tick w1)
          (mkAnalytics (analytics_id a1) (analytics_messages a1) (data_sources a1)
             (Dict.set (predictions a1) (pred_id p1) p1)))
       (set_analytics (tick w2)
          (mkAnalytics (analytics_id a2) (analytics_messages a2) (data_sources a2)
             (Dict.set (predictions a2) (pred_id p2) p2))).
Proof.
  intros [] D I. constructor; try assumption. cbn [tick reads set_analytics]. congruence.
Qed.

(** *** The handlers *)

Section Handlers.
Variables publish1 publish2 : World -> Message -> Outcome World.
Hypothesis publish_same : forall w1 w2 m1 m2,
  same w1 w2 -> same_message m1 m2 ->
  same_outcome same (publish1 w1 m1) (publish2 w2 m2).

Lemma send_same self to c w1 w2 :
  same w1 w2 ->
  same_outcome same (send_message env1 publish1 self to c w1)
                    (send_message env2 publish2 self to c w2).
Proof.
  intros S. unfold send_message. apply publish_same.
  - apply same_record, same_tick, S.
  - split; [apply same_agent_id, S|]. split; reflexivity.
Qed.

Lemma for_each_send_same self (to : string -> string) c l : forall w1 w2,
  same w1 w2 ->
  same_outcome same
    (for_each_o (fun w x => send_message env1 publish1 self (to x) c w) l w1)
    (for_each_o (fun w x => send_message env2 publish2 self (to x) c w) l w2).
Proof.
  induction l as [|x l IH]; intros w1 w2 S; cbn [for_each_o]; [exact S|].
  apply (same_outcome_bind same same); [now apply send_same|].
  intros a1 a2 A. now apply IH.
Qed.

Lemma relief_same m1 m2 w1 w2 :
  same w1 w2 -> same_message m1 m2 ->
  same_outcome same (relief_process_message env1 publish1 m1 w1)
                    (relief_process_message env2 publish2 m2 w2).
Proof.
  intros S (_ & _ & C). unfold relief_process_message. rewrite C.
  destruct (content m2); try exact S.
  unfold optimize_resource_allocation.
  cbn [relief set_relief priority_areas context relief_id relief_messages].
  rewrite (sr_context _ _ _ _ S).
  destruct (allocation_plan_of _ _) as [p|]; cbn [lift obind]; [|exact I].
  apply send_same. destruct S. constructor; cbn; try assumption; reflexivity.
Qed.

Lemma volunteer_same m1 m2 w1 w2 :
  same w1 w2 -> same_message m1 m2 ->
  same_outcome same (volunteer_process_message env1 m1 w1)
                    (volunteer_process_message env2 m2 w2).
Proof.
  intros S (_ & _ & C). unfold volunteer_process_message. rewrite C.
  destruct (content m2); try exact S. now apply same_tasks.
Qed.

Lemma communication_same m1 m2 w1 w2 :
  same w1 w2 -> same_message m1 m2 ->
  same_outcome same (communication_process_message env1 publish1 m1 w1)
                    (communication_process_message env2 publish2 m2 w2).
Proof.
  intros S (_ & _ & C). unfold communication_process_message. rewrite C.
  destruct (content m2); try exact S.
  unfold broadcast_alert. rewrite (sr_teams _ _ _ _ S).
  apply (same_outcome_bind same same).
  - apply (for_each_send_same Communication
             (fun team_id => ("rescue_team_" ++ team_id)%string)); exact S.
  - intros a1 a2 A. now apply send_same.
Qed.

Lemma prediction_same source w1 w2 :
  same w1 w2 ->
  same_outcome (fun r1 r2 => same_prediction (fst r1) (fst r2) /\ same (snd r1) (snd r2))
    (generate_prediction env1 source w1) (generate_prediction env2 source w2).
Proof.
  intros S. unfold generate_prediction.
  pose proof (sr_sources _ _ _ _ S) as D.
  pose proof (recent_same (analytics w1) (analytics w2) "weather" 5 D) as W.
  destruct (String.eqb source "weather").
  - rewrite (average_same "wind_speed" _ _ W), (average_same "rainfall" _ _ W).
    destruct (average "wind_speed" _) as [aw|]; cbn [lift obind]; [|exact I].
    destruct (average "rainfall" _) as [ar|]; cbn [lift obind]; [|exact I].
    destruct (scaled_risk aw) as [r|]; cbn [lift obind]; [|exact I].
    cbn [same_outcome fst snd]. split; [repeat split|].
    apply same_prediction_stored; [exact S|exact D|apply (sr_analytics_id _ _ _ _ S)].
  - cbn [lift obind same_outcome fst snd]. split.
    + repeat split. cbn [risk_level]. now rewrite (sr_context _ _ _ _ S).
    + apply same_prediction_stored; [exact S|exact D|apply (sr_analytics_id _ _ _ _ S)].
Qed.

Lemma new_data_same source data w1 w2 :
  same w1 w2 ->
  same_outcome same (process_new_data env1 publish1 source data w1)
                    (process_new_data env2 publish2 source data w2).
Proof.
  intros S. rewrite !process_new_data_unfold. cbv zeta.
  assert (S1 : same (set_analytics (tick w1) (with_sample env1 source data w1))
                    (set_analytics (tick w2) (with_sample env2 source data w2))).
  { pose proof (with_sample_same source data w1 w2 S) as D.
    destruct S. constructor; try assumption. cbn [tick reads set_analytics]. congruence. }
  destruct (detect_significant_change source data); [|exact S1].
  apply (same_outcome_bind
           (fun r1 r2 => same_prediction (fst r1) (fst r2) /\ same (snd r1) (snd r2))
           same); [now apply prediction_same|].
  intros [p1 v1] [p2 v2] [(T & R & A & C) V]. cbn [fst snd] in *.
  rewrite R. destruct (7 <=? risk_level p2); [|exact V].
  unfold send_alert. rewrite T, R, A, C. now apply send_same.
Qed.

Lemma analytics_same m1 m2 w1 w2 :
  same w1 w2 -> same_message m1 m2 ->
  same_outcome same (analytics_process_message env1 publish1 m1 w1)
                    (analytics_process_message env2 publish2 m2 w2).
Proof.
  intros S (F & _ & C). unfold analytics_process_message. rewrite C.
  destruct (content m2); try exact S.
  - now apply new_data_same.
  - unfold assess_affected_areas, assessed_area, randint.
    rewrite (sr_reads _ _ _ _ S), !draws, F.
    apply send_same. do 6 apply same_tick. exact S.
Qed.

Lemma receive_same a m1 m2 w1 w2 :
  same w1 w2 -> same_message m1 m2 ->
  same_outcome same (receive_message env1 publish1 a m1 w1)
                    (receive_message env2 publish2 a m2 w2).
Proof.
  intros S M. unfold receive_message, process_message.
  pose proof (same_record a m1 m2 w1 w2 S) as S'.
  destruct a.
  - now apply relief_same.
  - now apply volunteer_same.
  - now apply communication_same.
  - now apply analytics_same.
Qed.

End Handlers.

Lemma publish_message_same fuel : forall w1 w2 m1 m2,
  same w1 w2 -> same_message m1 m2 ->
  same_outcome same (publish_message env1 fuel w1 m1) (publish_message env2 fuel w2 m2).
Proof.
  induction fuel as [|fuel IH]; intros w1 w2 m1 m2 S M; [exact I|].
  rewrite !publish_message_S.
  rewrite (sr_subscribers _ _ _ _ S), (proj1 (proj2 M)).
  destruct (Dict.get (subscribers w2) (msg_to m2)) as [cb|].
  - apply (same_outcome_bind same same).
    + now apply receive_same.
    + intros a1 a2 A. now apply same_log.
  - now apply same_log.
Qed.

Lemma deliver_all_same fuel ms : forall w1 w2,
  same w1 w2 ->
  same_outcome same (deliver_all env1 fuel ms w1) (deliver_all env2 fuel ms w2).
Proof.
  induction ms as [|m ms IH]; intros w1 w2 S; cbn [deliver_all]; [exact S|].
  apply (same_outcome_bind same same).
  - apply publish_message_same; [exact S|repeat split].
  - intros a1 a2 A. now apply IH.
Qed.

End SameRuns.

Lemma same_run_start (stamps : Z -> Z -> Prop) view (w : World) :
  (forall t, In t (stored_stamps w) -> stamps t t) -> same_run stamps view w w.
Proof.
  intros H. constructor; try reflexivity.
  unfold stored_stamps in H. induction (data_sources (analytics w)) as [|[k l] d IH];
    [constructor|].
  constructor.
  - split; [reflexivity|]. cbn [snd].
    assert (L : forall t, In t (map sample_timestamp l) -> stamps t t)
      by (intros t I; apply H; cbn [flat_map snd]; apply in_or_app; now left).
    clear -L. induction l as [|s l IH]; constructor.
    + split; [apply L; now left|reflexivity].
    + apply IH. intros t I. apply L. now right.
  - apply IH. intros t I. apply H. cbn [flat_map]. apply in_or_app. now right.
Qed.

Lemma publish_message_three env fuel w m :
  (3 <= fuel)%nat -> publish_message env fuel w m = publish_message env 3 w m.
Proof.
  induction 1 as [|fuel H IH]; [reflexivity|].
  rewrite publish_message_deeper; [exact IH|].
  now apply publish_message_returns.
Qed.

Lemma deliver_all_three env fuel ms : forall w,
  (3 <= fuel)%nat ->
  deliver_all env fuel ms w = deliver_all env 3 ms w
  /\ deliver_all env 3 ms w <> OutOfFuel.
Proof.
  induction ms as [|m ms IH]; intros w H; cbn [deliver_all].
  - split; [reflexivity|discriminate].
  - rewrite (publish_message_three env fuel w m H).
    pose proof (publish_message_returns env 3 w m (le_n 3)) as P.
    destruct (publish_message env 3 w m) as [w'| |]; cbn [obind].
    + now apply IH.
    + split; [reflexivity|discriminate].
    + now elim P.
Qed.

(** C7 as stated fails: a run depends on more than the messages it is
    given.  First, the same need assessment handled from the same state
    gives the same plan under two clocks, but not the same tasks, because
    the id holds the second the task was created in.  Second, the clock
    decides which weather samples are the five most recent: with a clock
    that starts before the samples held, the window of a new reading
    keeps the sample whose rainfall is out of a float's range and the
    delivery raises, so the need assessment that follows is never
    handled; with a later clock both are handled and a plan is made.
    Third, the areas of a requested assessment are drawn at random: two
    random sources give two plans. *)
Lemma runs_depend_on_clock_and_draws :
  (let m := need_assessment [area_A; area_B] in
   let run start := deliver_all (sample_env start) 3 [m] scenario_world in
   let w1 := result_of (run 0) scenario_world in
   let w2 := result_of (run 5000000) scenario_world in
   run 0 = Done w1 /\ run 5000000 = Done w2
   /\ resource_allocation_plan (relief w1) = resource_allocation_plan (relief w2)
   /\ pending_tasks (volunteer w1) <> pending_tasks (volunteer w2))
  /\ (let reading :=
        mkMessage "communication" "analytics" 0
          (NewData "weather" [("wind_speed", 60)]) in
      let ms := [reading; need_assessment [area_A; area_B]] in
      let w1 := result_of (deliver_all (sample_env 20) 3 ms stormy_world) stormy_world in
      deliver_all (sample_env 0) 3 ms stormy_world = Raised
      /\ deliver_all (sample_env 20) 3 ms stormy_world = Done w1
      /\ resource_allocation_plan (relief w1) <> [])
  /\ (let request :=
        mkMessage "relief_coordinator" "analytics" 0
          (RequestAreaAssessment "earthquake" "Los Angeles") in
      let run draw :=
        deliver_all (mkEnv (fun k => Z.of_nat k) draw) 3 [request] scenario_world in
      let w1 := result_of (run (fun k => 7 * Z.of_nat k + 3)) scenario_world in
      let w2 := result_of (run (fun k => 5 * Z.of_nat k + 1)) scenario_world in
      run (fun k => 7 * Z.of_nat k + 3) = Done w1
      /\ run (fun k => 5 * Z.of_nat k + 1) = Done w2
      /\ resource_allocation_plan (relief w1) <> resource_allocation_plan (relief w2)).
Proof.
  cbv zeta. split; [|split].
  - split; [vm_compute; reflexivity|].
    split; [vm_compute; reflexivity|].
    split; [vm_compute; reflexivity|].
    vm_compute. discriminate.
  - split; [vm_compute; reflexivity|].
    split; [vm_compute; reflexivity|].
    vm_compute. discriminate.
  - split; [vm_compute; reflexivity|].
    split; [vm_compute; reflexivity|].
    vm_compute. discriminate.
Qed.

(** C7, amended: two runs that deliver the same messages in the same
    order from the same state, with the same random draws and with
    clocks that put the instants they show, and the timestamps already
    stored, in the same order, either both raise or both return; when
    they return they hold the same allocation plan and pending tasks that
    agree in every field but the id, and the ids agree too whenever the
    two clocks show the same second at every read. *)
Theorem runs_agree_up_to_task_ids (env1 env2 : Env) (fuel1 fuel2 : nat)
    (ms : list Message) (w : World) :
  (3 <= fuel1)%nat -> (3 <= fuel2)%nat ->
  (forall k, rand env1 k = rand env2 k) ->
  same_order env1 env2 w ->
  (deliver_all env1 fuel1 ms w = Raised /\ deliver_all env2 fuel2 ms w = Raised)
  \/ exists w1 w2,
       deliver_all env1 fuel1 ms w = Done w1
       /\ deliver_all env2 fuel2 ms w = Done w2
       /\ resource_allocation_plan (relief w1) = resource_allocation_plan (relief w2)
       /\ map without_id (pending_tasks (volunteer w1))
          = map without_id (pending_tasks (volunteer w2))
       /\ ((forall k, time_s env1 k = time_s env2 k) ->
           pending_tasks (volunteer w1) = pending_tasks (volunteer w2)).
Proof.
  intros F1 F2 D O.
  destruct (deliver_all_three env1 fuel1 ms w F1) as [E1 N1].
  destruct (deliver_all_three env2 fuel2 ms w F2) as [E2 N2].
  rewrite E1, E2.
  assert (A : forall view,
            (forall area resource_type quantity k,
               view (distribution_task area resource_type quantity (time_s env1 k))
               = view (distribution_task area resource_type quantity (time_s env2 k))) ->
            same_outcome (same_run (corresponding env1 env2 w) view)
              (deliver_all env1 3 ms w) (deliver_all env2 3 ms w)).
  { intros view V. apply deliver_all_same.
    - exact V.
    - exact D.
    - intros k. right. exists k. split; reflexivity.
    - exact O.
    - apply same_run_start. intros t I. left. split; [reflexivity|exact I]. }
  pose proof (A without_id (fun _ _ _ _ => eq_refl)) as B.
  destruct (deliver_all env1 3 ms w) as [w1| |], (deliver_all env2 3 ms w) as [w2| |];
    cbn [same_outcome] in B; try contradiction;
    try (now elim N1); try (now elim N2).
  - right. exists w1, w2. split; [reflexivity|]. split; [reflexivity|].
    split; [exact (sr_plan _ _ _ _ B)|]. split; [exact (sr_tasks _ _ _ _ B)|].
    intros C.
    assert (V : forall area resource_type quantity k,
              (fun t : Task => t)
                (distribution_task area resource_type quantity (time_s env1 k))
              = (fun t : Task => t)
                  (distribution_task area resource_type quantity (time_s env2 k)))
      by (intros; cbv beta; now rewrite C).
    pose proof (sr_tasks _ _ _ _ (A (fun t => t) V)) as T.
    now rewrite !map_id in T.
  - left. split; reflexivity.
Qed.

Lemma runs_agree_up_to_task_ids_witness :
  let reading :=
    mkMessage "communication" "analytics" 0
      (NewData "weather" [("wind_speed", 80); ("rainfall", 5)]) in
  let ms := [reading; need_assessment [area_A; area_B]] in
  let run start := deliver_all (sample_env start) 3 ms scenario_world in
  (run 0 = Raised /\ run 5000000 = Raised)
  \/ exists w1 w2,
       run 0 = Done w1 /\ run 5000000 = Done w2
       /\ resource_allocation_plan (relief w1) = resource_allocation_plan (relief w2)
       /\ map without_id (pending_tasks (volunteer w1))
          = map without_id (pending_tasks (volunteer w2))
       /\ ((forall k, time_s (sample_env 0) k = time_s (sample_env 5000000) k) ->
           pending_tasks (volunteer w1) = pending_tasks (volunteer w2)).
Proof.
  intros reading ms run.
  apply (runs_agree_up_to_task_ids (sample_env 0) (sample_env 5000000) 3 3
           ms scenario_world).
  - lia.
  - lia.
  - reflexivity.
  - intros a1 a2 b1 b2 [[_ []]|[j [-> ->]]] [[_ []]|[k [-> ->]]].
    cbn [sample_env now_us].
    destruct (Z.ltb_spec (0 + Z.of_nat j) (0 + Z.of_nat k)),
             (Z.ltb_spec (5000000 + Z.of_nat j) (5000000 + Z.of_nat k));
      try reflexivity; lia.
Defined.
